(** * Storage abstraction layer: a shallow embedding and its properties

    The development follows the layout of the storage package:
    - [JsString], [Regex]: the string primitives and regular expressions of
      the host language that the package relies on;
    - [Utils]: the pathname utilities ([validatePathname],
      [extractPathnameFromUrl], the base64 helpers);
    - [Types]: the bucket registry ([getBucketPrefix], [buildPathname]);
    - [VercelBlobProvider]: the provider class, written against an
      abstract blob backend, in a state-and-exception monad;
    - [Index]: the lazily built, process-wide storage handle;
    - [MemoryBlob], [Recorder]: a backend to run the provider on, and a
      log of the requests a backend receives;
    - [Filenames], [OrgPath]: the remaining utilities (generated file
      names, content types, organization paths);
    - [AppStorage]: the wrappers the applications call;
    - [RegexSemantics]: what a pattern matches, against which the matcher
      of [Regex] is proved correct;
    - [Words], [Spec]: the vocabulary of the statements, which follow.

    Strings are [string] values read as UTF-8 code unit sequences; every
    pattern the package searches for is ASCII, so searching the UTF-8 form
    and searching the UTF-16 form of a string agree. *)

From stdpp Require Import base gmap strings list.
From Stdlib Require Import String Ascii NArith ZArith Lia Bool DecimalString DecimalN.
Import ListNotations.

Set Implicit Arguments.

(* ================================================================= *)
(** ** Exceptions and results *)

(** Values that the code throws: [new Error(message)], the [URIError] of
    [decodeURIComponent], and exceptions raised by the platform or by the
    blob backend, which the package never inspects. *)
Inductive exn : Type :=
| Error (message : string)
| URIError
| Foreign (name : string).

Inductive result (A : Type) : Type :=
| Ok (a : A)
| Throw (e : exn).
Arguments Ok {A} a.
Arguments Throw {A} e.

Definition is_ok {A} (r : result A) : bool :=
  match r with Ok _ => true | Throw _ => false end.

(* ================================================================= *)
(** ** String primitives *)

Module JsString.

Definition strlen (s : string) : nat := String.length s.

(** [s.startsWith(p)] *)
Fixpoint startsWith (s p : string) : bool :=
  match p, s with
  | EmptyString, _ => true
  | String _ _, EmptyString => false
  | String b p', String a s' => Ascii.eqb a b && startsWith s' p'
  end.

(** [s.includes(p)] *)
Fixpoint includes (s p : string) : bool :=
  startsWith s p ||
  match s with
  | EmptyString => false
  | String _ s' => includes s' p
  end.

(** [s.endsWith(p)]: the last [p.length] code units of [s] are [p]. *)
Definition endsWith (s p : string) : bool :=
  (strlen p <=? strlen s)%nat &&
  String.eqb (substring (strlen s - strlen p) (strlen p) s) p.

(** [s.substring(1)] and [s.slice(1)]: drop the first code unit. *)
Definition substring1 (s : string) : string :=
  match s with
  | EmptyString => EmptyString
  | String _ s' => s'
  end.

Definition is_upper (c : ascii) : bool :=
  ((65 <=? N_of_ascii c) && (N_of_ascii c <=? 90))%N.
Definition is_lower (c : ascii) : bool :=
  ((97 <=? N_of_ascii c) && (N_of_ascii c <=? 122))%N.
Definition is_digit (c : ascii) : bool :=
  ((48 <=? N_of_ascii c) && (N_of_ascii c <=? 57))%N.

Definition lower_char (c : ascii) : ascii :=
  if is_upper c then ascii_of_N (N_of_ascii c + 32) else c.
Definition upper_char (c : ascii) : ascii :=
  if is_lower c then ascii_of_N (N_of_ascii c - 32) else c.

(** [s.toLowerCase()] on the ASCII letters.  Code units outside ASCII are
    kept: the package only looks for ASCII text in a lower-cased string. *)
Fixpoint toLowerCase (s : string) : string :=
  match s with
  | EmptyString => EmptyString
  | String c s' => String (lower_char c) (toLowerCase s')
  end.

(** [s.split(sep)] for a separator of one code unit. *)
Fixpoint split (s : string) (sep : ascii) : list string :=
  match s with
  | EmptyString => [EmptyString]
  | String c s' =>
      if Ascii.eqb c sep then EmptyString :: split s' sep
      else match split s' sep with
           | h :: t => String c h :: t
           | [] => [String c EmptyString]
           end
  end.

Definition isEmpty (s : string) : bool :=
  match s with EmptyString => true | _ => false end.

End JsString.

(* ================================================================= *)
(** ** Regular expressions *)

(** The two patterns of the package use character classes, sequencing,
    alternation, optional and repeated groups, a leading [^] and the
    assertion [$]; neither has back-references or look-around, so a match
    exists exactly when the derivative of the pattern along the input
    accepts.  The leading [^] is the matching mode of [test]. *)
Module Regex.

Inductive regex : Type :=
| Never
| Eps
| Eos                              (* the assertion $ *)
| Cls (p : ascii -> bool)          (* a character class *)
| Seq (r1 r2 : regex)
| Alt (r1 r2 : regex)
| Star (r : regex).

(** Does [r] match the empty word, at the end of the input or not? *)
Fixpoint nullable (at_end : bool) (r : regex) : bool :=
  match r with
  | Never => false
  | Eps => true
  | Eos => at_end
  | Cls _ => false
  | Seq r1 r2 => nullable at_end r1 && nullable at_end r2
  | Alt r1 r2 => nullable at_end r1 || nullable at_end r2
  | Star _ => true
  end.

Definition seq (r1 r2 : regex) : regex :=
  match r1, r2 with
  | Never, _ => Never
  | _, Never => Never
  | Eps, _ => r2
  | _, _ => Seq r1 r2
  end.

Definition alt (r1 r2 : regex) : regex :=
  match r1, r2 with
  | Never, _ => r2
  | _, Never => r1
  | _, _ => Alt r1 r2
  end.

Fixpoint deriv (c : ascii) (r : regex) : regex :=
  match r with
  | Never | Eps | Eos => Never
  | Cls p => if p c then Eps else Never
  | Seq r1 r2 =>
      alt (seq (deriv c r1) r2)
          (if nullable false r1 then deriv c r2 else Never)
  | Alt r1 r2 => alt (deriv c r1) (deriv c r2)
  | Star r1 => seq (deriv c r1) (Star r1)
  end.

(** [/^r/.test(s)]: some prefix of [s] matches [r]. *)
Fixpoint test (r : regex) (s : string) : bool :=
  match s with
  | EmptyString => nullable true r
  | String c s' => nullable false r || test (deriv c r) s'
  end.

(** Pattern syntax. *)
Definition Chr (c : ascii) : regex := Cls (Ascii.eqb c).
Fixpoint Lit (s : string) : regex :=
  match s with
  | EmptyString => Eps
  | String c s' => Seq (Chr c) (Lit s')
  end.
Definition Opt (r : regex) : regex := Alt r Eps.      (* r? *)
Definition Plus (r : regex) : regex := Seq r (Star r). (* r+ *)
Definition AtLeast2 (r : regex) : regex := Seq r (Seq r (Star r)). (* r{2,} *)

(** Character classes. *)
Definition range (lo hi : ascii) (c : ascii) : bool :=
  ((N_of_ascii lo <=? N_of_ascii c) && (N_of_ascii c <=? N_of_ascii hi))%N.
Definition one (a : ascii) (c : ascii) : bool := Ascii.eqb a c.
Definition union (p q : ascii -> bool) (c : ascii) : bool := p c || q c.
(** [\w] *)
Definition word (c : ascii) : bool :=
  range "a" "z" c || range "A" "Z" c || range "0" "9" c || one "_" c.
(** A class under the [i] flag: membership up to ASCII case. *)
Definition ignoreCase (p : ascii -> bool) (c : ascii) : bool :=
  p c || p (JsString.lower_char c) || p (JsString.upper_char c).

End Regex.

(* ================================================================= *)
(** ** Platform built-ins used by the utilities *)

(** [Buffer]: a byte sequence. *)
Definition Buffer : Type := list Byte.byte.

Module NodeBuffer.

Definition alphabet : string :=
  "ABCDEFGHIJKLMNOPQRSTUVWXYZabcdefghijklmnopqrstuvwxyz0123456789+/".

Definition base64_char (n : N) : ascii :=
  match String.get (N.to_nat n) alphabet with
  | Some c => c
  | None => "="%char
  end.

(** The value of a base64 character; the decoder accepts the standard
    and the URL-safe alphabet. *)
Definition unbase64 (c : ascii) : option N :=
  let n := N_of_ascii c in
  if Regex.range "A" "Z" c then Some (n - 65)%N
  else if Regex.range "a" "z" c then Some (n - 97 + 26)%N
  else if Regex.range "0" "9" c then Some (n - 48 + 52)%N
  else if Ascii.eqb c "+" || Ascii.eqb c "-" then Some 62%N
  else if Ascii.eqb c "/" || Ascii.eqb c "_" then Some 63%N
  else None.

Definition byte_of_N (n : N) : Byte.byte :=
  match Byte.of_N (n mod 256) with
  | Some b => b
  | None => Byte.x00
  end.

(** [buffer.toString('base64')]: three bytes give four characters, the
    last group is padded with [=]. *)
Fixpoint toString_base64 (buffer : Buffer) : string :=
  match buffer with
  | [] => EmptyString
  | [x] =>
      let a := Byte.to_N x in
      String (base64_char (a / 4))
        (String (base64_char (a mod 4 * 16)) "==")
  | [x; y] =>
      let a := Byte.to_N x in
      let b := Byte.to_N y in
      String (base64_char (a / 4))
        (String (base64_char (a mod 4 * 16 + b / 16))
           (String (base64_char (b mod 16 * 4)) "="))
  | x :: y :: z :: rest =>
      let a := Byte.to_N x in
      let b := Byte.to_N y in
      let c := Byte.to_N z in
      String (base64_char (a / 4))
        (String (base64_char (a mod 4 * 16 + b / 16))
           (String (base64_char (b mod 16 * 4 + c / 64))
              (String (base64_char (c mod 64))
                 (toString_base64 rest))))
  end%N.

(** The decoder reads up to the first [=], skipping every character
    that is not a base64 character. *)
Fixpoint sextets (s : string) : list N :=
  match s with
  | EmptyString => []
  | String c s' =>
      if Ascii.eqb c "=" then []
      else match unbase64 c with
           | Some v => v :: sextets s'
           | None => sextets s'
           end
  end.

(** A byte is written as soon as the second, third and fourth character
    of a group has been read. *)
Fixpoint bytes_of_sextets (l : list N) : Buffer :=
  match l with
  | s0 :: s1 :: s2 :: s3 :: rest =>
      byte_of_N (s0 * 4 + s1 / 16)
        :: byte_of_N (s1 mod 16 * 16 + s2 / 4)
        :: byte_of_N (s2 mod 4 * 64 + s3)
        :: bytes_of_sextets rest
  | [s0; s1; s2] =>
      [byte_of_N (s0 * 4 + s1 / 16); byte_of_N (s1 mod 16 * 16 + s2 / 4)]
  | [s0; s1] => [byte_of_N (s0 * 4 + s1 / 16)]
  | _ => []
  end%N.

(** [Buffer.from(s, 'base64')] on ASCII text, which is what the encoder
    produces.  (Of a character outside ASCII the platform reads the low
    byte of each code unit; here its bytes are skipped like any other
    character outside the alphabet.) *)
Definition from_base64 (s : string) : Buffer := bytes_of_sextets (sextets s).

End NodeBuffer.

(** [decodeURIComponent]: percent-decoding.  An escape below [0x80] gives
    that character; an escape with the high bit set starts a UTF-8
    sequence that must be continued by escapes and be well formed.  [None]
    stands for the [URIError] the built-in throws. *)
Module UriDecode.

Definition hexval (c : ascii) : option N :=
  let n := N_of_ascii c in
  if Regex.range "0" "9" c then Some (n - 48)%N
  else if Regex.range "a" "f" c then Some (n - 87)%N
  else if Regex.range "A" "F" c then Some (n - 55)%N
  else None.

Inductive token : Type :=
| Lit (c : ascii)
| Oct (b : N).

(** Every [%] must be followed by two hexadecimal digits. *)
Fixpoint tokens (s : string) : option (list token) :=
  match s with
  | EmptyString => Some []
  | String c r =>
      if Ascii.eqb c "%" then
        match r with
        | String h (String l r') =>
            match hexval h, hexval l, tokens r' with
            | Some a, Some b, Some ts => Some (Oct (16 * a + b)%N :: ts)
            | _, _, _ => None
            end
        | _ => None
        end
      else
        match tokens r with
        | Some ts => Some (Lit c :: ts)
        | None => None
        end
  end.

Definition between (lo hi b : N) : bool := ((lo <=? b) && (b <=? hi))%N.
Definition cont (b : N) : bool := between 128 191 b.

(** Well-formed UTF-8 byte sequences (no overlong forms, no surrogates,
    nothing above U+10FFFF). *)
Definition valid2 (b0 b1 : N) : bool := between 194 223 b0 && cont b1.
Definition valid3 (b0 b1 b2 : N) : bool :=
  ((N.eqb b0 224 && between 160 191 b1)
   || (between 225 236 b0 && cont b1)
   || (N.eqb b0 237 && between 128 159 b1)
   || (between 238 239 b0 && cont b1))
  && cont b2.
Definition valid4 (b0 b1 b2 b3 : N) : bool :=
  ((N.eqb b0 240 && between 144 191 b1)
   || (between 241 243 b0 && cont b1)
   || (N.eqb b0 244 && between 128 143 b1))
  && cont b2 && cont b3.

Definition chars (bs : list N) (s : string) : string :=
  fold_right (fun b acc => String (ascii_of_N b) acc) s bs.

Fixpoint assemble (ts : list token) : option string :=
  match ts with
  | [] => Some EmptyString
  | Lit c :: r => String c <$> assemble r
  | Oct b0 :: r =>
      if (b0 <? 128)%N then String (ascii_of_N b0) <$> assemble r
      else if (b0 <? 192)%N then None
      else if (b0 <? 224)%N then
        match r with
        | Oct b1 :: r' =>
            if valid2 b0 b1 then chars [b0; b1] <$> assemble r' else None
        | _ => None
        end
      else if (b0 <? 240)%N then
        match r with
        | Oct b1 :: Oct b2 :: r' =>
            if valid3 b0 b1 b2 then chars [b0; b1; b2] <$> assemble r'
            else None
        | _ => None
        end
      else if (b0 <? 248)%N then
        match r with
        | Oct b1 :: Oct b2 :: Oct b3 :: r' =>
            if valid4 b0 b1 b2 b3
            then chars [b0; b1; b2; b3] <$> assemble r'
            else None
        | _ => None
        end
      else None
  end.

Definition decodeURIComponent (s : string) : option string :=
  match tokens s with
  | Some ts => assemble ts
  | None => None
  end.

End UriDecode.

(* ================================================================= *)
(** ** utils.ts: pathname utilities *)

(** [result] is a monad; [e ;; k] runs [e] for its exception only, as a
    statement [e;] does. *)
#[global] Instance result_ret : MRet result := fun _ a => Ok a.
#[global] Instance result_bind : MBind result :=
  fun _ _ k r => match r with Ok a => k a | Throw e => Throw e end.

Module Utils.
Import JsString.

(** The values a caller can pass where a string is expected. *)
Inductive JsValue : Type :=
| JsUndefined
| JsNull
| JsBoolean (b : bool)
| JsNumber (n : Z)
| JsString (s : string)
| JsObject.

(** [!v] is [negb (truthy v)]. *)
Definition truthy (v : JsValue) : bool :=
  match v with
  | JsUndefined | JsNull => false
  | JsBoolean b => b
  | JsNumber n => negb (Z.eqb n 0)
  | JsString s => negb (isEmpty s)
  | JsObject => true
  end.

Definition typeof (v : JsValue) : string :=
  match v with
  | JsUndefined => "undefined"
  | JsNull => "object"
  | JsBoolean _ => "boolean"
  | JsNumber _ => "number"
  | JsString _ => "string"
  | JsObject => "object"
  end.

Definition text (v : JsValue) : string :=
  match v with JsString s => s | _ => EmptyString end.

(** The three errors of [validatePathname]. *)
Inductive InvalidReason : Type := NotNonEmptyString | PathTraversal | NullByte.

Definition InvalidPathname (r : InvalidReason) : exn :=
  match r with
  | NotNonEmptyString => Error "Invalid pathname: must be a non-empty string"
  | PathTraversal => Error "Invalid pathname: path traversal detected"
  | NullByte => Error "Invalid pathname: null byte detected"
  end.

Definition dotDotSlash : string := "../".
Definition dotDotBackslash : string := String "." (String "." (String "092" EmptyString)).
Definition nul : string := String "000" EmptyString.

Definition validatePathname (pathname : JsValue) : result unit :=
  if negb (truthy pathname) || negb (String.eqb (typeof pathname) "string")
  then Throw (InvalidPathname NotNonEmptyString)
  else if includes (text pathname) dotDotSlash
          || includes (text pathname) dotDotBackslash
  then Throw (InvalidPathname PathTraversal)
  else if includes (text pathname) nul
  then Throw (InvalidPathname NullByte)
  else Ok tt.

(** The errors of [extractPathnameFromUrl]. *)
Definition EmptyInput : exn := Error "Invalid input: URL must be a non-empty string".
Definition UntrustedHost : exn := Error "Invalid URL: Not a valid storage endpoint".
Definition MalformedInput : exn := Error "Invalid input: Malformed URL detected".
Definition SuspiciousPattern : exn :=
  Error "Invalid input: Domain-like pattern detected in pathname".
Definition EmptyPathname : exn := Error "Invalid pathname: cannot be empty".

Import Regex.

(** [[\w.-]] and [[\w-]] *)
Definition wordDotDash : ascii -> bool := union word (union (one ".") (one "-")).
Definition wordDash : ascii -> bool := union word (one "-").

(** [/^([\w.-]+\.)?(s3|s3-[\w-]+|s3-website[\w.-]+|s3-accesspoint|s3-control)(\.[\w-]+)?\.amazonaws\.com$/] *)
Definition s3HostPattern : regex :=
  Seq (Opt (Seq (Plus (Cls wordDotDash)) (Chr ".")))
    (Seq (Alt (Lit "s3")
           (Alt (Seq (Lit "s3-") (Plus (Cls wordDash)))
              (Alt (Seq (Lit "s3-website") (Plus (Cls wordDotDash)))
                 (Alt (Lit "s3-accesspoint") (Lit "s3-control")))))
       (Seq (Opt (Seq (Chr ".") (Plus (Cls wordDash))))
          (Seq (Lit ".amazonaws.com") Eos))).

Definition isValidStorageHost (host : string) : bool :=
  let normalizedHost := toLowerCase host in
  if endsWith normalizedHost ".blob.vercel-storage.com"
     || endsWith normalizedHost ".vercel-storage.com"
  then true
  else if endsWith normalizedHost ".amazonaws.com"
  then test s3HostPattern normalizedHost
  else false.

(** [[a-z0-9]], [[a-z0-9-]] and [[a-z]] under the [i] flag. *)
Definition alnum : ascii -> bool :=
  ignoreCase (union (range "a" "z") (range "0" "9")).
Definition alnumDash : ascii -> bool :=
  ignoreCase (union (union (range "a" "z") (range "0" "9")) (one "-")).
Definition alpha : ascii -> bool := ignoreCase (range "a" "z").

(** [[a-z0-9]([a-z0-9-]*[a-z0-9])?] *)
Definition label : regex :=
  Seq (Cls alnum) (Opt (Seq (Star (Cls alnumDash)) (Cls alnum))).

(** [/^[a-z0-9]([a-z0-9-]*[a-z0-9])?(\.[a-z0-9]([a-z0-9-]*[a-z0-9])?)*\.[a-z]{2,}(\/|$)/i] *)
Definition domainPattern : regex :=
  Seq label
    (Seq (Star (Seq (Chr ".") label))
       (Seq (Chr ".")
          (Seq (AtLeast2 (Cls alpha))
             (Alt (Chr "/") Eos)))).

(** What the code reads of a parsed URL. *)
Record URL : Type := { host : string; pathname : string }.

Definition stripLeadingSlash (url : string) : string :=
  if startsWith url "/" then substring1 url else url.

Section ExtractPathname.

(** [new URL(input)], [None] when the constructor throws. *)
Variable new_URL : string -> option URL.

Definition extractPathnameFromUrl (url : string) : result string :=
  if isEmpty url then Throw EmptyInput
  else
    match new_URL url with
    | Some parsedUrl =>
        if negb (isValidStorageHost (host parsedUrl))
        then Throw UntrustedHost
        else
          match UriDecode.decodeURIComponent (substring1 (pathname parsedUrl)) with
          | None => Throw URIError
          | Some pathname =>
              validatePathname (JsString pathname) ;;
              Ok pathname
          end
    | None =>
        let lowerInput := toLowerCase url in
        if includes lowerInput "://" then Throw MalformedInput
        else if test domainPattern url then Throw SuspiciousPattern
        else
          validatePathname (JsString url) ;;
          let pathname := stripLeadingSlash url in
          if isEmpty pathname then Throw EmptyPathname
          else Ok pathname
    end.

End ExtractPathname.

(** [base64ToBuffer] and [bufferToBase64] *)
Definition base64ToBuffer (base64 : string) : Buffer :=
  let base64Data :=
    if includes base64 ","
    then match nth_error (split base64 ",") 1 with
         | Some part => part
         | None => base64
         end
    else base64 in
  NodeBuffer.from_base64 base64Data.

Definition bufferToBase64 (buffer : Buffer) : string :=
  NodeBuffer.toString_base64 buffer.

End Utils.

(** ** A URL constructor for plain URLs *)

Module PlainUrl.
Import JsString Regex Utils.

(** A constructor for the absolute URLs [scheme://host/path] that the
    platform's parser leaves as they are: a lower-case [http] or [https]
    scheme, a host of lower-case labels whose last label is not a
    number, and a path without dot segments.  It instantiates [new_URL]
    in examples. *)
Definition hostChar (c : ascii) : bool :=
  range "a" "z" c || range "0" "9" c || one "-" c || one "." c.
Definition pathChar (c : ascii) : bool :=
  word c || one "-" c || one "." c || one "/" c || one "%" c.

Definition dotSegment (seg : string) : bool :=
  existsb (String.eqb (toLowerCase seg))
          ["."; "%2e"; ".."; ".%2e"; "%2e."; "%2e%2e"].

Fixpoint hostAndPath (s : string) : string * string :=
  match s with
  | EmptyString => (EmptyString, EmptyString)
  | String c s' =>
      if Ascii.eqb c "/" then (EmptyString, s)
      else let '(h, p) := hostAndPath s' in (String c h, p)
  end.

Definition lastLabel (h : string) : string :=
  List.last (split h ".") EmptyString.

Definition plainHost (h : string) : bool :=
  negb (isEmpty h)
  && forallb hostChar (list_ascii_of_string h)
  && forallb (fun l => negb (isEmpty l) && negb (startsWith l "xn--"))
             (split h ".")
  && negb (existsb is_digit (list_ascii_of_string (substring 0 1 (lastLabel h)))).

Definition plainPath (p : string) : bool :=
  forallb pathChar (list_ascii_of_string p)
  && negb (existsb dotSegment (split p "/")).

Definition plain_URL (s : string) : option URL :=
  let rest :=
    if startsWith s "https://" then Some (substring 8 (strlen s - 8) s)
    else if startsWith s "http://" then Some (substring 7 (strlen s - 7) s)
    else None in
  match rest with
  | Some r =>
      let '(h, p) := hostAndPath r in
      if plainHost h && plainPath p
      then Some {| host := h; pathname := if isEmpty p then "/" else p |}
      else None
  | None => None
  end.

End PlainUrl.

(* ================================================================= *)
(** ** types.ts: option and result shapes, the bucket registry *)

Module UploadOptions.
Record t : Type := {
  contentType : option string;
  cacheControl : option string;
  contentDisposition : option string;
  metadata : option (list (string * string));
  access : option string;
  addRandomSuffix : option bool
}.
End UploadOptions.

Module UploadResult.
Record t : Type := {
  url : string;
  pathname : string;
  contentType : string;
  size : N
}.
End UploadResult.

Module UrlOptions.
Record t : Type := {
  expiresIn : option N;
  download : option bool;
  filename : option string;
  contentType : option string
}.
End UrlOptions.

Module ListOptions.
Record t : Type := {
  prefix : option string;
  limit : option N;
  cursor : option string
}.
End ListOptions.

Module BlobInfo.
Record t : Type := {
  pathname : string;
  url : string;
  size : N;
  uploadedAt : N
}.
End BlobInfo.

Module ListResult.
Record t : Type := {
  blobs : list BlobInfo.t;
  cursor : option string;
  hasMore : bool
}.
End ListResult.

Module HeadResult.
Record t : Type := {
  url : string;
  pathname : string;
  contentType : string;
  size : N;
  uploadedAt : N;
  cacheControl : option string;
  contentDisposition : option string
}.
End HeadResult.

Module Types.
Import JsString.

Inductive StorageBucket : Type :=
| attachments
| questionnaires
| knowledge_base
| org_assets
| fleet_agents.

(** The string each member of the union type stands for. *)
Definition bucketName (bucket : StorageBucket) : string :=
  match bucket with
  | attachments => "attachments"
  | questionnaires => "questionnaires"
  | knowledge_base => "knowledge-base"
  | org_assets => "org-assets"
  | fleet_agents => "fleet-agents"
  end.

Definition getBucketPrefix (bucket : StorageBucket) : string :=
  bucketName bucket +:+ "/".

Definition buildPathname (bucket : StorageBucket) (key : string) : string :=
  let cleanKey := if startsWith key "/" then substring1 key else key in
  getBucketPrefix bucket +:+ cleanKey.

End Types.

(* ================================================================= *)
(** ** The state-and-exception monad of the asynchronous operations *)

(** An operation runs against the state of the world outside the package
    and either returns or throws; what it changed before throwing stays
    changed.  Awaited calls run one after the other. *)
Definition M (St A : Type) : Type := St -> result A * St.

#[global] Instance M_ret {St} : MRet (M St) := fun _ a st => (Ok a, st).
#[global] Instance M_bind {St} : MBind (M St) :=
  fun _ _ k m st =>
    match m st with
    | (Ok a, st') => k a st'
    | (Throw e, st') => (Throw e, st')
    end.

Definition throw {St A} (e : exn) : M St A := fun st => (Throw e, st).

(** [await promise] for a promise that settles without touching the
    world: the value it fulfils with, or the error it rejects with. *)
Definition await {St A} (settled : result A) : M St A := fun st => (settled, st).

(** [try { m } catch { handler }] *)
Definition tryCatch {St A} (m : M St A) (handler : exn -> M St A) : M St A :=
  fun st =>
    match m st with
    | (Ok a, st') => (Ok a, st')
    | (Throw e, st') => handler e st'
    end.

(* ================================================================= *)
(** ** The blob SDK and the web platform, as the provider sees them *)

Module PutCommandOptions.
Record t : Type := {
  access : string;
  token : string;
  contentType : option string;
  cacheControlMaxAge : option N;
  addRandomSuffix : bool
}.
End PutCommandOptions.

Module PutBlobResult.
Record t : Type := {
  url : string;
  pathname : string;
  contentType : string
}.
End PutBlobResult.

Module HeadBlobResult.
Record t : Type := {
  url : string;
  pathname : string;
  contentType : string;
  size : N;
  uploadedAt : N;
  cacheControl : option string;
  contentDisposition : option string
}.
End HeadBlobResult.

Module ListCommandOptions.
Record t : Type := {
  token : string;
  prefix : option string;
  limit : option N;
  cursor : option string
}.
End ListCommandOptions.

Module ListBlobResult.
Record t : Type := {
  blobs : list BlobInfo.t;
  cursor : option string;
  hasMore : bool
}.
End ListBlobResult.

Module Response.
(** A body stream ([ReadableStream]), by what reading it to its end
    gives: the bytes, or the error the read fails with (a connection
    that breaks after the status line, say). *)
Definition ReadableStream : Type := result Buffer.
Record t : Type := {
  status : N;
  statusText : string;
  body : option ReadableStream
}.
(** [response.ok]: the status is in the range 200-299. *)
Definition ok (r : t) : bool := ((200 <=? status r) && (status r <=? 299))%N.
(** The promise [response.arrayBuffer()]: the body read to its end; a
    response without a body reads as empty. *)
Definition arrayBuffer (r : t) : result Buffer :=
  match body r with Some stream => stream | None => Ok [] end.
End Response.

(** [del] takes one URL or an array of URLs. *)
Inductive DelTarget : Type :=
| DelOne (url : string)
| DelMany (urls : list string).

(** The functions the provider imports: [put], [del], [head] and [list] of
    the blob SDK, the platform's [fetch], and the platform's URL object
    ([new URL(url)], [searchParams.set], [toString]).  They are given; the
    provider is verified against every implementation of them. *)
Class Backend (St : Type) : Type := {
  sdk_put : string -> Buffer -> PutCommandOptions.t -> M St PutBlobResult.t;
  sdk_del : DelTarget -> string -> M St unit;
  sdk_head : string -> string -> M St (option HeadBlobResult.t);
  sdk_list : ListCommandOptions.t -> M St ListBlobResult.t;
  fetch : string -> option string -> M St Response.t;
  urlWithSearchParam : string -> string -> string -> option string
}.

(* ================================================================= *)
(** ** blob-provider.ts: the provider class *)

Module VercelBlobProvider.
Import JsString.

(** An instance holds the token read at construction. *)
Record t : Type := { token : string }.

Definition decimal (n : N) : string := NilZero.string_of_uint (N.to_uint n).

Fixpoint digitsPrefix (s : string) : string :=
  match s with
  | EmptyString => EmptyString
  | String c r => if is_digit c then String c (digitsPrefix r) else EmptyString
  end.

(** The first match of [/max-age=(\d+)/], its captured digits. *)
Fixpoint matchMaxAge (s : string) : option string :=
  let digits :=
    if startsWith s "max-age="
    then digitsPrefix (substring 8 (strlen s - 8) s)
    else EmptyString in
  if negb (isEmpty digits) then Some digits
  else match s with
       | EmptyString => None
       | String _ r => matchMaxAge r
       end.

(** [parseInt(digits, 10)], exact (the host language rounds above 2^53). *)
Definition parseInt (digits : string) : N :=
  fold_left (fun acc c => acc * 10 + (N_of_ascii c - 48))%N
            (list_ascii_of_string digits) 0%N.

Definition parseCacheControl (cacheControl : string) : N :=
  match matchMaxAge cacheControl with
  | Some digits => parseInt digits
  | None => if includes cacheControl "immutable" then 31536000%N else 0%N
  end.

(** Both branches return the argument. *)
Definition resolveUrl (pathname : string) : string :=
  if startsWith pathname "http://" || startsWith pathname "https://"
  then pathname
  else pathname.

Section Methods.
Context {St : Type} {backend : Backend St}.
Variable this : t.

(** [this.token ? { Authorization: `Bearer ${this.token}` } : {}] *)
Definition authorization : option string :=
  if isEmpty (token this) then None else Some ("Bearer " +:+ token this).

Definition upload (pathname : string) (data : Buffer)
           (options : option UploadOptions.t) : M St UploadResult.t :=
  result ← sdk_put pathname data
    {| PutCommandOptions.access := "public";
       PutCommandOptions.token := token this;
       PutCommandOptions.contentType :=
         options ≫= UploadOptions.contentType;
       PutCommandOptions.cacheControlMaxAge :=
         match options ≫= UploadOptions.cacheControl with
         | Some cc => if isEmpty cc then None else Some (parseCacheControl cc)
         | None => None
         end;
       PutCommandOptions.addRandomSuffix :=
         match options ≫= UploadOptions.addRandomSuffix with
         | Some b => b
         | None => false
         end |};
  mret {| UploadResult.url := PutBlobResult.url result;
          UploadResult.pathname := PutBlobResult.pathname result;
          UploadResult.contentType := PutBlobResult.contentType result;
          UploadResult.size := 0%N |}.

Definition downloadFailed (pathname : string) (response : Response.t) : exn :=
  Error ("Failed to download " +:+ pathname +:+ ": "
         +:+ decimal (Response.status response) +:+ " "
         +:+ Response.statusText response).

Definition download (pathname : string) : M St Buffer :=
  let url := resolveUrl pathname in
  response ← fetch url authorization;
  if negb (Response.ok response)
  then throw (downloadFailed pathname response)
  else
    arrayBuffer ← await (Response.arrayBuffer response);
    mret arrayBuffer.

Definition downloadStream (pathname : string) : M St Response.ReadableStream :=
  let url := resolveUrl pathname in
  response ← fetch url authorization;
  if negb (Response.ok response)
  then throw (downloadFailed pathname response)
  else match Response.body response with
       | None => throw (Error ("No body in response for " +:+ pathname))
       | Some stream => mret stream
       end.

Definition head (pathname : string) : M St (option HeadResult.t) :=
  tryCatch
    (let url := resolveUrl pathname in
     result ← sdk_head url (token this);
     match result with
     | None => mret None
     | Some r =>
         mret (Some
           {| HeadResult.url := HeadBlobResult.url r;
              HeadResult.pathname := HeadBlobResult.pathname r;
              HeadResult.contentType := HeadBlobResult.contentType r;
              HeadResult.size := HeadBlobResult.size r;
              HeadResult.uploadedAt := HeadBlobResult.uploadedAt r;
              HeadResult.cacheControl := HeadBlobResult.cacheControl r;
              HeadResult.contentDisposition :=
                HeadBlobResult.contentDisposition r |})
     end)
    (fun _ => mret None).

(** [new URL(url)] throws a [TypeError] on a string that is no URL. *)
Definition setDownload (url value : string) : M St string :=
  match urlWithSearchParam url "download" value with
  | Some u => mret u
  | None => throw (Foreign "TypeError")
  end.

Definition getUrl (pathname : string) (options : option UrlOptions.t)
  : M St string :=
  headResult ← head pathname;
  match headResult with
  | None => throw (Error ("File not found: " +:+ pathname))
  | Some hr =>
      let url := HeadResult.url hr in
      let download :=
        match options ≫= UrlOptions.download with
        | Some b => b
        | None => false
        end in
      let filename :=
        match options ≫= UrlOptions.filename with
        | Some f => f
        | None => EmptyString
        end in
      if download && negb (isEmpty filename) then setDownload url filename
      else if download then setDownload url "1"
      else mret url
  end.

Definition delete (pathname : string) : M St unit :=
  let url := resolveUrl pathname in
  sdk_del (DelOne url) (token this).

Definition deleteMany (pathnames : list string) : M St unit :=
  if (List.length pathnames =? 0)%nat then mret tt
  else
    let urls := map resolveUrl pathnames in
    sdk_del (DelMany urls) (token this).

Definition copy (sourcePathname destPathname : string) : M St UploadResult.t :=
  data ← download sourcePathname;
  headResult ← head sourcePathname;
  upload destPathname data
    (Some {| UploadOptions.contentType := HeadResult.contentType <$> headResult;
             UploadOptions.cacheControl := None;
             UploadOptions.contentDisposition := None;
             UploadOptions.metadata := None;
             UploadOptions.access := None;
             UploadOptions.addRandomSuffix := None |}).

Definition exists_ (pathname : string) : M St bool :=
  result ← head pathname;
  mret (match result with Some _ => true | None => false end).

Definition list_ (options : option ListOptions.t) : M St ListResult.t :=
  result ← sdk_list
    {| ListCommandOptions.token := token this;
       ListCommandOptions.prefix := options ≫= ListOptions.prefix;
       ListCommandOptions.limit := options ≫= ListOptions.limit;
       ListCommandOptions.cursor := options ≫= ListOptions.cursor |};
  mret {| ListResult.blobs :=
            map (fun blob =>
                   {| BlobInfo.pathname := BlobInfo.pathname blob;
                      BlobInfo.url := BlobInfo.url blob;
                      BlobInfo.size := BlobInfo.size blob;
                      BlobInfo.uploadedAt := BlobInfo.uploadedAt blob |})
                (ListBlobResult.blobs result);
          ListResult.cursor := ListBlobResult.cursor result;
          ListResult.hasMore := ListBlobResult.hasMore result |}.

End Methods.

End VercelBlobProvider.

(* ================================================================= *)
(** ** index.ts: the process-wide storage handle *)

Module Index.
Import JsString.

(** The state of a process: its environment and console, the module
    variable [storageInstance], and the world the provider acts on.
    [constructed] is a history variable that counts the runs of the
    provider's constructor; no code reads it. *)
Record Process (St : Type) : Type := {
  env_BLOB_READ_WRITE_TOKEN : option string;
  console : list string;
  storageInstance : option VercelBlobProvider.t;
  constructed : nat;
  world : St
}.
Arguments env_BLOB_READ_WRITE_TOKEN {St} _.
Arguments console {St} _.
Arguments storageInstance {St} _.
Arguments constructed {St} _.
Arguments world {St} _.

(** The ten operations of the provider contract, with their arguments. *)
Inductive Method : Type -> Type :=
| Upload (pathname : string) (data : Buffer) (options : option UploadOptions.t)
  : Method UploadResult.t
| Download (pathname : string) : Method Buffer
| DownloadStream (pathname : string) : Method Response.ReadableStream
| GetUrl (pathname : string) (options : option UrlOptions.t) : Method string
| Delete (pathname : string) : Method unit
| DeleteMany (pathnames : list string) : Method unit
| Copy (sourcePathname destPathname : string) : Method UploadResult.t
| Exists (pathname : string) : Method bool
| Head (pathname : string) : Method (option HeadResult.t)
| List_ (options : option ListOptions.t) : Method ListResult.t.

Section Handle.
Context {St : Type} {backend : Backend St}.

(** [instance[prop].apply(instance, args)] for a contract method; each
    of the ten is a function of the instance, so the trap's branch for
    other values is not taken. *)
Definition apply (instance : VercelBlobProvider.t) {A} (m : Method A) : M St A :=
  match m in Method T return M St T with
  | Upload p d o => VercelBlobProvider.upload instance p d o
  | Download p => VercelBlobProvider.download instance p
  | DownloadStream p => VercelBlobProvider.downloadStream instance p
  | GetUrl p o => VercelBlobProvider.getUrl instance p o
  | Delete p => VercelBlobProvider.delete instance p
  | DeleteMany ps => VercelBlobProvider.deleteMany instance ps
  | Copy s d => VercelBlobProvider.copy instance s d
  | Exists p => VercelBlobProvider.exists_ instance p
  | Head p => VercelBlobProvider.head instance p
  | List_ o => VercelBlobProvider.list_ instance o
  end.

(** A provider operation run inside a process acts on its world. *)
Definition inWorld {A} (m : M St A) : M (Process St) A :=
  fun p =>
    let '(r, w) := m (world p) in
    (r, {| env_BLOB_READ_WRITE_TOKEN := env_BLOB_READ_WRITE_TOKEN p;
           console := console p;
           storageInstance := storageInstance p;
           constructed := constructed p;
           world := w |}).

Definition warning : string :=
  "[Storage] BLOB_READ_WRITE_TOKEN not set - storage operations will fail".

(** [new VercelBlobProvider(token)]:
    [token || process.env.BLOB_READ_WRITE_TOKEN || ''], with a warning
    on the console when the result is empty. *)
Definition construct (token : option string)
  : M (Process St) VercelBlobProvider.t :=
  fun p =>
    let orElse (a : option string) (b : string) : string :=
      match a with
      | Some s => if isEmpty s then b else s
      | None => b
      end in
    let tok := orElse token (orElse (env_BLOB_READ_WRITE_TOKEN p) EmptyString) in
    (Ok {| VercelBlobProvider.token := tok |},
     {| env_BLOB_READ_WRITE_TOKEN := env_BLOB_READ_WRITE_TOKEN p;
        console := if isEmpty tok then console p ++ [warning] else console p;
        storageInstance := storageInstance p;
        constructed := S (constructed p);
        world := world p |}).

Definition setStorageInstance (instance : VercelBlobProvider.t)
  : M (Process St) unit :=
  fun p =>
    (Ok tt,
     {| env_BLOB_READ_WRITE_TOKEN := env_BLOB_READ_WRITE_TOKEN p;
        console := console p;
        storageInstance := Some instance;
        constructed := constructed p;
        world := world p |}).

Definition getStorage : M (Process St) VercelBlobProvider.t :=
  fun p =>
    match storageInstance p with
    | None =>
        (instance ← construct None;
         setStorageInstance instance;;
         mret instance) p
    | Some instance => (Ok instance, p)
    end.

(** [storage.method(...args)]: the proxy's [get] trap returns a
    function that fetches the instance and applies the method to it. *)
Definition storage {A} (m : Method A) : M (Process St) A :=
  instance ← getStorage;
  inWorld (apply instance m).

(** A sequence of calls on the handle, results dropped. *)
Fixpoint run (calls : list {A : Type & Method A}) (p : Process St) : Process St :=
  match calls with
  | [] => p
  | existT _ m :: rest => run rest (snd (storage m p))
  end.

(** A process that has not touched the handle yet. *)
Definition fresh (p : Process St) : Prop :=
  storageInstance p = None /\ constructed p = 0.

End Handle.

End Index.

(* ================================================================= *)
(** ** An in-memory blob store *)

(** One implementation of [Backend], used to run the provider on concrete
    states: objects are kept by pathname and addressed by pathname or by
    URL under [origin]; a batch delete is one request, rejected as a whole
    when one of its URLs is in [failing]; [fetch] needs an absolute URL. *)
Module MemoryBlob.
Import JsString.

Record Object : Type := {
  data : Buffer;
  contentType : string;
  uploadedAt : N
}.

Record Store : Type := {
  objects : gmap string Object;
  failing : gset string;
  clock : N
}.

Definition origin : string := "https://store.public.blob.vercel-storage.com/".

Definition keyOf (urlOrPathname : string) : string :=
  if startsWith urlOrPathname origin
  then substring (strlen origin) (strlen urlOrPathname - strlen origin) urlOrPathname
  else urlOrPathname.

Definition put (pathname : string) (body : Buffer) (options : PutCommandOptions.t)
  : M Store PutBlobResult.t :=
  fun st =>
    let ct := match PutCommandOptions.contentType options with
              | Some c => c
              | None => "application/octet-stream"
              end in
    (Ok {| PutBlobResult.url := origin +:+ pathname;
           PutBlobResult.pathname := pathname;
           PutBlobResult.contentType := ct |},
     {| objects := <[pathname := {| data := body; contentType := ct;
                                    uploadedAt := clock st |}]> (objects st);
        failing := failing st;
        clock := (clock st + 1)%N |}).

Definition targets (target : DelTarget) : list string :=
  match target with
  | DelOne url => [url]
  | DelMany urls => urls
  end.

Definition del (target : DelTarget) (token : string) : M Store unit :=
  fun st =>
    if existsb (fun url => bool_decide (url ∈ failing st)) (targets target)
    then (Throw (Foreign "BlobError"), st)
    else (Ok tt,
          {| objects := fold_right (fun url m => base.delete (keyOf url) m)
                                   (objects st) (targets target);
             failing := failing st;
             clock := clock st |}).

Definition head (url token : string) : M Store (option HeadBlobResult.t) :=
  fun st =>
    if bool_decide (url ∈ failing st) then (Throw (Foreign "BlobError"), st)
    else
      match objects st !! keyOf url with
      | Some o =>
          (Ok (Some {| HeadBlobResult.url := origin +:+ keyOf url;
                       HeadBlobResult.pathname := keyOf url;
                       HeadBlobResult.contentType := contentType o;
                       HeadBlobResult.size := N.of_nat (List.length (data o));
                       HeadBlobResult.uploadedAt := uploadedAt o;
                       HeadBlobResult.cacheControl := None;
                       HeadBlobResult.contentDisposition := None |}), st)
      | None => (Throw (Foreign "BlobNotFoundError"), st)
      end.

Definition list_ (options : ListCommandOptions.t) : M Store ListBlobResult.t :=
  fun st =>
    let pre := match ListCommandOptions.prefix options with
               | Some p => p
               | None => EmptyString
               end in
    (Ok {| ListBlobResult.blobs :=
             omap (fun '(k, o) =>
                     if startsWith k pre
                     then Some {| BlobInfo.pathname := k;
                                  BlobInfo.url := origin +:+ k;
                                  BlobInfo.size := N.of_nat (List.length (data o));
                                  BlobInfo.uploadedAt := uploadedAt o |}
                     else None)
                  (map_to_list (objects st));
           ListBlobResult.cursor := None;
           ListBlobResult.hasMore := false |}, st).

Definition fetch_ (url : string) (authorization : option string)
  : M Store Response.t :=
  fun st =>
    if negb (startsWith url "http://" || startsWith url "https://")
    then (Throw (Foreign "TypeError"), st)
    else
      match objects st !! keyOf url with
      | Some o =>
          (Ok {| Response.status := 200; Response.statusText := "OK";
                 Response.body := Some (Ok (data o)) |}, st)
      | None =>
          (Ok {| Response.status := 404; Response.statusText := "Not Found";
                 Response.body := None |}, st)
      end.

Definition withSearchParam (url key value : string) : option string :=
  match PlainUrl.plain_URL url with
  | Some _ => Some (url +:+ "?" +:+ key +:+ "=" +:+ value)
  | None => None
  end.

#[global] Instance backend : Backend Store := {
  sdk_put := put;
  sdk_del := del;
  sdk_head := head;
  sdk_list := list_;
  fetch := fetch_;
  urlWithSearchParam := withSearchParam
}.

Definition store (l : list (string * Object)) (bad : list string) : Store :=
  {| objects := list_to_map l; failing := list_to_set bad; clock := 0 |}.

Definition has (st : Store) (pathname : string) : bool :=
  bool_decide (is_Some (objects st !! pathname)).

(** A store with three objects, where requests on the second one fail,
    and a provider for it. *)
Definition pdf : Object :=
  {| data := [Byte.x25; Byte.x50; Byte.x44; Byte.x46];
     contentType := "application/pdf";
     uploadedAt := 0 |}.

Definition p1 : string := "attachments/p1".
Definition p2 : string := "attachments/p2".
Definition p3 : string := "attachments/p3".

Definition example : Store := store [(p1, pdf); (p2, pdf); (p3, pdf)] [p2].


Definition client : VercelBlobProvider.t := {| VercelBlobProvider.token := "secret" |}.

End MemoryBlob.

(* ================================================================= *)
(** ** utils.ts: file names and organization paths *)

Module Filenames.
Import JsString Regex Utils.

(** The second argument of [lastIndexOf] is one code unit; [None] is the
    result -1. *)
Fixpoint lastIndexOf (s : string) (c : ascii) : option nat :=
  match s with
  | EmptyString => None
  | String a r =>
      match lastIndexOf r c with
      | Some i => Some (S i)
      | None => if Ascii.eqb a c then Some 0 else None
      end
  end.

(** [s.split('.').pop()]: the text after the last dot, all of [s] when it
    has none. *)
Definition lastSegment (s : string) : string :=
  List.last (split s ".") EmptyString.

(** [[a-zA-Z0-9-_]] *)
Definition safeChar : ascii -> bool :=
  union (range "a" "z")
    (union (range "A" "Z") (union (range "0" "9") (union (one "-") (one "_")))).

(** [.replace(/[^a-zA-Z0-9-_]/g, '-')] *)
Fixpoint replaceUnsafe (s : string) : string :=
  match s with
  | EmptyString => EmptyString
  | String c r => String (if safeChar c then c else "-"%char) (replaceUnsafe r)
  end.

(** [.replace(/-+/g, '-')]: a dash followed by a dash is dropped. *)
Fixpoint collapseDashes (s : string) : string :=
  match s with
  | EmptyString => EmptyString
  | String c r =>
      if Ascii.eqb c "-" && startsWith r "-" then collapseDashes r
      else String c (collapseDashes r)
  end.

(** [now] is [Date.now()] and [randomText] is
    [Math.random().toString(36)], both taken from the platform. *)
Definition generateUniqueFilename (now : N) (randomText : string)
           (originalName : string) : string :=
  let timestamp := now in
  let random := substring 2 6 randomText in
  let ext :=
    if includes originalName "." then "." +:+ lastSegment originalName
    else EmptyString in
  let baseName :=
    if includes originalName "."
    then match lastIndexOf originalName "." with
         | Some i => substring 0 i originalName
         | None => EmptyString
         end
    else originalName in
  let sanitized := substring 0 100 (collapseDashes (replaceUnsafe baseName)) in
  sanitized +:+ "-" +:+ VercelBlobProvider.decimal timestamp +:+ "-"
            +:+ random +:+ ext.

(** The table of [getContentTypeFromFilename]. *)
Definition mimeTypes : list (string * string) :=
  [ ("pdf", "application/pdf");
    ("doc", "application/msword");
    ("docx", "application/vnd.openxmlformats-officedocument.wordprocessingml.document");
    ("xls", "application/vnd.ms-excel");
    ("xlsx", "application/vnd.openxmlformats-officedocument.spreadsheetml.sheet");
    ("csv", "text/csv");
    ("txt", "text/plain");
    ("png", "image/png");
    ("jpg", "image/jpeg");
    ("jpeg", "image/jpeg");
    ("gif", "image/gif");
    ("webp", "image/webp");
    ("svg", "image/svg+xml");
    ("ico", "image/x-icon");
    ("zip", "application/zip");
    ("tar", "application/x-tar");
    ("gz", "application/gzip");
    ("dmg", "application/x-apple-diskimage");
    ("exe", "application/x-msdownload");
    ("msi", "application/x-msi");
    ("json", "application/json");
    ("xml", "application/xml");
    ("html", "text/html") ].

Fixpoint assoc (key : string) (table : list (string * string)) : option string :=
  match table with
  | [] => None
  | (k, v) :: rest => if String.eqb k key then Some v else assoc key rest
  end.

(** The table is an object literal: a key it does not own is looked up
    in [Object.prototype], whose properties are these. *)
Definition objectPrototype : list string :=
  [ "constructor"; "__defineGetter__"; "__defineSetter__"; "hasOwnProperty";
    "__lookupGetter__"; "__lookupSetter__"; "isPrototypeOf";
    "propertyIsEnumerable"; "toString"; "valueOf"; "__proto__";
    "toLocaleString" ].

(** [mimeTypes[key]] *)
Definition getProperty (key : string) : JsValue :=
  match assoc key mimeTypes with
  | Some v => JsString v
  | None =>
      if existsb (String.eqb key) objectPrototype then JsObject
      else JsUndefined
  end.

Definition octetStream : string := "application/octet-stream".

Definition getContentTypeFromFilename (filename : string) : JsValue :=
  let ext := toLowerCase (lastSegment filename) in
  let found := getProperty (if isEmpty ext then EmptyString else ext) in
  if truthy found then found else JsString octetStream.

End Filenames.

Module OrgPath.
Import JsString Utils.

Fixpoint dropLeadingSlashes (s : string) : string :=
  match s with
  | EmptyString => EmptyString
  | String c r => if Ascii.eqb c "/" then dropLeadingSlashes r else s
  end.

Fixpoint dropTrailingSlashes (s : string) : string :=
  match s with
  | EmptyString => EmptyString
  | String c r =>
      let r' := dropTrailingSlashes r in
      if Ascii.eqb c "/" && isEmpty r' then EmptyString else String c r'
  end.

(** [p.replace(/^\/+|\/+$/g, '')] *)
Definition trimSlashes (p : string) : string :=
  dropTrailingSlashes (dropLeadingSlashes p).

(** [l.join('/')] *)
Definition join (l : list string) : string := String.concat "/" l.

Definition buildOrgPath (orgId : string) (parts : list string) : string :=
  let cleanParts := map trimSlashes parts in
  orgId +:+ "/" +:+ join cleanParts.

Record OrgPath : Type := { orgId : string; path : string }.

Definition parseOrgPath (pathname : string) : option OrgPath :=
  let cleanPath :=
    if startsWith pathname "/" then substring1 pathname else pathname in
  let parts := split cleanPath "/" in
  if (List.length parts <? 2)%nat || isEmpty (List.hd EmptyString parts)
  then None
  else Some {| orgId := List.hd EmptyString parts;
               path := join (List.tl parts) |}.

End OrgPath.

(* ================================================================= *)
(** ** Callers: the app's storage module and the knowledge-base helpers *)

Module AppStorage.
Import JsString Utils Index.

(** [Buffer | string] *)
Inductive FileData : Type :=
| DataBuffer (buffer : Buffer)
| DataString (base64 : string).

Module FileOptions.
Record t : Type := {
  contentType : option string;
  cacheControl : option string;
  metadata : option (list (string * string))
}.
End FileOptions.

Section Wrappers.
Context {St : Type} {backend : Backend St}.

Definition uploadFile (bucket key : string) (data : FileData)
           (options : option FileOptions.t) : M (Process St) UploadResult.t :=
  let buffer :=
    match data with
    | DataString s => base64ToBuffer s
    | DataBuffer b => b
    end in
  let pathname := bucket +:+ "/" +:+ key in
  storage (Upload pathname buffer
    (Some {| UploadOptions.contentType := options ≫= FileOptions.contentType;
             UploadOptions.cacheControl := options ≫= FileOptions.cacheControl;
             UploadOptions.contentDisposition := None;
             UploadOptions.metadata := options ≫= FileOptions.metadata;
             UploadOptions.access := None;
             UploadOptions.addRandomSuffix := None |})).

Definition downloadFile (bucket key : string) : M (Process St) Buffer :=
  let pathname := bucket +:+ "/" +:+ key in
  storage (Download pathname).

Definition getFileUrl (bucket key : string) (options : option UrlOptions.t)
  : M (Process St) string :=
  let pathname := bucket +:+ "/" +:+ key in
  storage (GetUrl pathname options).

Definition deleteFile (bucket key : string) : M (Process St) unit :=
  let pathname := bucket +:+ "/" +:+ key in
  storage (Delete pathname).

Definition deleteFiles (bucket : string) (keys : list string) : M (Process St) unit :=
  let pathnames := map (fun key => bucket +:+ "/" +:+ key) keys in
  storage (DeleteMany pathnames).

Definition copyFile (sourceBucket sourceKey destBucket destKey : string)
  : M (Process St) UploadResult.t :=
  let sourcePath := sourceBucket +:+ "/" +:+ sourceKey in
  let destPath := destBucket +:+ "/" +:+ destKey in
  storage (Copy sourcePath destPath).

Definition fileExists (bucket key : string) : M (Process St) bool :=
  let pathname := bucket +:+ "/" +:+ key in
  storage (Exists pathname).

(** The portal's storage module: [getPresignedDownloadUrl] *)
Definition getPresignedDownloadUrl (bucketName key : string) (expiresIn : option N)
  : M (Process St) string :=
  getFileUrl bucketName key
    (Some {| UrlOptions.expiresIn := expiresIn;
             UrlOptions.download := None;
             UrlOptions.filename := None;
             UrlOptions.contentType := None |}).

(** knowledge-base/utils/s3-operations.ts: [deleteFromS3] *)
Definition deleteFromS3 (s3Key : string) : M (Process St) bool :=
  tryCatch (storage (Delete s3Key) ;; mret true) (fun _ => mret false).

End Wrappers.

End AppStorage.

(* ================================================================= *)
(** ** What a pattern matches *)

(** [matches r w rest]: the pattern [r] matches the text [w] when [rest]
    is what follows it in the input; the assertion [$] holds where
    nothing follows. *)
Module RegexSemantics.
Import Regex.

Inductive matches : regex -> string -> string -> Prop :=
| MEps rest : matches Eps EmptyString rest
| MEos : matches Eos EmptyString EmptyString
| MCls p c rest : p c = true -> matches (Cls p) (String c EmptyString) rest
| MSeq r1 r2 w1 w2 rest :
    matches r1 w1 (w2 +:+ rest) -> matches r2 w2 rest ->
    matches (Seq r1 r2) (w1 +:+ w2) rest
| MAltL r1 r2 w rest : matches r1 w rest -> matches (Alt r1 r2) w rest
| MAltR r1 r2 w rest : matches r2 w rest -> matches (Alt r1 r2) w rest
| MStarNil r rest : matches (Star r) EmptyString rest
| MStarApp r w1 w2 rest :
    matches r w1 (w2 +:+ rest) -> matches (Star r) w2 rest ->
    matches (Star r) (w1 +:+ w2) rest.

End RegexSemantics.

(* ================================================================= *)
(** ** More vocabulary *)

Module Words.
Import JsString.

(** Every code unit of [s] satisfies [p]. *)
Definition allChars (p : ascii -> bool) (s : string) : bool :=
  forallb p (list_ascii_of_string s).

Definition noDot (s : string) : Prop := includes s "." = false.
Definition noSlash (s : string) : Prop := includes s "/" = false.

Definition isNot (c : ascii) (x : ascii) : bool := negb (Ascii.eqb x c).

(** [p] between two slashes. *)
Definition wrapSlashes (p : string) : string := "/" +:+ p +:+ "/".

(** A path part with no slash at either end. *)
Definition cleanPart (p : string) : Prop :=
  startsWith p "/" = false /\ endsWith p "/" = false.

(** The three parts [generateUniqueFilename] makes of a name: the text
    before its last dot, that text sanitized, and the extension with its
    dot. *)
Definition baseNameOf (originalName : string) : string :=
  if includes originalName "."
  then match Filenames.lastIndexOf originalName "." with
       | Some i => substring 0 i originalName
       | None => EmptyString
       end
  else originalName.

Definition sanitizedOf (baseName : string) : string :=
  substring 0 100 (Filenames.collapseDashes (Filenames.replaceUnsafe baseName)).

Definition extOf (originalName : string) : string :=
  if includes originalName "." then "." +:+ Filenames.lastSegment originalName
  else EmptyString.

End Words.

(* ================================================================= *)
(** ** Recording the requests made to a backend *)

(** To state which requests an operation makes, any backend can be run
    with a log: every call is forwarded unchanged and appended to the
    log with its arguments. *)
Module Recorder.

Inductive Request : Type :=
| ReqPut (pathname : string) (data : Buffer) (options : PutCommandOptions.t)
| ReqDel (target : DelTarget) (token : string)
| ReqHead (url token : string)
| ReqList (options : ListCommandOptions.t)
| ReqFetch (url : string) (authorization : option string).

Definition logged {St A} (req : Request) (m : M St A)
  : M (St * list Request) A :=
  fun '(st, log) =>
    let '(r, st') := m st in (r, (st', log ++ [req])).

Definition recording {St} (backend : Backend St) : Backend (St * list Request) := {|
  sdk_put p d o := logged (ReqPut p d o) (sdk_put p d o);
  sdk_del t tok := logged (ReqDel t tok) (sdk_del t tok);
  sdk_head u tok := logged (ReqHead u tok) (sdk_head u tok);
  sdk_list o := logged (ReqList o) (sdk_list o);
  fetch u a := logged (ReqFetch u a) (fetch u a);
  urlWithSearchParam := urlWithSearchParam
|}.

(** The requests an operation makes when started in state [st]. *)
Definition requests {St A} (m : M (St * list Request) A) (st : St)
  : list Request :=
  snd (snd (m (st, []))).

End Recorder.

(* ================================================================= *)
(** ** Vocabulary of the statements *)

Module Spec.
Import JsString Utils.

(** The inputs [validatePathname] is said to reject: anything that is
    not a string, the empty string, and strings with a parent-directory
    step or a null byte. *)
Definition rejected (v : JsValue) : Prop :=
  match v with
  | JsString s =>
      s = EmptyString
      \/ includes s dotDotSlash = true
      \/ includes s dotDotBackslash = true
      \/ includes s nul = true
  | _ => True
  end.

(** A text without a comma. *)
Definition noComma (s : string) : Prop := includes s "," = false.

(** A code unit of the ASCII range. *)
Definition isAscii (c : ascii) : bool := (N_of_ascii c <? 128)%N.

Definition hexDigit (n : N) : ascii :=
  if (n <? 10)%N then ascii_of_N (48 + n) else ascii_of_N (55 + n).

(** [%XX] for the code unit [c], before [rest]. *)
Definition escape (c : ascii) (rest : string) : string :=
  String "%" (String (hexDigit (N_of_ascii c / 16))
                (String (hexDigit (N_of_ascii c mod 16)) rest)).

(** A percent-encoding of [t]: the code units that [selected] picks,
    and every percent sign, are written as escapes. *)
Fixpoint escapeWhere (selected : ascii -> bool) (t : string) : string :=
  match t with
  | EmptyString => EmptyString
  | String c r =>
      if selected c || Ascii.eqb c "%" then escape c (escapeWhere selected r)
      else String c (escapeWhere selected r)
  end.

(** [data:<mime>;base64,<payload>] *)
Definition dataUrl (mime payload : string) : string :=
  "data:" +:+ mime +:+ ";base64," +:+ payload.

(** The input starts with a web scheme. *)
Definition isHttpUrl (p : string) : Prop :=
  startsWith p "http://" = true \/ startsWith p "https://" = true.

(** What [copy] passes on: upload options that carry a content type only,
    the [put] options they turn into, and the result read off the answer
    of [put]. *)
Definition contentTypeOnly (contentType : option string) : UploadOptions.t :=
  {| UploadOptions.contentType := contentType;
     UploadOptions.cacheControl := None;
     UploadOptions.contentDisposition := None;
     UploadOptions.metadata := None;
     UploadOptions.access := None;
     UploadOptions.addRandomSuffix := None |}.

Definition putOptions (this : VercelBlobProvider.t) (contentType : option string)
  : PutCommandOptions.t :=
  {| PutCommandOptions.access := "public";
     PutCommandOptions.token := VercelBlobProvider.token this;
     PutCommandOptions.contentType := contentType;
     PutCommandOptions.cacheControlMaxAge := None;
     PutCommandOptions.addRandomSuffix := false |}.


Definition uploadResult (r : PutBlobResult.t) : UploadResult.t :=
  {| UploadResult.url := PutBlobResult.url r;
     UploadResult.pathname := PutBlobResult.pathname r;
     UploadResult.contentType := PutBlobResult.contentType r;
     UploadResult.size := 0%N |}.

(** The check run over the base64 alphabet: the character of index [i]
    decodes to [i] and is neither the padding nor a comma. *)
Definition char_ok (i : nat) : bool :=
  let c := NodeBuffer.base64_char (N.of_nat i) in
  match NodeBuffer.unbase64 c with
  | Some m => N.eqb m (N.of_nat i)
  | None => false
  end
  && negb (Ascii.eqb c "=") && negb (Ascii.eqb c ",").

(** The token a provider built without an argument holds. *)
Definition tokenFromEnv (env : option string) : string :=
  match env with
  | Some s => if isEmpty s then EmptyString else s
  | None => EmptyString
  end.

(** The value [getUrl] sets the [download] parameter to, if it sets it:
    the file name when a download is asked for under a name, [1] when it
    is asked for without one. *)
Definition downloadValue (o : option UrlOptions.t) : option string :=
  let download :=
    match o ≫= UrlOptions.download with Some b => b | None => false end in
  let filename :=
    match o ≫= UrlOptions.filename with Some f => f | None => EmptyString end in
  if download && negb (isEmpty filename) then Some filename
  else if download then Some "1"
  else None.

(** The process right after the first use built the provider. *)
Definition afterConstruction {St} (p : Index.Process St) : Index.Process St :=
  let tok := tokenFromEnv (Index.env_BLOB_READ_WRITE_TOKEN p) in
  {| Index.env_BLOB_READ_WRITE_TOKEN := Index.env_BLOB_READ_WRITE_TOKEN p;
     Index.console := if isEmpty tok then Index.console p ++ [Index.warning] else Index.console p;
     Index.storageInstance := Some {| VercelBlobProvider.token := tok |};
     Index.constructed := S (Index.constructed p);
     Index.world := Index.world p |}.

(** A call on the handle is a provider operation and nothing more:
    [call], started in the process [p], gives the result that
    [operation] gives on the world of [q], changes the world as
    [operation] does, and leaves everything else of [q] as it is.  Here
    [q] is [p] itself, or [p] right after the provider was built. *)
Definition forwardsFrom {St A} (call : M (Index.Process St) A) (operation : M St A)
           (p q : Index.Process St) : Prop :=
  fst (call p) = fst (operation (Index.world q))
  /\ Index.world (snd (call p)) = snd (operation (Index.world q))
  /\ Index.storageInstance (snd (call p)) = Index.storageInstance q
  /\ Index.constructed (snd (call p)) = Index.constructed q
  /\ Index.console (snd (call p)) = Index.console q
  /\ Index.env_BLOB_READ_WRITE_TOKEN (snd (call p))
     = Index.env_BLOB_READ_WRITE_TOKEN q.

End Spec.

Ltac divmod := zify; Z.to_euclidean_division_equations; lia.

(* ================================================================= *)
(** ** Facts about the string primitives *)

Section JsStringFacts.
Import JsString.

Lemma isEmpty_true (s : string) : isEmpty s = true <-> s = EmptyString.
Proof. destruct s; simpl; split; congruence. Qed.

Lemma isEmpty_false (s : string) : isEmpty s = false <-> s <> EmptyString.
Proof. destruct s; simpl; split; congruence. Qed.

Lemma lower_char_keeps (c d : ascii) :
  is_upper d = false -> is_lower d = false ->
  Ascii.eqb (lower_char c) d = Ascii.eqb c d.
Proof.
  intros Hu Hl. unfold lower_char.
  destruct (is_upper c) eqn:Hc; [|reflexivity].
  destruct (Ascii.eqb c d) eqn:Hcd.
  - apply Ascii.eqb_eq in Hcd. subst. congruence.
  - apply Ascii.eqb_neq. intros <-.
    revert Hc Hl. clear.
    destruct c as [[] [] [] [] [] [] [] []]; vm_compute; congruence.
Qed.

Lemma startsWith_nil (s : string) : startsWith s EmptyString = true.
Proof. destruct s; reflexivity. Qed.

Lemma startsWith_lower_scheme (s : string) :
  startsWith (toLowerCase s) "://" = startsWith s "://".
Proof.
  destruct s as [|a [|b [|c s]]]; simpl; try reflexivity;
    rewrite ?(lower_char_keeps _ ":"), ?(lower_char_keeps _ "/"),
      ?startsWith_nil;
    reflexivity.
Qed.

(** Lower-casing neither creates nor removes a scheme separator. *)
Lemma includes_lower_scheme (s : string) :
  includes (toLowerCase s) "://" = includes s "://".
Proof.
  induction s as [|c s IH]; [reflexivity|].
  change (toLowerCase (String c s)) with (String (lower_char c) (toLowerCase s)).
  change (includes (String (lower_char c) (toLowerCase s)) "://")
    with (startsWith (toLowerCase (String c s)) "://"
          || includes (toLowerCase s) "://").
  rewrite startsWith_lower_scheme, IH. reflexivity.
Qed.

(** A pattern cannot start at a code unit that differs from its first. *)
Lemma includes_skip (c d : ascii) (s p : string) :
  Ascii.eqb c d = false ->
  includes (String c s) (String d p) = includes s (String d p).
Proof. intros H. simpl. rewrite H. reflexivity. Qed.

Lemma includes_single (c : ascii) (s : string) :
  includes s (String c EmptyString)
  = existsb (fun x => Ascii.eqb x c) (list_ascii_of_string s).
Proof.
  induction s as [|a s IH]; [reflexivity|].
  simpl. rewrite <- IH, startsWith_nil, andb_true_r. reflexivity.
Qed.

Lemma resolve_map (f : string -> string) (l : list string) :
  (forall x, f x = x) -> map f l = l.
Proof. intros H. induction l as [|x l IH]; simpl; [|rewrite H, IH]; reflexivity. Qed.

End JsStringFacts.

(* ================================================================= *)
(** ** Pathname validation and extraction *)

Section UtilsFacts.
Import JsString Utils Spec.

Lemma validatePathname_string (s : string) :
  validatePathname (JsString s) =
    if isEmpty s then Throw (InvalidPathname NotNonEmptyString)
    else if includes s dotDotSlash || includes s dotDotBackslash
    then Throw (InvalidPathname PathTraversal)
    else if includes s nul then Throw (InvalidPathname NullByte)
    else Ok tt.
Proof.
  unfold validatePathname. simpl. rewrite negb_involutive, orb_false_r.
  reflexivity.
Qed.

Lemma validatePathname_not_string (v : JsValue) :
  (forall s, v <> JsString s) ->
  validatePathname v = Throw (InvalidPathname NotNonEmptyString).
Proof.
  intros H. destruct v; try reflexivity.
  - unfold validatePathname. simpl. destruct b; reflexivity.
  - unfold validatePathname. simpl. rewrite orb_true_r. reflexivity.
  - exfalso. eapply H. reflexivity.
Qed.

Lemma validatePathname_fails_iff (v : JsValue) :
  is_ok (validatePathname v) = false <-> rejected v.
Proof.
  destruct v as [| |b|n|s|];
    try (rewrite validatePathname_not_string by (intros ? ?; discriminate);
         simpl; tauto).
  rewrite validatePathname_string. unfold rejected.
  destruct (isEmpty s) eqn:He.
  { apply isEmpty_true in He. simpl. tauto. }
  apply isEmpty_false in He.
  destruct (includes s dotDotSlash) eqn:H1; simpl; [tauto|].
  destruct (includes s dotDotBackslash) eqn:H2; simpl; [tauto|].
  destruct (includes s nul) eqn:H3; simpl; [tauto|].
  split; [discriminate|]. intros [?|[?|[?|?]]]; congruence.
Qed.

Lemma validatePathname_throws_only_InvalidPathname (v : JsValue) (e : exn) :
  validatePathname v = Throw e -> exists r, e = InvalidPathname r.
Proof.
  unfold validatePathname.
  repeat match goal with
         | |- context [if ?c then _ else _] => destruct c
         end; intros H; inversion H;
    [exists NotNonEmptyString | exists PathTraversal | exists NullByte];
    reflexivity.
Qed.

Lemma validatePathname_accepts (v : JsValue) :
  ~ rejected v -> validatePathname v = Ok tt.
Proof.
  intros H. destruct (validatePathname v) as [[]|e] eqn:E; [reflexivity|].
  exfalso. apply H, validatePathname_fails_iff. rewrite E. reflexivity.
Qed.

(** Stripping the leading slash does not change what the traversal and
    null-byte checks see. *)
Lemma stripLeadingSlash_includes (url : string) (d : ascii) (p : string) :
  Ascii.eqb "/" d = false ->
  includes (stripLeadingSlash url) (String d p) = includes url (String d p).
Proof.
  intros Hd. unfold stripLeadingSlash.
  destruct url as [|c s]; [reflexivity|].
  simpl startsWith. rewrite startsWith_nil, andb_true_r.
  destruct (Ascii.eqb c "/") eqn:Hc; [|reflexivity].
  apply Ascii.eqb_eq in Hc. subst c.
  simpl substring1. symmetry. apply includes_skip. exact Hd.
Qed.

Section WithParser.
Variable new_URL : string -> option URL.

Lemma extract_parsed (url : string) (u : URL) :
  url <> EmptyString -> new_URL url = Some u ->
  extractPathnameFromUrl new_URL url =
    if isValidStorageHost (host u)
    then match UriDecode.decodeURIComponent (substring1 (pathname u)) with
         | None => Throw URIError
         | Some p => validatePathname (JsString p) ;; Ok p
         end
    else Throw UntrustedHost.
Proof.
  intros Hne Hp. unfold extractPathnameFromUrl.
  apply isEmpty_false in Hne. rewrite Hne, Hp.
  destruct (isValidStorageHost (host u)); reflexivity.
Qed.

Lemma extract_unparsed (url : string) :
  url <> EmptyString -> new_URL url = None ->
  extractPathnameFromUrl new_URL url =
    if includes url "://" then Throw MalformedInput
    else if Regex.test domainPattern url then Throw SuspiciousPattern
    else validatePathname (JsString url) ;;
         if isEmpty (stripLeadingSlash url) then Throw EmptyPathname
         else Ok (stripLeadingSlash url).
Proof.
  intros Hne Hp. unfold extractPathnameFromUrl.
  apply isEmpty_false in Hne. rewrite Hne, Hp.
  cbv zeta. rewrite includes_lower_scheme. reflexivity.
Qed.

End WithParser.

End UtilsFacts.

Section UtilsClaims.
Import JsString Utils PlainUrl Spec.

(** The allow-list of [extractPathnameFromUrl]: a suffix of the blob
    store's domain, or the S3 host pattern under [.amazonaws.com]; the
    host is compared in lower case. *)
Lemma isValidStorageHost_allow_list (h : string) :
  isValidStorageHost h
  = endsWith (toLowerCase h) ".blob.vercel-storage.com"
    || endsWith (toLowerCase h) ".vercel-storage.com"
    || endsWith (toLowerCase h) ".amazonaws.com"
       && Regex.test s3HostPattern (toLowerCase h).
Proof.
  unfold isValidStorageHost. cbv zeta.
  destruct (endsWith (toLowerCase h) ".blob.vercel-storage.com"
            || endsWith (toLowerCase h) ".vercel-storage.com");
    [reflexivity|].
  destruct (endsWith (toLowerCase h) ".amazonaws.com"); reflexivity.
Qed.

Example trusted_hosts :
  forallb isValidStorageHost
    ["example-tenant.public.blob.vercel-storage.com";
     "Store.Vercel-Storage.COM";
     "s3.amazonaws.com";
     "bucket.s3.eu-west-1.amazonaws.com";
     "bucket.s3-website-us-east-1.amazonaws.com"] = true.
Proof. vm_compute. reflexivity. Qed.

Example untrusted_hosts :
  existsb isValidStorageHost
    ["evil.example.com";
     "vercel-storage.com";
     "blob.vercel-storage.com.evil.example";
     "ec2.eu-west-1.amazonaws.com";
     "s3.amazonaws.com.evil.example"] = false.
Proof. vm_compute. reflexivity. Qed.

(** Percent-encoded traversal is decoded before it is checked. *)
Example encoded_traversal_rejected :
  extractPathnameFromUrl plain_URL
    "https://store.public.blob.vercel-storage.com/attachments/..%2F..%2Fsecret"
  = Throw (InvalidPathname PathTraversal).
Proof. vm_compute. reflexivity. Qed.


(** C2: [validatePathname] fails exactly on the rejected inputs (a value
    that is not a string, the empty string, a string containing [../],
    [..\] or a null byte), always with an [InvalidPathname] error, and
    returns on every other string.  In particular it fails on
    ["a/../b"]; [extractPathnameFromUrl] fails with that validation error
    on ["attachments/../../etc/passwd"] and returns
    ["attachments/org1/file.pdf"] unchanged (neither input is accepted
    by the URL constructor). *)
Theorem validatePathname_rejects_exactly :
  (forall v, is_ok (validatePathname v) = false <-> rejected v)
  /\ (forall v e, validatePathname v = Throw e -> exists r, e = InvalidPathname r)
  /\ (forall v, ~ rejected v -> validatePathname v = Ok tt)
  /\ validatePathname (JsString "a/../b") = Throw (InvalidPathname PathTraversal)
  /\ (forall new_URL : string -> option URL,
        new_URL "attachments/../../etc/passwd" = None ->
        extractPathnameFromUrl new_URL "attachments/../../etc/passwd"
        = Throw (InvalidPathname PathTraversal))
  /\ (forall new_URL : string -> option URL,
        new_URL "attachments/org1/file.pdf" = None ->
        extractPathnameFromUrl new_URL "attachments/org1/file.pdf"
        = Ok "attachments/org1/file.pdf").
Proof.
  split; [exact validatePathname_fails_iff|].
  split; [exact validatePathname_throws_only_InvalidPathname|].
  split; [exact validatePathname_accepts|].
  split; [reflexivity|].
  split; intros new_URL H;
    (rewrite extract_unparsed; [reflexivity | discriminate | exact H]).
Qed.

Lemma validatePathname_rejects_exactly_witness :
  extractPathnameFromUrl plain_URL "attachments/../../etc/passwd"
  = Throw (InvalidPathname PathTraversal)
  /\ extractPathnameFromUrl plain_URL "attachments/org1/file.pdf"
     = Ok "attachments/org1/file.pdf".
Proof.
  destruct validatePathname_rejects_exactly as (_ & _ & _ & _ & H1 & H2).
  split; [apply (H1 plain_URL) | apply (H2 plain_URL)]; reflexivity.
Defined.


(** C3 as stated fails on the empty input: it is not a URL, has no
    scheme separator and no domain shape, its stripped form is empty,
    and yet the call fails with neither [EmptyPathname] nor an error of
    [validatePathname], but with the error of the guard on the first
    line of the function. *)
Lemma extractPathnameFromUrl_empty_input :
  plain_URL EmptyString = None
  /\ includes EmptyString "://" = false
  /\ Regex.test domainPattern EmptyString = false
  /\ stripLeadingSlash EmptyString = EmptyString
  /\ extractPathnameFromUrl plain_URL EmptyString = Throw EmptyInput
  /\ EmptyInput <> EmptyPathname
  /\ (forall r, EmptyInput <> InvalidPathname r).
Proof.
  repeat split; try reflexivity; try discriminate.
  intros []; discriminate.
Qed.

(** C3, amended: for every non-empty input that the URL constructor
    rejects: with a scheme separator the call fails with
    [MalformedInput]; otherwise with a domain shape it fails with
    [SuspiciousPattern]; otherwise one leading slash is stripped, the
    traversal and null-byte checks of [validatePathname] are applied
    (they see the same on the input and on its stripped form), the call
    fails with [EmptyPathname] when the stripped form is empty, and
    returns the stripped form in every remaining case. *)
Theorem extractPathnameFromUrl_on_non_url
  (new_URL : string -> option URL) (url : string) :
  url <> EmptyString ->
  new_URL url = None ->
  let p := stripLeadingSlash url in
  (includes url "://" = true ->
     extractPathnameFromUrl new_URL url = Throw MalformedInput)
  /\ (includes url "://" = false ->
      Regex.test domainPattern url = true ->
      extractPathnameFromUrl new_URL url = Throw SuspiciousPattern)
  /\ (includes url "://" = false ->
      Regex.test domainPattern url = false ->
      (includes p dotDotSlash || includes p dotDotBackslash = true ->
         extractPathnameFromUrl new_URL url = Throw (InvalidPathname PathTraversal))
      /\ (includes p dotDotSlash || includes p dotDotBackslash = false ->
          includes p nul = true ->
          extractPathnameFromUrl new_URL url = Throw (InvalidPathname NullByte))
      /\ (includes p dotDotSlash || includes p dotDotBackslash = false ->
          includes p nul = false ->
          (p = EmptyString ->
             extractPathnameFromUrl new_URL url = Throw EmptyPathname)
          /\ (p <> EmptyString ->
              validatePathname (JsString p) = Ok tt
              /\ extractPathnameFromUrl new_URL url = Ok p))).
Proof.
  intros Hne Hp p. rewrite (extract_unparsed new_URL Hne Hp).
  rewrite validatePathname_string. fold p.
  assert (He : isEmpty url = false) by (apply isEmpty_false; exact Hne).
  rewrite He. unfold dotDotSlash, dotDotBackslash, nul.
  rewrite <- (stripLeadingSlash_includes url "." "./") by reflexivity.
  rewrite <- (stripLeadingSlash_includes url "." (String "." (String "092" EmptyString)))
    by reflexivity.
  rewrite <- (stripLeadingSlash_includes url "000" EmptyString) by reflexivity.
  fold p.
  split; [intros ->; reflexivity|].
  split; [intros -> ->; reflexivity|].
  intros -> ->.
  split; [intros ->; reflexivity|].
  split; [intros -> ->; reflexivity|].
  intros H1 H2. rewrite H1, H2. simpl.
  split.
  - intros ->. reflexivity.
  - intros Hpe. apply isEmpty_false in Hpe. rewrite Hpe.
    split; [|reflexivity].
    rewrite validatePathname_string, Hpe.
    unfold dotDotSlash, dotDotBackslash, nul. rewrite H1, H2. reflexivity.
Qed.

Lemma extractPathnameFromUrl_on_non_url_witness :
  extractPathnameFromUrl plain_URL "see http://nested/attachments/x"
  = Throw MalformedInput
  /\ extractPathnameFromUrl plain_URL "example.com/attachments/x"
     = Throw SuspiciousPattern
  /\ extractPathnameFromUrl plain_URL "/" = Throw EmptyPathname
  /\ extractPathnameFromUrl plain_URL "/attachments/org1/file.pdf"
     = Ok "attachments/org1/file.pdf".
Proof.
  split; [|split; [|split]].
  - refine (proj1 (@extractPathnameFromUrl_on_non_url plain_URL
                     "see http://nested/attachments/x" _ _) _);
      [discriminate | reflexivity | reflexivity].
  - refine (proj1 (proj2 (@extractPathnameFromUrl_on_non_url plain_URL
                     "example.com/attachments/x" _ _)) _ _);
      [discriminate | reflexivity | reflexivity | reflexivity].
  - refine (proj1 (proj2 (proj2 (proj2 (proj2
             (@extractPathnameFromUrl_on_non_url plain_URL "/" _ _)) _ _)) _ _) _);
      [discriminate | reflexivity | reflexivity | reflexivity | reflexivity
      | reflexivity | reflexivity].
  - refine (proj2 (proj2 (proj2 (proj2 (proj2 (proj2
             (@extractPathnameFromUrl_on_non_url plain_URL
                "/attachments/org1/file.pdf" _ _)) _ _)) _ _) _));
      [discriminate | reflexivity | reflexivity | reflexivity | reflexivity
      | reflexivity | discriminate].
Defined.

End UtilsClaims.

(* ================================================================= *)
(** ** The bucket registry *)

Section TypesClaims.
Import JsString Utils Types.

(** C6 as stated fails for a key with two leading slashes: one is
    stripped, and two slashes separate the bucket name from the key. *)
Lemma buildPathname_two_leading_slashes :
  buildPathname org_assets "//acme/logo.png" = "org-assets//acme/logo.png"
  /\ ~ (forall bucket key, exists k,
          buildPathname bucket key = getBucketPrefix bucket +:+ k
          /\ startsWith k "/" = false).
Proof.
  split; [reflexivity|].
  intros H. destruct (H org_assets "//acme/logo.png") as (k & Hk & Hs).
  vm_compute in Hk. injection Hk as <-. discriminate Hs.
Qed.

(** C6, amended: for every bucket and key, [buildPathname] returns the
    bucket's prefix (its name and one slash) followed by the key with
    one leading slash removed; exactly one slash separates the name
    from the rest whenever the key does not start with two slashes.
    [buildPathname("org-assets", "/acme/logo.png")] is
    ["org-assets/acme/logo.png"]. *)
Theorem buildPathname_prefix_then_key (bucket : StorageBucket) (key : string) :
  buildPathname bucket key
  = bucketName bucket +:+ "/" +:+ stripLeadingSlash key
  /\ getBucketPrefix bucket = bucketName bucket +:+ "/"
  /\ endsWith (bucketName bucket) "/" = false
  /\ (startsWith key "//" = false ->
      startsWith (stripLeadingSlash key) "/" = false)
  /\ buildPathname org_assets "/acme/logo.png" = "org-assets/acme/logo.png".
Proof.
  split; [destruct bucket; reflexivity|].
  split; [reflexivity|].
  split; [destruct bucket; reflexivity|].
  split; [|reflexivity].
  unfold stripLeadingSlash.
  destruct key as [|a s]; [reflexivity|].
  change (startsWith (String a s) "//")
    with (Ascii.eqb a "/" && startsWith s "/").
  change (startsWith (String a s) "/")
    with (Ascii.eqb a "/" && startsWith s EmptyString).
  rewrite startsWith_nil, andb_true_r.
  destruct (Ascii.eqb a "/") eqn:Ha; simpl substring1.
  - intros H. exact H.
  - intros _.
    change (startsWith (String a s) "/")
      with (Ascii.eqb a "/" && startsWith s EmptyString).
    rewrite Ha. reflexivity.
Qed.

Lemma buildPathname_prefix_then_key_witness :
  startsWith (stripLeadingSlash "/acme/logo.png") "/" = false.
Proof.
  apply (proj1 (proj2 (proj2 (proj2
           (buildPathname_prefix_then_key org_assets "/acme/logo.png"))))).
  reflexivity.
Defined.

End TypesClaims.

(* ================================================================= *)
(** ** The base64 helpers *)

Section Base64Facts.
Import JsString NodeBuffer.

Lemma list_ind3 {A} (P : list A -> Prop) :
  P [] -> (forall x, P [x]) -> (forall x y, P [x; y]) ->
  (forall x y z l, P l -> P (x :: y :: z :: l)) ->
  forall l, P l.
Proof.
  intros H0 H1 H2 H3. fix IH 1.
  intros [|x [|y [|z l]]]; [exact H0 | apply H1 | apply H2 | apply H3, IH].
Qed.

Lemma base64_char_table : forallb Spec.char_ok (seq 0 64) = true.
Proof. vm_compute. reflexivity. Qed.

Lemma base64_char_ok (n : N) :
  (n < 64)%N ->
  unbase64 (base64_char n) = Some n
  /\ Ascii.eqb (base64_char n) "=" = false
  /\ Ascii.eqb (base64_char n) "," = false.
Proof.
  intros Hn.
  assert (Hin : In (N.to_nat n) (seq 0 64)) by (apply in_seq; lia).
  pose proof (proj1 (forallb_forall _ _) base64_char_table _ Hin) as H.
  unfold Spec.char_ok in H. rewrite N2Nat.id in H.
  apply andb_true_iff in H as [H H3]. apply andb_true_iff in H as [H1 H2].
  apply negb_true_iff in H2, H3.
  destruct (unbase64 (base64_char n)) as [m|]; [|discriminate].
  apply N.eqb_eq in H1. subst m. auto.
Qed.

Lemma sextets_char (n : N) (s : string) :
  (n < 64)%N -> sextets (String (base64_char n) s) = n :: sextets s.
Proof.
  intros Hn. destruct (base64_char_ok Hn) as (H1 & H2 & _).
  simpl. rewrite H2, H1. reflexivity.
Qed.

Lemma byte_of_to_N (x : Byte.byte) (n : N) : n = Byte.to_N x -> byte_of_N n = x.
Proof.
  intros ->. unfold byte_of_N.
  pose proof (Byte.to_N_bounded x).
  rewrite N.mod_small by lia. rewrite Byte.of_to_N. reflexivity.
Qed.

Lemma sextet_bounds (a b : N) :
  (a <= 255 -> b <= 255 ->
   a / 4 < 64 /\ a mod 4 * 16 + b / 16 < 64 /\ a mod 16 * 4 + b / 64 < 64
   /\ a mod 64 < 64 /\ a mod 4 * 16 < 64 /\ a mod 16 * 4 < 64)%N.
Proof. intros. repeat split; divmod. Qed.

Lemma regroup (a b c : N) :
  (a <= 255 -> b <= 255 -> c <= 255 ->
   a / 4 * 4 + (a mod 4 * 16 + b / 16) / 16 = a
   /\ (a mod 4 * 16 + b / 16) mod 16 * 16 + (b mod 16 * 4 + c / 64) / 4 = b
   /\ (b mod 16 * 4 + c / 64) mod 4 * 64 + c mod 64 = c
   /\ a / 4 * 4 + (a mod 4 * 16) / 16 = a
   /\ (a mod 4 * 16 + b / 16) mod 16 * 16 + (b mod 16 * 4) / 4 = b)%N.
Proof. intros. repeat split; divmod. Qed.

(** Decoding the encoder's output gives the bytes back. *)
Lemma from_base64_toString (b : Buffer) :
  from_base64 (toString_base64 b) = b.
Proof.
  unfold from_base64. induction b as [|x|x y|x y z l IH] using list_ind3.
  - reflexivity.
  - pose proof (Byte.to_N_bounded x) as Hx.
    destruct (sextet_bounds Hx Hx) as (B1 & _ & _ & _ & B2 & _).
    destruct (regroup Hx Hx Hx) as (_ & _ & _ & R & _).
    cbn [toString_base64]. rewrite !sextets_char by assumption.
    cbn [sextets Ascii.eqb Bool.eqb bytes_of_sextets].
    f_equal. apply byte_of_to_N. exact R.
  - pose proof (Byte.to_N_bounded x) as Hx.
    pose proof (Byte.to_N_bounded y) as Hy.
    destruct (sextet_bounds Hx Hy) as (B1 & B2 & _).
    destruct (sextet_bounds Hy Hy) as (_ & _ & _ & _ & _ & B3).
    destruct (regroup Hx Hy Hy) as (R1 & _ & _ & _ & R2).
    cbn [toString_base64]. rewrite !sextets_char by assumption.
    cbn [sextets Ascii.eqb Bool.eqb bytes_of_sextets].
    f_equal; [|f_equal]; apply byte_of_to_N; assumption.
  - pose proof (Byte.to_N_bounded x) as Hx.
    pose proof (Byte.to_N_bounded y) as Hy.
    pose proof (Byte.to_N_bounded z) as Hz.
    destruct (sextet_bounds Hx Hy) as (B1 & B2 & _).
    destruct (sextet_bounds Hy Hz) as (_ & _ & B3 & _).
    destruct (sextet_bounds Hz Hz) as (_ & _ & _ & B4 & _).
    destruct (regroup Hx Hy Hz) as (R1 & R2 & R3 & _).
    cbn [toString_base64]. rewrite !sextets_char by assumption.
    cbn [bytes_of_sextets]. rewrite IH.
    f_equal; [|f_equal; [|f_equal]]; apply byte_of_to_N; assumption.
Qed.

(** The encoder never writes a comma. *)
Lemma toString_base64_no_comma (b : Buffer) :
  includes (toString_base64 b) "," = false.
Proof.
  induction b as [|x|x y|x y z l IH] using list_ind3.
  - reflexivity.
  - pose proof (Byte.to_N_bounded x) as Hx.
    destruct (sextet_bounds Hx Hx) as (B1 & _ & _ & _ & B2 & _).
    cbn [toString_base64].
    rewrite !includes_skip by (apply base64_char_ok; assumption).
    reflexivity.
  - pose proof (Byte.to_N_bounded x) as Hx.
    pose proof (Byte.to_N_bounded y) as Hy.
    destruct (sextet_bounds Hx Hy) as (B1 & B2 & _).
    destruct (sextet_bounds Hy Hy) as (_ & _ & _ & _ & _ & B3).
    cbn [toString_base64].
    rewrite !includes_skip by (apply base64_char_ok; assumption).
    reflexivity.
  - pose proof (Byte.to_N_bounded x) as Hx.
    pose proof (Byte.to_N_bounded y) as Hy.
    pose proof (Byte.to_N_bounded z) as Hz.
    destruct (sextet_bounds Hx Hy) as (B1 & B2 & _).
    destruct (sextet_bounds Hy Hz) as (_ & _ & B3 & _).
    destruct (sextet_bounds Hz Hz) as (_ & _ & _ & B4 & _).
    cbn [toString_base64].
    rewrite !includes_skip by (apply base64_char_ok; assumption).
    exact IH.
Qed.

End Base64Facts.

Section Base64Claims.
Import JsString Utils Spec.

(** The second element of [s.split(',')]. *)
Lemma split_nonempty (s : string) (sep : ascii) : split s sep <> [].
Proof.
  destruct s as [|c s]; simpl; [discriminate|].
  destruct (Ascii.eqb c sep); [discriminate|].
  destruct (split s sep); discriminate.
Qed.

Lemma split_no_separator (s : string) (sep : ascii) :
  includes s (String sep EmptyString) = false -> split s sep = [s].
Proof.
  induction s as [|c s IH]; [reflexivity|].
  change (includes (String c s) (String sep EmptyString))
    with (Ascii.eqb c sep && startsWith s EmptyString
          || includes s (String sep EmptyString)).
  rewrite startsWith_nil, andb_true_r. intros H.
  apply orb_false_iff in H as [Hc Hs].
  simpl. rewrite Hc, (IH Hs). reflexivity.
Qed.

Lemma second_skip (c sep : ascii) (s : string) :
  Ascii.eqb c sep = false ->
  nth_error (split (String c s) sep) 1 = nth_error (split s sep) 1.
Proof.
  intros Hc. simpl. rewrite Hc.
  pose proof (split_nonempty s sep).
  destruct (split s sep); [congruence | reflexivity].
Qed.

Lemma second_after (a s : string) (sep : ascii) :
  includes a (String sep EmptyString) = false ->
  nth_error (split (a +:+ s) sep) 1 = nth_error (split s sep) 1.
Proof.
  induction a as [|c a IH]; [reflexivity|].
  change (includes (String c a) (String sep EmptyString))
    with (Ascii.eqb c sep && startsWith a EmptyString
          || includes a (String sep EmptyString)).
  rewrite startsWith_nil, andb_true_r. intros H.
  apply orb_false_iff in H as [Hc Ha].
  change (String c a +:+ s) with (String c (a +:+ s)).
  rewrite second_skip by exact Hc. apply IH, Ha.
Qed.

Lemma includes_after (a s p : string) :
  includes s p = true -> includes (a +:+ s) p = true.
Proof.
  intros H. induction a as [|c a IH]; [exact H|].
  change (String c a +:+ s) with (String c (a +:+ s)).
  simpl. rewrite IH. apply orb_true_r.
Qed.

Lemma dataUrl_payload (mime payload : string) :
  noComma mime -> noComma payload ->
  includes (dataUrl mime payload) "," = true
  /\ nth_error (split (dataUrl mime payload) ",") 1 = Some payload.
Proof.
  unfold noComma, dataUrl. intros Hm Hp. split.
  - apply (includes_after "data:"), includes_after.
    simpl. rewrite startsWith_nil. reflexivity.
  - rewrite (second_after "data:") by reflexivity.
    rewrite second_after by exact Hm.
    change (";base64," +:+ payload)
      with (";base64" +:+ String "," payload).
    rewrite (second_after ";base64") by reflexivity.
    simpl. rewrite (split_no_separator _ _ Hp). reflexivity.
Qed.

(** C7: for every byte buffer [b], [base64ToBuffer(bufferToBase64(b))] is
    [b]; and for a data URL [data:<mime>;base64,<payload>] (the media
    type and the payload have no comma), [base64ToBuffer] decodes the
    payload alone: the result is that of decoding the bare payload. *)
Theorem base64_round_trip :
  (forall b : Buffer, base64ToBuffer (bufferToBase64 b) = b)
  /\ (forall mime payload : string,
        noComma mime -> noComma payload ->
        base64ToBuffer (dataUrl mime payload) = NodeBuffer.from_base64 payload
        /\ base64ToBuffer (dataUrl mime payload) = base64ToBuffer payload).
Proof.
  split.
  - intros b. unfold base64ToBuffer, bufferToBase64.
    rewrite toString_base64_no_comma. apply from_base64_toString.
  - intros mime payload Hm Hp.
    destruct (dataUrl_payload Hm Hp) as [Hi Hs].
    assert (E : base64ToBuffer (dataUrl mime payload)
                = NodeBuffer.from_base64 payload).
    { unfold base64ToBuffer. rewrite Hi, Hs. reflexivity. }
    split; [exact E|]. rewrite E.
    unfold base64ToBuffer. unfold noComma in Hp. rewrite Hp. reflexivity.
Qed.

Lemma base64_round_trip_witness :
  base64ToBuffer "data:image/png;base64,TWFu" = [Byte.x4d; Byte.x61; Byte.x6e]
  /\ base64ToBuffer (bufferToBase64 [Byte.x4d; Byte.x61; Byte.x6e])
     = [Byte.x4d; Byte.x61; Byte.x6e].
Proof.
  split.
  - apply (proj1 (proj2 base64_round_trip "image/png" "TWFu"
                    (eq_refl : noComma "image/png")
                    (eq_refl : noComma "TWFu"))).
  - apply (proj1 base64_round_trip).
Defined.

End Base64Claims.

(* ================================================================= *)
(** ** The provider *)

Section ProviderFacts.
Import JsString VercelBlobProvider Recorder Spec.
Context {St : Type} (backend : Backend St).
Variable this : VercelBlobProvider.t.

Lemma resolveUrl_id (pathname : string) : resolveUrl pathname = pathname.
Proof. unfold resolveUrl. destruct (_ || _); reflexivity. Qed.

Lemma bind_run {S A B} (m : M S A) (k : A -> M S B) (st : S) :
  (m ≫= k) st =
    match m st with
    | (Ok a, st') => k a st'
    | (Throw e, st') => (Throw e, st')
    end.
Proof. reflexivity. Qed.

(** The provider's [head] turns every failure of the SDK's [head] and
    its empty answer into [null]. *)
Lemma head_run (pathname : string) (st : St) :
  head this pathname st =
    match sdk_head pathname (token this) st with
    | (Ok (Some r), st') =>
        (Ok (Some
           {| HeadResult.url := HeadBlobResult.url r;
              HeadResult.pathname := HeadBlobResult.pathname r;
              HeadResult.contentType := HeadBlobResult.contentType r;
              HeadResult.size := HeadBlobResult.size r;
              HeadResult.uploadedAt := HeadBlobResult.uploadedAt r;
              HeadResult.cacheControl := HeadBlobResult.cacheControl r;
              HeadResult.contentDisposition :=
                HeadBlobResult.contentDisposition r |}), st')
    | (Ok None, st') => (Ok None, st')
    | (Throw _, st') => (Ok None, st')
    end.
Proof.
  unfold head, tryCatch. rewrite bind_run, resolveUrl_id.
  destruct (sdk_head pathname (token this) st) as [[[r|]|e] st']; reflexivity.
Qed.

Lemma head_returns (pathname : string) (st : St) :
  exists r, fst (head this pathname st) = Ok r.
Proof.
  rewrite head_run.
  destruct (sdk_head pathname (token this) st) as [[[r|]|e] st']; simpl; eauto.
Qed.

Lemma exists_run (pathname : string) (st : St) :
  exists_ this pathname st =
    match head this pathname st with
    | (Ok (Some _), st') => (Ok true, st')
    | (Ok None, st') => (Ok false, st')
    | (Throw e, st') => (Throw e, st')
    end.
Proof.
  unfold exists_. rewrite bind_run.
  destruct (head this pathname st) as [[[r|]|e] st']; reflexivity.
Qed.

Lemma download_run (pathname : string) (st : St) :
  download this pathname st =
    match fetch pathname (authorization this) st with
    | (Ok response, st') =>
        if Response.ok response
        then (Response.arrayBuffer response, st')
        else (Throw (downloadFailed pathname response), st')
    | (Throw e, st') => (Throw e, st')
    end.
Proof.
  unfold download. cbv zeta. rewrite bind_run, resolveUrl_id.
  destruct (fetch pathname (authorization this) st) as [[response|e] st'];
    [destruct (Response.ok response)|]; try reflexivity.
  cbn [negb]. rewrite bind_run. unfold await.
  destruct (Response.arrayBuffer response); reflexivity.
Qed.

Lemma upload_run (pathname : string) (data : Buffer) (ct : option string) (st : St) :
  upload this pathname data (Some (contentTypeOnly ct)) st =
    match sdk_put pathname data (putOptions this ct) st with
    | (Ok r, st') => (Ok (uploadResult r), st')
    | (Throw e, st') => (Throw e, st')
    end.
Proof.
  unfold upload. rewrite bind_run. simpl.
  change {| PutCommandOptions.access := "public";
            PutCommandOptions.token := token this;
            PutCommandOptions.contentType := ct;
            PutCommandOptions.cacheControlMaxAge := None;
            PutCommandOptions.addRandomSuffix := false |}
    with (putOptions this ct).
  destruct (sdk_put pathname data (putOptions this ct) st) as [[r|e] st'];
    reflexivity.
Qed.

Lemma copy_run (src dst : string) (st : St) :
  copy this src dst st =
    match download this src st with
    | (Ok data, st1) =>
        match head this src st1 with
        | (Ok h, st2) =>
            upload this dst data
              (Some (contentTypeOnly (HeadResult.contentType <$> h))) st2
        | (Throw e, st2) => (Throw e, st2)
        end
    | (Throw e, st1) => (Throw e, st1)
    end.
Proof.
  unfold copy. rewrite bind_run.
  destruct (download this src st) as [[data|e] st1]; [|reflexivity].
  rewrite bind_run.
  destruct (head this src st1) as [[h|e] st2]; reflexivity.
Qed.

Lemma deleteMany_run (pathnames : list string) (st : St) :
  deleteMany this pathnames st =
    match pathnames with
    | [] => (Ok tt, st)
    | _ :: _ => sdk_del (DelMany pathnames) (token this) st
    end.
Proof.
  unfold deleteMany. destruct pathnames as [|p ps]; [reflexivity|].
  cbv zeta. rewrite (resolve_map _ (p :: ps) resolveUrl_id). reflexivity.
Qed.

End ProviderFacts.

Section ProviderClaims.
Import JsString VercelBlobProvider Recorder Spec.
Context {St : Type} (backend : Backend St).
Variable this : VercelBlobProvider.t.

(** What the operations ask of a backend that is being recorded. *)
Lemma logged_run {A} (req : Request) (m : M St A) (st : St) (log : list Request) :
  logged req m (st, log) = (fst (m st), (snd (m st), log ++ [req])).
Proof. unfold logged. destruct (m st); reflexivity. Qed.

Lemma requests_download (p : string) (st : St) :
  requests (download (backend := recording backend) this p) st
  = [ReqFetch p (authorization this)].
Proof.
  unfold requests. rewrite download_run.
  change (@fetch _ (recording backend) p (authorization this))
    with (logged (ReqFetch p (authorization this))
                 (fetch p (authorization this))).
  rewrite logged_run.
  destruct (fetch p (authorization this) st) as [[response|e] st']; simpl;
    [destruct (Response.ok response)|]; reflexivity.
Qed.

Lemma requests_downloadStream (p : string) (st : St) :
  requests (downloadStream (backend := recording backend) this p) st
  = [ReqFetch p (authorization this)].
Proof.
  unfold requests, downloadStream. cbv zeta. rewrite bind_run, resolveUrl_id.
  change (@fetch _ (recording backend) p (authorization this))
    with (logged (ReqFetch p (authorization this))
                 (fetch p (authorization this))).
  rewrite logged_run.
  destruct (fetch p (authorization this) st) as [[response|e] st']; simpl;
    [destruct (Response.ok response); simpl;
     [destruct (Response.body response)|]|]; reflexivity.
Qed.

Lemma requests_head (p : string) (st : St) :
  requests (head (backend := recording backend) this p) st
  = [ReqHead p (token this)].
Proof.
  unfold requests. rewrite head_run.
  change (@sdk_head _ (recording backend) p (token this))
    with (logged (ReqHead p (token this)) (sdk_head p (token this))).
  rewrite logged_run.
  destruct (sdk_head p (token this) st) as [[[r|]|e] st']; reflexivity.
Qed.

Lemma requests_delete (p : string) (st : St) :
  requests (delete (backend := recording backend) this p) st
  = [ReqDel (DelOne p) (token this)].
Proof.
  unfold requests, delete. cbv zeta. rewrite resolveUrl_id.
  change (@sdk_del _ (recording backend) (DelOne p) (token this))
    with (logged (ReqDel (DelOne p) (token this))
                 (sdk_del (DelOne p) (token this))).
  rewrite logged_run. reflexivity.
Qed.

Lemma requests_deleteMany (ps : list string) (st : St) :
  requests (deleteMany (backend := recording backend) this ps) st
  = match ps with
    | [] => []
    | _ :: _ => [ReqDel (DelMany ps) (token this)]
    end.
Proof.
  unfold requests. rewrite deleteMany_run. destruct ps as [|p ps]; [reflexivity|].
  change (@sdk_del _ (recording backend) (DelMany (p :: ps)) (token this))
    with (logged (ReqDel (DelMany (p :: ps)) (token this))
                 (sdk_del (DelMany (p :: ps)) (token this))).
  rewrite logged_run. reflexivity.
Qed.

(** C8: for every pathname, [exists] and [head] return (neither throws);
    [exists] returns false exactly when [head] returns null and true
    exactly when [head] returns metadata, leaving the same state; and
    when the backend reports a missing object, by an exception or by an
    empty answer, [head] returns null. *)
Theorem exists_and_head_never_throw (pathname : string) (st : St) :
  (exists r, fst (head this pathname st) = Ok r)
  /\ (exists b, fst (exists_ this pathname st) = Ok b)
  /\ (fst (exists_ this pathname st) = Ok false
      <-> fst (head this pathname st) = Ok None)
  /\ (fst (exists_ this pathname st) = Ok true
      <-> exists h, fst (head this pathname st) = Ok (Some h))
  /\ snd (exists_ this pathname st) = snd (head this pathname st)
  /\ (forall e st', sdk_head pathname (token this) st = (Throw e, st') ->
        head this pathname st = (Ok None, st')
        /\ exists_ this pathname st = (Ok false, st'))
  /\ (forall st', sdk_head pathname (token this) st = (Ok None, st') ->
        head this pathname st = (Ok None, st')
        /\ exists_ this pathname st = (Ok false, st')).
Proof.
  rewrite exists_run, head_run.
  destruct (sdk_head pathname (token this) st) as [[[r|]|e0] st0]; simpl;
    (split; [eauto|]); (split; [eauto|]).
  - split; [split; discriminate|].
    split; [split; eauto|].
    split; [reflexivity|].
    split; intros; discriminate.
  - split; [split; reflexivity|].
    split; [split; [discriminate | intros [h H]; discriminate]|].
    split; [reflexivity|].
    split; [intros; discriminate|].
    intros st' H. inversion H. subst. split; reflexivity.
  - split; [split; reflexivity|].
    split; [split; [discriminate | intros [h H]; discriminate]|].
    split; [reflexivity|].
    split; [|intros; discriminate].
    intros e st' H. inversion H. subst. split; reflexivity.
Qed.




(** C10: for an input that starts with [http://] or [https://],
    [resolveUrl] returns it unchanged, and [download], [downloadStream],
    [delete], [deleteMany] and [head] each make exactly one request to
    the backend, on that very string; the provider runs no host check
    (the statement holds for every such string, whatever its host). *)
Theorem provider_sends_url_unchecked (p : string) (st : St) :
  isHttpUrl p ->
  resolveUrl p = p
  /\ requests (download (backend := recording backend) this p) st
     = [ReqFetch p (authorization this)]
  /\ requests (downloadStream (backend := recording backend) this p) st
     = [ReqFetch p (authorization this)]
  /\ requests (delete (backend := recording backend) this p) st
     = [ReqDel (DelOne p) (token this)]
  /\ requests (head (backend := recording backend) this p) st
     = [ReqHead p (token this)]
  /\ (forall ps, Forall isHttpUrl ps ->
        requests (deleteMany (backend := recording backend) this (p :: ps)) st
        = [ReqDel (DelMany (p :: ps)) (token this)])
  /\ delete this p st = sdk_del (DelOne p) (token this) st.
Proof.
  intros Hp.
  split.
  { unfold resolveUrl. destruct Hp as [-> | ->]; [reflexivity|].
    rewrite orb_true_r. reflexivity. }
  split; [apply requests_download|].
  split; [apply requests_downloadStream|].
  split; [apply requests_delete|].
  split; [apply requests_head|].
  split; [intros ps _; apply requests_deleteMany|].
  unfold delete. cbv zeta. rewrite resolveUrl_id. reflexivity.
Qed.

(** C5, amended: [deleteMany] makes no request for an empty list and
    otherwise hands the whole list to the backend's batch delete in one
    request; its outcome, an error included, is that of the batch delete,
    and no further request follows. *)
Theorem deleteMany_is_one_batch_request (pathnames : list string) (st : St) :
  (pathnames = [] ->
     deleteMany this pathnames st = (Ok tt, st)
     /\ requests (deleteMany (backend := recording backend) this pathnames) st = [])
  /\ (pathnames <> [] ->
      deleteMany this pathnames st = sdk_del (DelMany pathnames) (token this) st
      /\ requests (deleteMany (backend := recording backend) this pathnames) st
         = [ReqDel (DelMany pathnames) (token this)]
      /\ forall e st',
           sdk_del (DelMany pathnames) (token this) st = (Throw e, st') ->
           deleteMany this pathnames st = (Throw e, st')).
Proof.
  rewrite deleteMany_run, requests_deleteMany.
  destruct pathnames as [|p ps].
  - split; [split; reflexivity | congruence].
  - split; [discriminate|]. intros _.
    split; [reflexivity|]. split; [reflexivity|]. intros e st' H. exact H.
Qed.


End ProviderClaims.

Section MemoryBlobFacts.
Import JsString VercelBlobProvider Spec MemoryBlob.

Lemma startsWith_append (a b : string) : startsWith (a +:+ b) a = true.
Proof.
  induction a as [|c a IH]; [apply startsWith_nil|].
  simpl. rewrite Ascii.eqb_refl, IH. reflexivity.
Qed.

Lemma substring_all (s : string) : substring 0 (strlen s) s = s.
Proof. induction s as [|c s IH]; [reflexivity|]. simpl. rewrite IH. reflexivity. Qed.

Lemma substring_append (a b : string) :
  substring (strlen a) (strlen (a +:+ b) - strlen a) (a +:+ b) = b.
Proof.
  induction a as [|c a IH].
  - simpl. rewrite Nat.sub_0_r. apply substring_all.
  - simpl. exact IH.
Qed.

Lemma keyOf_origin (k : string) : keyOf (origin +:+ k) = k.
Proof.
  unfold keyOf. rewrite startsWith_append. apply substring_append.
Qed.

Lemma origin_is_https (k : string) : startsWith (origin +:+ k) "https://" = true.
Proof. unfold origin. simpl. first [reflexivity | apply startsWith_nil]. Qed.

(** On the in-memory store, copying an object that is there, by its URL,
    leaves at the destination an object with the same bytes and the same
    content type, and changes nothing else. *)
Lemma MemoryBlob_copy (this : VercelBlobProvider.t) (st : Store)
      (k dst : string) (o : Object) :
  objects st !! k = Some o ->
  (origin +:+ k) ∉ failing st ->
  copy this (origin +:+ k) dst st
  = (Ok {| UploadResult.url := origin +:+ dst;
           UploadResult.pathname := dst;
           UploadResult.contentType := contentType o;
           UploadResult.size := 0 |},
     {| objects := <[dst := {| data := data o;
                               contentType := contentType o;
                               uploadedAt := clock st |}]> (objects st);
        failing := failing st;
        clock := (clock st + 1)%N |}).
Proof.
  intros Hk Hf.
  rewrite copy_run, download_run.
  change (@fetch _ backend) with fetch_. unfold fetch_.
  rewrite origin_is_https, orb_true_r, keyOf_origin, Hk. cbn [negb].
  change (Response.ok _) with true.
  unfold Response.arrayBuffer. cbn [Response.body]. cbn iota.
  rewrite head_run.
  change (@sdk_head _ backend) with head. unfold head.
  rewrite bool_decide_eq_false_2 by exact Hf.
  rewrite keyOf_origin, Hk. cbn [fmap option_fmap option_map HeadResult.contentType].
  rewrite upload_run. reflexivity.
Qed.

(** Copying from a URL under which nothing is stored fails with the
    download error for status 404 and leaves the store as it was. *)
Lemma MemoryBlob_copy_absent (this : VercelBlobProvider.t) (st : Store)
      (k dst : string) :
  objects st !! k = None ->
  copy this (origin +:+ k) dst st
  = (Throw (Error ("Failed to download " +:+ (origin +:+ k) +:+ ": 404 Not Found")),
     st).
Proof.
  intros Hk.
  rewrite copy_run, download_run.
  change (@fetch _ backend) with fetch_. unfold fetch_.
  rewrite origin_is_https, orb_true_r, keyOf_origin, Hk. reflexivity.
Qed.

End MemoryBlobFacts.

Section ProviderExamples.
Import JsString VercelBlobProvider Recorder Spec MemoryBlob.

Lemma provider_sends_url_unchecked_witness :
  Utils.isValidStorageHost "evil.example.com" = false
  /\ Utils.extractPathnameFromUrl PlainUrl.plain_URL
       "https://evil.example.com/attachments/x.pdf"
     = Throw Utils.UntrustedHost
  /\ requests (delete (backend := recording MemoryBlob.backend) client
                      "https://evil.example.com/attachments/x.pdf") example
     = [ReqDel (DelOne "https://evil.example.com/attachments/x.pdf") "secret"].
Proof.
  split; [reflexivity|]. split; [reflexivity|].
  apply (@provider_sends_url_unchecked _ MemoryBlob.backend client
           "https://evil.example.com/attachments/x.pdf" example
           (or_intror eq_refl)).
Defined.

(** C5 as stated fails on a backend that rejects a batch as a whole: in
    the example store a delete of [p2] alone fails and deletes of [p1] and
    of [p3] alone succeed, yet after [deleteMany([p1, p2, p3])], which
    throws, [p1] and [p3] are still there. *)
Lemma deleteMany_not_best_effort :
  fst (delete client p2 example) = Throw (Foreign "BlobError")
  /\ has (snd (delete client p1 example)) p1 = false
  /\ has (snd (delete client p3 example)) p3 = false
  /\ fst (deleteMany client [p1; p2; p3] example) = Throw (Foreign "BlobError")
  /\ has (snd (deleteMany client [p1; p2; p3] example)) p1 = true
  /\ has (snd (deleteMany client [p1; p2; p3] example)) p3 = true.
Proof. repeat split; vm_compute; reflexivity. Qed.

Lemma deleteMany_is_one_batch_request_witness :
  deleteMany client [p1; p3] example
  = sdk_del (DelMany [p1; p3]) "secret" example
  /\ has (snd (deleteMany client [p1; p3] example)) p1 = false
  /\ has (snd (deleteMany client [p1; p3] example)) p3 = false.
Proof.
  split; [|split; vm_compute; reflexivity].
  apply (proj2 (@deleteMany_is_one_batch_request _ MemoryBlob.backend client
                  [p1; p3] example)).
  discriminate.
Defined.



End ProviderExamples.

(* ================================================================= *)
(** ** The storage handle *)

Section HandleFacts.
Import JsString Index Spec.
Context {St : Type} (backend : Backend St).

Lemma inWorld_run {A} (m : M St A) (p : Process St) :
  fst (inWorld m p) = fst (m (world p))
  /\ world (snd (inWorld m p)) = snd (m (world p))
  /\ storageInstance (snd (inWorld m p)) = storageInstance p
  /\ constructed (snd (inWorld m p)) = constructed p
  /\ console (snd (inWorld m p)) = console p
  /\ env_BLOB_READ_WRITE_TOKEN (snd (inWorld m p)) = env_BLOB_READ_WRITE_TOKEN p.
Proof. unfold inWorld. destruct (m (world p)); simpl. tauto. Qed.

(** With an instance in the module variable, a call on the handle is the
    call on that instance. *)
Lemma storage_warm {A} (m : Method A) (p : Process St) (instance : VercelBlobProvider.t) :
  storageInstance p = Some instance ->
  storage m p = inWorld (apply instance m) p.
Proof.
  intros H. unfold storage. rewrite bind_run. unfold getStorage. rewrite H.
  reflexivity.
Qed.

Lemma getStorage_cold (p : Process St) :
  storageInstance p = None ->
  getStorage p
  = (Ok {| VercelBlobProvider.token := tokenFromEnv (env_BLOB_READ_WRITE_TOKEN p) |},
     afterConstruction p).
Proof. intros H. unfold getStorage. rewrite H. reflexivity. Qed.

Lemma storage_cold {A} (m : Method A) (p : Process St) :
  storageInstance p = None ->
  storage m p
  = inWorld (apply {| VercelBlobProvider.token :=
                        tokenFromEnv (env_BLOB_READ_WRITE_TOKEN p) |} m)
            (afterConstruction p).
Proof.
  intros H. unfold storage. rewrite bind_run, (getStorage_cold p H).
  reflexivity.
Qed.

(** Once set, the instance stays, and nothing is constructed again. *)
Lemma run_warm (calls : list {A : Type & Method A}) (p : Process St)
      (instance : VercelBlobProvider.t) :
  storageInstance p = Some instance ->
  storageInstance (run calls p) = Some instance
  /\ constructed (run calls p) = constructed p.
Proof.
  revert p. induction calls as [|[A m] calls IH]; intros p H; [auto|].
  simpl. rewrite (storage_warm m p H).
  destruct (inWorld_run (apply instance m) p) as (_ & _ & Hi & Hc & _).
  destruct (IH (snd (inWorld (apply instance m) p))) as [IH1 IH2].
  - rewrite Hi. exact H.
  - split; [exact IH1 | rewrite IH2; exact Hc].
Qed.

Lemma run_fresh (calls : list {A : Type & Method A}) (p : Process St) :
  fresh p ->
  match calls with
  | [] => run calls p = p
  | _ :: _ =>
      storageInstance (run calls p)
      = Some {| VercelBlobProvider.token :=
                  tokenFromEnv (env_BLOB_READ_WRITE_TOKEN p) |}
      /\ constructed (run calls p) = 1
  end.
Proof.
  intros [Hi Hc]. destruct calls as [|[A m] calls]; [reflexivity|].
  simpl. rewrite (storage_cold m p Hi).
  set (instance := {| VercelBlobProvider.token :=
                        tokenFromEnv (env_BLOB_READ_WRITE_TOKEN p) |}).
  destruct (inWorld_run (apply instance m) (afterConstruction p))
    as (_ & _ & Hi' & Hc' & _).
  destruct (run_warm calls (snd (inWorld (apply instance m) (afterConstruction p)))
                     (instance := instance)) as [R1 R2].
  - rewrite Hi'. reflexivity.
  - split; [exact R1|]. rewrite R2, Hc'. simpl. rewrite Hc. reflexivity.
Qed.

Lemma storage_run {A} (m : Method A) (p q : Process St)
      (instance : VercelBlobProvider.t) :
  getStorage p = (Ok instance, q) ->
  forwardsFrom (storage m) (apply instance m) p q.
Proof.
  intros H. unfold forwardsFrom, storage. rewrite bind_run, H.
  destruct (inWorld_run (apply instance m) q) as (H1 & H2 & H3 & H4 & H5 & H6).
  auto 10.
Qed.

(** C9: each of the ten contract operations, called on the handle, is
    that operation of the provider class called with the same arguments
    on the instance that [getStorage] returns: same result, same effect
    on the world, and nothing else changed.  [getStorage] returns the
    stored instance and leaves the process as it is when there is one;
    on first use it builds the instance from the environment, stores it
    and changes nothing else but the console, which gets the warning
    when the token is empty.  Over any sequence of calls from a fresh
    process the constructor runs at most once (exactly once when there
    is a call), and an instance, once stored, is the one used ever
    after. *)
Theorem storage_handle_forwards :
  (forall (p q : Process St) instance,
      getStorage p = (Ok instance, q) ->
      (forall pathname data options,
          forwardsFrom (storage (Upload pathname data options))
            (VercelBlobProvider.upload instance pathname data options) p q)
      /\ (forall pathname,
            forwardsFrom (storage (Download pathname))
              (VercelBlobProvider.download instance pathname) p q)
      /\ (forall pathname,
            forwardsFrom (storage (DownloadStream pathname))
              (VercelBlobProvider.downloadStream instance pathname) p q)
      /\ (forall pathname options,
            forwardsFrom (storage (GetUrl pathname options))
              (VercelBlobProvider.getUrl instance pathname options) p q)
      /\ (forall pathname,
            forwardsFrom (storage (Delete pathname))
              (VercelBlobProvider.delete instance pathname) p q)
      /\ (forall pathnames,
            forwardsFrom (storage (DeleteMany pathnames))
              (VercelBlobProvider.deleteMany instance pathnames) p q)
      /\ (forall sourcePathname destPathname,
            forwardsFrom (storage (Copy sourcePathname destPathname))
              (VercelBlobProvider.copy instance sourcePathname destPathname) p q)
      /\ (forall pathname,
            forwardsFrom (storage (Exists pathname))
              (VercelBlobProvider.exists_ instance pathname) p q)
      /\ (forall pathname,
            forwardsFrom (storage (Head pathname))
              (VercelBlobProvider.head instance pathname) p q)
      /\ (forall options,
            forwardsFrom (storage (List_ options))
              (VercelBlobProvider.list_ instance options) p q))
  /\ (forall (p : Process St) instance,
        storageInstance p = Some instance ->
        getStorage p = (Ok instance, p))
  /\ (forall p : Process St,
        storageInstance p = None ->
        let instance :=
          {| VercelBlobProvider.token :=
               tokenFromEnv (env_BLOB_READ_WRITE_TOKEN p) |} in
        exists q,
          getStorage p = (Ok instance, q)
          /\ world q = world p
          /\ storageInstance q = Some instance
          /\ constructed q = S (constructed p)
          /\ console q
             = console p
               ++ (if isEmpty (VercelBlobProvider.token instance) then [warning]
                   else [])
          /\ env_BLOB_READ_WRITE_TOKEN q = env_BLOB_READ_WRITE_TOKEN p)
  /\ (forall calls (p : Process St),
        fresh p ->
        constructed (run calls p) <= 1
        /\ (calls <> [] -> constructed (run calls p) = 1))
  /\ (forall calls (p : Process St) instance,
        storageInstance p = Some instance ->
        storageInstance (run calls p) = Some instance
        /\ constructed (run calls p) = constructed p).
Proof.
  split; [|split; [|split; [|split]]].
  - intros p q instance H.
    repeat match goal with |- _ /\ _ => split end; intros;
      match goal with
      | |- forwardsFrom (storage ?m) _ _ _ => exact (@storage_run _ m p q instance H)
      end.
  - intros p instance H. unfold getStorage. rewrite H. reflexivity.
  - intros p H instance. exists (afterConstruction p).
    rewrite (getStorage_cold p H). fold instance.
    unfold afterConstruction. cbn.
    repeat split. destruct (isEmpty _); [reflexivity | symmetry; apply app_nil_r].
  - intros calls p Hf. pose proof (run_fresh calls Hf) as H.
    destruct calls as [|c calls].
    + rewrite H. destruct Hf as [_ ->]. split; [lia | congruence].
    + destruct H as [_ ->]. split; [lia | reflexivity].
  - intros calls p instance H. apply run_warm, H.
Qed.

End HandleFacts.

(* ================================================================= *)
(** ** Further properties of the pathname utilities *)

Section MoreUtils.
Import JsString Utils PlainUrl Spec.

Lemma validatePathname_ok_iff (s : string) :
  validatePathname (JsString s) = Ok tt <->
  s <> EmptyString
  /\ includes s dotDotSlash = false
  /\ includes s dotDotBackslash = false
  /\ includes s nul = false.
Proof.
  rewrite validatePathname_string.
  destruct (isEmpty s) eqn:He.
  { apply isEmpty_true in He. split; [discriminate | tauto]. }
  apply isEmpty_false in He.
  destruct (includes s dotDotSlash); simpl;
    [split; [discriminate | intros (_ & ? & _); discriminate]|].
  destruct (includes s dotDotBackslash); simpl;
    [split; [discriminate | intros (_ & _ & ? & _); discriminate]|].
  destruct (includes s nul);
    [split; [discriminate | intros (_ & _ & _ & ?); discriminate]|].
  tauto.
Qed.

(** X1: Whatever [extractPathnameFromUrl] returns is a key that
    [validatePathname] accepts: it is not empty and has neither a
    traversal step nor a null byte. *)
Theorem extractPathnameFromUrl_returns_valid_pathname
  (new_URL : string -> option URL) (url p : string) :
  extractPathnameFromUrl new_URL url = Ok p ->
  validatePathname (JsString p) = Ok tt /\ p <> EmptyString.
Proof.
  unfold extractPathnameFromUrl.
  destruct (isEmpty url) eqn:Hu; [discriminate|].
  destruct (new_URL url) as [u|].
  - destruct (isValidStorageHost (host u)); [|discriminate]. cbn [negb].
    destruct (UriDecode.decodeURIComponent (substring1 (pathname u))) as [q|];
      [|discriminate].
    destruct (validatePathname (JsString q)) as [[]|e] eqn:Hv; [|discriminate].
    intros H. injection H as <-. split; [exact Hv|].
    apply validatePathname_ok_iff in Hv. tauto.
  - cbv zeta.
    destruct (includes (toLowerCase url) "://"); [discriminate|].
    destruct (Regex.test domainPattern url); [discriminate|].
    destruct (validatePathname (JsString url)) as [[]|e] eqn:Hv; [|discriminate].
    change (Ok tt ;; ?k) with k.
    destruct (isEmpty (stripLeadingSlash url)) eqn:Hp; [discriminate|].
    intros H. injection H as <-.
    apply isEmpty_false in Hp. split; [|exact Hp].
    apply validatePathname_ok_iff in Hv. destruct Hv as (_ & H1 & H2 & H3).
    apply validatePathname_ok_iff. unfold dotDotSlash, dotDotBackslash, nul in *.
    rewrite !stripLeadingSlash_includes by reflexivity. auto.
Qed.

Lemma extractPathnameFromUrl_returns_valid_pathname_witness :
  validatePathname (JsString "attachments/org1/file.pdf") = Ok tt
  /\ "attachments/org1/file.pdf" <> EmptyString.
Proof.
  apply (@extractPathnameFromUrl_returns_valid_pathname plain_URL
           "/attachments/org1/file.pdf" "attachments/org1/file.pdf").
  reflexivity.
Defined.

Lemma toLowerCase_append (a b : string) :
  toLowerCase (a +:+ b) = toLowerCase a +:+ toLowerCase b.
Proof. induction a as [|c a IH]; [reflexivity|]. simpl. rewrite IH. reflexivity. Qed.

Lemma lower_char_idempotent (c : ascii) : lower_char (lower_char c) = lower_char c.
Proof. destruct c as [[] [] [] [] [] [] [] []]; reflexivity. Qed.

Lemma toLowerCase_idempotent (s : string) : toLowerCase (toLowerCase s) = toLowerCase s.
Proof.
  induction s as [|c s IH]; [reflexivity|].
  simpl. rewrite lower_char_idempotent, IH. reflexivity.
Qed.

Lemma strlen_append (a b : string) : strlen (a +:+ b) = strlen a + strlen b.
Proof. induction a as [|c a IH]; [reflexivity|]. simpl. f_equal. exact IH. Qed.

Lemma endsWith_append (a b : string) : endsWith (a +:+ b) b = true.
Proof.
  unfold endsWith. rewrite strlen_append.
  replace (strlen a + strlen b - strlen b) with (strlen a) by lia.
  pose proof (substring_append a b) as H. rewrite strlen_append in H.
  replace (strlen a + strlen b - strlen a) with (strlen b) in H by lia.
  rewrite H, String.eqb_refl, andb_true_r. apply Nat.leb_le. lia.
Qed.

(** X6: Every host that ends with [.vercel-storage.com], in any letter case,
    is on the allow-list, whatever stands before the suffix; and the
    verdict on a host depends on its lower-case form only. *)
Theorem isValidStorageHost_subdomains (h h' : string) :
  toLowerCase h = toLowerCase h' ->
  isValidStorageHost h = isValidStorageHost h'
  /\ (forall pre suffix,
        toLowerCase suffix = ".vercel-storage.com" ->
        isValidStorageHost (pre +:+ suffix) = true).
Proof.
  intros H. split.
  - unfold isValidStorageHost. rewrite H. reflexivity.
  - intros pre suffix Hs. unfold isValidStorageHost. cbv zeta.
    rewrite toLowerCase_append, Hs, endsWith_append, orb_true_r. reflexivity.
Qed.

Lemma isValidStorageHost_subdomains_witness :
  isValidStorageHost "S3.Amazonaws.Com" = isValidStorageHost "s3.amazonaws.com"
  /\ isValidStorageHost "anything.at-all.Vercel-Storage.COM" = true.
Proof.
  destruct (@isValidStorageHost_subdomains "S3.Amazonaws.Com" "s3.amazonaws.com"
              eq_refl) as [H1 H2].
  split; [exact H1|].
  apply (H2 "anything.at-all" ".Vercel-Storage.COM"). reflexivity.
Defined.

Lemma split_first (a b : string) (sep : ascii) :
  includes a (String sep EmptyString) = false ->
  split (a +:+ String sep b) sep = a :: split b sep.
Proof.
  induction a as [|c a IH]; intros H.
  - simpl. rewrite Ascii.eqb_refl. reflexivity.
  - change (includes (String c a) (String sep EmptyString))
      with (Ascii.eqb c sep && startsWith a EmptyString
            || includes a (String sep EmptyString)) in H.
    rewrite startsWith_nil, andb_true_r in H.
    apply orb_false_iff in H as [Hc Ha].
    change (String c a +:+ String sep b) with (String c (a +:+ String sep b)).
    simpl. rewrite Hc, (IH Ha). reflexivity.
Qed.

(** X8: [base64ToBuffer] decodes what stands between the first and the second
    comma: any text before the first comma is dropped, whether or not it
    is a data-URL header, and so is everything from a second comma on. *)
Theorem base64ToBuffer_between_commas (before payload : string) :
  noComma before -> noComma payload ->
  base64ToBuffer (before +:+ "," +:+ payload) = NodeBuffer.from_base64 payload
  /\ (forall after,
        base64ToBuffer (before +:+ "," +:+ payload +:+ "," +:+ after)
        = NodeBuffer.from_base64 payload).
Proof.
  unfold noComma. intros Hb Hp.
  assert (Hin : forall rest, includes (before +:+ "," +:+ rest) "," = true).
  { intros rest. apply includes_after. simpl. rewrite startsWith_nil. reflexivity. }
  split; [|intros after]; unfold base64ToBuffer; rewrite Hin.
  - change (before +:+ "," +:+ payload) with (before +:+ String "," payload).
    rewrite (@split_first _ _ _ Hb), (split_no_separator _ _ Hp). reflexivity.
  - change (before +:+ "," +:+ payload +:+ "," +:+ after)
      with (before +:+ String "," (payload +:+ String "," after)).
    rewrite (@split_first _ _ _ Hb), (@split_first _ _ _ Hp). reflexivity.
Qed.

Lemma base64ToBuffer_between_commas_witness :
  base64ToBuffer "not a header,TWFu,ignored" = [Byte.x4d; Byte.x61; Byte.x6e].
Proof.
  apply (proj2 (@base64ToBuffer_between_commas "not a header" "TWFu"
                  eq_refl eq_refl) "ignored").
Defined.

End MoreUtils.

(* ================================================================= *)
(** ** Splitting and joining *)

Section SplitFacts.
Import JsString.

Lemma includes_char_cons (c a : ascii) (s : string) :
  includes (String a s) (String c EmptyString)
  = Ascii.eqb a c || includes s (String c EmptyString).
Proof. simpl. rewrite startsWith_nil, andb_true_r. reflexivity. Qed.

Lemma last_append {A} (l1 l2 : list A) (d : A) :
  l2 <> [] -> List.last (l1 ++ l2) d = List.last l2 d.
Proof.
  intros H. induction l1 as [|x l1 IH]; [reflexivity|].
  simpl. destruct (l1 ++ l2) eqn:E; [|exact IH].
  apply app_eq_nil in E. tauto.
Qed.

(** The pieces after a separator are the pieces of what follows it. *)
Lemma split_after (a b : string) (sep : ascii) :
  exists l, l <> [] /\ split (a +:+ String sep b) sep = l ++ split b sep.
Proof.
  induction a as [|c a (l & Hl & IH)].
  - exists [EmptyString]. split; [discriminate|].
    simpl. rewrite Ascii.eqb_refl. reflexivity.
  - change (String c a +:+ String sep b) with (String c (a +:+ String sep b)).
    simpl. rewrite IH. destruct (Ascii.eqb c sep).
    + exists (EmptyString :: l). split; [discriminate | reflexivity].
    + destruct l as [|h t]; [congruence|].
      exists (String c h :: t). split; [discriminate | reflexivity].
Qed.

Lemma last_split_after (a b : string) (sep : ascii) :
  List.last (split (a +:+ String sep b) sep) EmptyString
  = List.last (split b sep) EmptyString.
Proof.
  destruct (split_after a b sep) as (l & _ & ->).
  apply last_append, split_nonempty.
Qed.

(** No piece contains the separator, and a character that is not in the
    text is in none of its pieces. *)
Lemma split_pieces (s : string) (sep c : ascii) :
  (Ascii.eqb c sep = true \/ includes s (String c EmptyString) = false) ->
  Forall (fun piece => includes piece (String c EmptyString) = false) (split s sep).
Proof.
  induction s as [|a s IH]; intros H.
  - repeat constructor.
  - assert (H' : Ascii.eqb c sep = true \/ includes s (String c EmptyString) = false).
    { destruct H as [H|H]; [left; exact H|]. right.
      rewrite includes_char_cons in H. apply orb_false_iff in H. tauto. }
    specialize (IH H'). simpl.
    destruct (Ascii.eqb a sep) eqn:Ha; [constructor; [reflexivity | exact IH]|].
    pose proof (split_nonempty s sep).
    destruct (split s sep) as [|h t]; [congruence|].
    inversion IH as [|? ? Hh Ht]. subst. constructor; [|exact Ht].
    rewrite includes_char_cons, Hh, orb_false_r.
    destruct H as [H|H].
    + apply Ascii.eqb_eq in H. subst c. exact Ha.
    + rewrite includes_char_cons in H. apply orb_false_iff in H. tauto.
Qed.

Lemma last_in {A} (l : list A) (d : A) : l <> [] -> In (List.last l d) l.
Proof.
  induction l as [|x l IH]; [congruence|]. intros _.
  destruct l as [|y l]; [left; reflexivity|].
  right. apply IH. discriminate.
Qed.

(** Joining the pieces with the separator gives the text back. *)
Lemma concat_split (s : string) :
  String.concat "/" (split s "/") = s.
Proof.
  induction s as [|c s IH]; [reflexivity|].
  simpl split. pose proof (split_nonempty s "/") as Hn.
  destruct (Ascii.eqb c "/") eqn:Hc.
  - apply Ascii.eqb_eq in Hc. subst c.
    destruct (split s "/") as [|h t]; [congruence|].
    change (String.concat "/" (EmptyString :: h :: t))
      with (String "/" (String.concat "/" (h :: t))).
    rewrite IH. reflexivity.
  - destruct (split s "/") as [|h t]; [congruence|].
    destruct t as [|t1 t]; simpl in *; rewrite <- IH; reflexivity.
Qed.

Lemma split_lower (s : string) :
  split (toLowerCase s) "." = map toLowerCase (split s ".").
Proof.
  induction s as [|c s IH]; [reflexivity|].
  change (toLowerCase (String c s)) with (String (lower_char c) (toLowerCase s)).
  simpl split. rewrite (lower_char_keeps c ".") by reflexivity. rewrite IH.
  destruct (Ascii.eqb c "."); [reflexivity|].
  destruct (split s "."); reflexivity.
Qed.

Lemma last_map {A B} (f : A -> B) (l : list A) (d : A) :
  List.last (map f l) (f d) = f (List.last l d).
Proof.
  induction l as [|x l IH]; [reflexivity|].
  simpl. destruct l; [reflexivity | exact IH].
Qed.

End SplitFacts.

(* ================================================================= *)
(** ** Characters of a text *)

Section CharFacts.
Import JsString Words.

Lemma allChars_cons (p : ascii -> bool) (c : ascii) (s : string) :
  allChars p (String c s) = p c && allChars p s.
Proof. reflexivity. Qed.

Lemma allChars_append (p : ascii -> bool) (a b : string) :
  allChars p (a +:+ b) = allChars p a && allChars p b.
Proof.
  induction a as [|c a IH]; [reflexivity|].
  change (String c a +:+ b) with (String c (a +:+ b)).
  rewrite !allChars_cons, IH, andb_assoc. reflexivity.
Qed.

Lemma allChars_weaken (p q : ascii -> bool) (s : string) :
  (forall c, p c = true -> q c = true) ->
  allChars p s = true -> allChars q s = true.
Proof.
  intros Hpq. induction s as [|c s IH]; [reflexivity|].
  rewrite !allChars_cons. intros H. apply andb_true_iff in H as [H1 H2].
  rewrite (Hpq _ H1), (IH H2). reflexivity.
Qed.

Lemma allChars_substring (p : ascii -> bool) (s : string) (n m : nat) :
  allChars p s = true -> allChars p (substring n m s) = true.
Proof.
  revert n m. induction s as [|c s IH]; intros n m H.
  - destruct n, m; reflexivity.
  - rewrite allChars_cons in H. apply andb_true_iff in H as [H1 H2].
    destruct n as [|n]; [destruct m as [|m]|]; simpl; [reflexivity| |apply IH, H2].
    rewrite allChars_cons, H1. apply IH, H2.
Qed.

(** A pattern whose first code unit is not in the text is not in it. *)
Lemma includes_absent (c : ascii) (p s : string) :
  allChars (isNot c) s = true -> includes s (String c p) = false.
Proof.
  induction s as [|a s IH]; [reflexivity|].
  rewrite allChars_cons. intros H. apply andb_true_iff in H as [H1 H2].
  apply negb_true_iff in H1. rewrite includes_skip by exact H1. apply IH, H2.
Qed.

Lemma includes_after_absent (c : ascii) (p a b : string) :
  allChars (isNot c) a = true ->
  includes (a +:+ b) (String c p) = includes b (String c p).
Proof.
  induction a as [|x a IH]; [reflexivity|].
  rewrite allChars_cons. intros H. apply andb_true_iff in H as [H1 H2].
  apply negb_true_iff in H1.
  change (String x a +:+ b) with (String x (a +:+ b)).
  rewrite includes_skip by exact H1. apply IH, H2.
Qed.

Lemma absent_iff (c : ascii) (s : string) :
  includes s (String c EmptyString) = false <-> allChars (isNot c) s = true.
Proof.
  induction s as [|a s IH]; [split; reflexivity|].
  rewrite includes_char_cons, allChars_cons, orb_false_iff, andb_true_iff, IH.
  unfold isNot. rewrite negb_true_iff. tauto.
Qed.

Lemma startsWith_longer (s p q : string) :
  startsWith s (p +:+ q) = true -> startsWith s p = true.
Proof.
  revert s. induction p as [|c p IH]; intros s H; [apply startsWith_nil|].
  destruct s as [|a s]; [discriminate|].
  simpl in *. apply andb_true_iff in H as [H1 H2].
  rewrite H1, (IH _ H2). reflexivity.
Qed.

Lemma includes_nil (p : string) : includes EmptyString p = startsWith EmptyString p.
Proof. simpl. apply orb_false_r. Qed.

Lemma includes_cons (a : ascii) (s p : string) :
  includes (String a s) p = startsWith (String a s) p || includes s p.
Proof. reflexivity. Qed.

(** A text that does not contain [p] does not contain [p] followed by
    more. *)
Lemma includes_longer (s p q : string) :
  includes s p = false -> includes s (p +:+ q) = false.
Proof.
  induction s as [|a s IH].
  - rewrite !includes_nil. intros H.
    destruct (startsWith EmptyString (p +:+ q)) eqn:E; [|reflexivity].
    apply startsWith_longer in E. congruence.
  - rewrite !includes_cons. intros H.
    apply orb_false_iff in H as [H1 H2]. rewrite (IH H2), orb_false_r.
    destruct (startsWith (String a s) (p +:+ q)) eqn:E; [|reflexivity].
    apply startsWith_longer in E. congruence.
Qed.

Lemma startsWith_prefix (s p : string) (m : nat) :
  startsWith (substring 0 m s) p = true -> startsWith s p = true.
Proof.
  revert s m. induction p as [|c p IH]; intros s m H; [apply startsWith_nil|].
  destruct s as [|a s]; [destruct m; discriminate|].
  destruct m as [|m]; [discriminate|].
  simpl in *. apply andb_true_iff in H as [H1 H2].
  rewrite H1, (IH _ _ H2). reflexivity.
Qed.

(** A prefix contains no pattern that the text does not contain. *)
Lemma includes_prefix (s p : string) (m : nat) :
  includes s p = false -> includes (substring 0 m s) p = false.
Proof.
  revert m. induction s as [|a s IH]; intros m H.
  - destruct m; exact H.
  - rewrite includes_cons in H. apply orb_false_iff in H as [H1 H2].
    destruct m as [|m].
    + change (substring 0 0 (String a s)) with EmptyString.
      rewrite includes_nil.
      destruct (startsWith EmptyString p) eqn:E; [|reflexivity].
      apply (startsWith_prefix (String a s) p 0) in E. congruence.
    + change (substring 0 (S m) (String a s)) with (String a (substring 0 m s)).
      rewrite includes_cons, (IH m H2), orb_false_r.
      destruct (startsWith (String a (substring 0 m s)) p) eqn:E; [|reflexivity].
      apply (startsWith_prefix (String a s) p (S m)) in E. congruence.
Qed.

Lemma strlen_prefix (s : string) (m : nat) : strlen (substring 0 m s) <= m.
Proof.
  revert m. induction s as [|a s IH]; intros [|m]; simpl; try lia.
  specialize (IH m). lia.
Qed.

Lemma digits_of_uint (d : Decimal.uint) :
  allChars is_digit (NilEmpty.string_of_uint d) = true.
Proof. induction d; simpl; try reflexivity; rewrite allChars_cons; exact IHd. Qed.

(** The decimal form of a number is made of digits. *)
Lemma decimal_digits (n : N) : allChars is_digit (VercelBlobProvider.decimal n) = true.
Proof.
  unfold VercelBlobProvider.decimal, NilZero.string_of_uint.
  destruct (N.to_uint n) eqn:E; try reflexivity;
    rewrite <- E; apply digits_of_uint.
Qed.

End CharFacts.

(* ================================================================= *)
(** ** Content types and generated file names *)

Section FilenameFacts.
Import JsString Utils Filenames Words.

Lemma lastSegment_lower (f : string) :
  lastSegment (toLowerCase f) = toLowerCase (lastSegment f).
Proof.
  unfold lastSegment. rewrite split_lower.
  apply (last_map toLowerCase (split f ".") EmptyString).
Qed.

Lemma lastSegment_plain (ext : string) : noDot ext -> lastSegment ext = ext.
Proof. intros H. unfold lastSegment. rewrite (split_no_separator _ _ H). reflexivity. Qed.

Lemma lastSegment_after (base ext : string) :
  noDot ext -> lastSegment (base +:+ "." +:+ ext) = ext.
Proof.
  intros H. unfold lastSegment.
  change (base +:+ "." +:+ ext) with (base +:+ String "." ext).
  rewrite last_split_after. apply (lastSegment_plain H).
Qed.

Lemma lastSegment_absent (c : ascii) (f : string) :
  (Ascii.eqb c "." = true \/ includes f (String c EmptyString) = false) ->
  includes (lastSegment f) (String c EmptyString) = false.
Proof.
  intros H. pose proof (split_pieces f "." c H) as HF.
  rewrite Forall_forall in HF. apply HF.
  apply list_elem_of_In, last_in, split_nonempty.
Qed.

Lemma getContentType_of_segment (f g : string) :
  toLowerCase (lastSegment f) = toLowerCase (lastSegment g) ->
  getContentTypeFromFilename f = getContentTypeFromFilename g.
Proof. intros H. unfold getContentTypeFromFilename. rewrite H. reflexivity. Qed.

(** X9: The content type of a file name is decided by the text after its
    last dot, read in lower case: letter case never matters, and a name
    without a dot is its own extension. *)
Theorem getContentTypeFromFilename_by_extension (base ext : string) :
  noDot ext ->
  getContentTypeFromFilename (base +:+ "." +:+ ext) = getContentTypeFromFilename ext
  /\ (forall f, getContentTypeFromFilename (toLowerCase f)
                = getContentTypeFromFilename f).
Proof.
  intros H. split.
  - apply getContentType_of_segment.
    rewrite (lastSegment_after base H), (lastSegment_plain H). reflexivity.
  - intros f. apply getContentType_of_segment.
    rewrite lastSegment_lower, toLowerCase_idempotent. reflexivity.
Qed.

Lemma getContentTypeFromFilename_by_extension_witness :
  getContentTypeFromFilename "archive.tar.GZ" = JsString "application/gzip"
  /\ getContentTypeFromFilename "pdf" = JsString "application/pdf".
Proof.
  destruct (@getContentTypeFromFilename_by_extension "archive.tar" "GZ" eq_refl)
    as [H1 H2].
  split; [refine (eq_trans H1 _); rewrite <- H2|]; reflexivity.
Defined.

Lemma assoc_value (key v : string) (table : list (string * string)) :
  assoc key table = Some v -> In v (map snd table).
Proof.
  induction table as [|[k w] table IH]; [discriminate|].
  simpl. destruct (String.eqb k key); [|auto].
  intros H. injection H as ->. auto.
Qed.

Lemma mimeTypes_values (v : string) : In v (map snd mimeTypes) -> v <> EmptyString.
Proof.
  intros H Hv. subst v. revert H. cbv [map snd mimeTypes In].
  intuition discriminate.
Qed.

(** X10: [getContentTypeFromFilename] returns a non-empty string, the entry
    of the table or the generic binary type, for every file name except
    those whose extension in lower case is [constructor] or [__proto__]:
    for these it returns what the table object inherits under that name,
    which is no string. *)
Theorem getContentTypeFromFilename_string_or_inherited (filename : string) :
  let ext := toLowerCase (lastSegment filename) in
  (ext <> "constructor" -> ext <> "__proto__" ->
     exists mime,
       getContentTypeFromFilename filename = JsString mime
       /\ mime <> EmptyString
       /\ (assoc ext mimeTypes = None -> mime = octetStream)
       /\ (forall v, assoc ext mimeTypes = Some v -> mime = v))
  /\ (ext = "constructor" \/ ext = "__proto__" ->
      getContentTypeFromFilename filename = JsObject).
Proof.
  intros ext. unfold getContentTypeFromFilename. fold ext.
  assert (Hlow : toLowerCase ext = ext) by apply toLowerCase_idempotent.
  assert (He : (if isEmpty ext then EmptyString else ext) = ext)
    by (destruct ext; reflexivity).
  rewrite He. clear He. split.
  - intros H1 H2. unfold getProperty.
    destruct (assoc ext mimeTypes) as [v|] eqn:Ha.
    + pose proof (mimeTypes_values (assoc_value _ _ Ha)) as Hv.
      apply isEmpty_false in Hv. simpl. rewrite Hv. simpl.
      exists v. repeat split; [apply isEmpty_false; exact Hv | discriminate|].
      intros v' E. congruence.
    + destruct (existsb (String.eqb ext) objectPrototype) eqn:Hx.
      * exfalso. apply existsb_exists in Hx as (name & Hin & Heq).
        apply String.eqb_eq in Heq. subst name.
        cbv [objectPrototype In] in Hin.
        repeat (destruct Hin as [Hin|Hin];
                [first [ congruence | rewrite <- Hin in Hlow; discriminate Hlow ]|]).
        exact Hin.
      * exists octetStream. repeat split; [discriminate|].
        intros v E. discriminate.
  - intros [H|H]; rewrite H; reflexivity.
Qed.

Lemma getContentTypeFromFilename_string_or_inherited_witness :
  getContentTypeFromFilename "evil.Constructor" = JsObject.
Proof.
  apply (proj2 (getContentTypeFromFilename_string_or_inherited "evil.Constructor")).
  left. reflexivity.
Defined.

End FilenameFacts.

Section UniqueFilenameFacts.
Import JsString Utils Filenames Words.

Lemma replaceUnsafe_safe (s : string) : allChars safeChar (replaceUnsafe s) = true.
Proof.
  induction s as [|c s IH]; [reflexivity|].
  simpl. rewrite allChars_cons, IH, andb_true_r.
  destruct (safeChar c) eqn:E; [exact E | reflexivity].
Qed.

Lemma collapseDashes_keeps (p : ascii -> bool) (s : string) :
  allChars p s = true -> allChars p (collapseDashes s) = true.
Proof.
  induction s as [|c s IH]; [reflexivity|].
  rewrite allChars_cons. intros H. apply andb_true_iff in H as [H1 H2].
  simpl. destruct (Ascii.eqb c "-" && startsWith s "-"); [apply IH, H2|].
  rewrite allChars_cons, H1. apply IH, H2.
Qed.

Lemma startsWith_char (c : ascii) (s : string) :
  startsWith s (String c EmptyString)
  = match s with
    | EmptyString => false
    | String a _ => Ascii.eqb a c
    end.
Proof.
  destruct s as [|a s]; [reflexivity|].
  simpl. rewrite startsWith_nil. apply andb_true_r.
Qed.

Lemma collapseDashes_first (s : string) :
  startsWith (collapseDashes s) "-" = startsWith s "-".
Proof.
  induction s as [|c s IH]; [reflexivity|].
  simpl collapseDashes.
  destruct (Ascii.eqb c "-") eqn:Hc; simpl andb.
  - destruct (startsWith s "-") eqn:Hs.
    + rewrite IH, !startsWith_char, Hc. reflexivity.
    + rewrite !startsWith_char. reflexivity.
  - rewrite !startsWith_char. reflexivity.
Qed.

(** After the runs are collapsed no two dashes are adjacent. *)
Lemma collapseDashes_no_run (s : string) : includes (collapseDashes s) "--" = false.
Proof.
  induction s as [|c s IH]; [reflexivity|].
  simpl collapseDashes.
  destruct (Ascii.eqb c "-" && startsWith s "-") eqn:E; [exact IH|].
  rewrite includes_cons, IH, orb_false_r.
  change (startsWith (String c (collapseDashes s)) "--")
    with (Ascii.eqb c "-" && startsWith (collapseDashes s) "-").
  rewrite collapseDashes_first. exact E.
Qed.

Lemma safeChar_not_dot (c : ascii) : safeChar c = true -> isNot "." c = true.
Proof. destruct c as [[] [] [] [] [] [] [] []]; vm_compute; congruence. Qed.

Lemma safeChar_not_nul (c : ascii) : safeChar c = true -> isNot "000" c = true.
Proof. destruct c as [[] [] [] [] [] [] [] []]; vm_compute; congruence. Qed.

Lemma digit_safe (c : ascii) : is_digit c = true -> safeChar c = true.
Proof. destruct c as [[] [] [] [] [] [] [] []]; vm_compute; congruence. Qed.

Lemma sanitized_safe (baseName : string) :
  allChars safeChar (sanitizedOf baseName) = true
  /\ strlen (sanitizedOf baseName) <= 100
  /\ includes (sanitizedOf baseName) "--" = false.
Proof.
  unfold sanitizedOf. split; [|split].
  - apply allChars_substring, collapseDashes_keeps, replaceUnsafe_safe.
  - apply strlen_prefix.
  - apply includes_prefix, collapseDashes_no_run.
Qed.

End UniqueFilenameFacts.

Section UniqueFilenameClaims.
Import JsString Utils Filenames Words.





Lemma ext_shape (name : string) :
  extOf name = EmptyString
  \/ exists seg, extOf name = "." +:+ seg /\ noDot seg.
Proof.
  unfold extOf. destruct (includes name "."); [right | left; reflexivity].
  exists (lastSegment name). split; [reflexivity|].
  apply lastSegment_absent. left. reflexivity.
Qed.

Lemma ext_no_nul (name : string) :
  includes name nul = false -> includes (extOf name) nul = false.
Proof.
  intros H. unfold extOf. destruct (includes name "."); [|reflexivity].
  change ("." +:+ lastSegment name) with (String "." (lastSegment name)).
  unfold nul. rewrite includes_skip by reflexivity.
  apply lastSegment_absent. right. exact H.
Qed.






Lemma pieces_absent (c : ascii) (p S D R E : string) :
  allChars (isNot c) S = true -> isNot c "-" = true ->
  allChars (isNot c) D = true -> allChars (isNot c) R = true ->
  includes (S +:+ "-" +:+ D +:+ "-" +:+ R +:+ E) (String c p)
  = includes E (String c p).
Proof.
  intros HS Hd HD HR. apply negb_true_iff in Hd.
  rewrite (includes_after_absent _ _ _ _ HS).
  change ("-" +:+ D +:+ "-" +:+ R +:+ E) with (String "-" (D +:+ "-" +:+ R +:+ E)).
  rewrite includes_skip by exact Hd.
  rewrite (includes_after_absent _ _ _ _ HD).
  change ("-" +:+ R +:+ E) with (String "-" (R +:+ E)).
  rewrite includes_skip by exact Hd.
  apply (includes_after_absent _ _ _ _ HR).
Qed.

(** X12: A generated name is a pathname that [validatePathname] accepts, and
    it has no two dots in a row, whenever the six characters taken from
    the random text are letters or digits and the original name has no
    null byte. *)
Theorem generateUniqueFilename_is_valid (now : N) (randomText originalName : string) :
  allChars safeChar (substring 2 6 randomText) = true ->
  includes originalName nul = false ->
  validatePathname (JsString (generateUniqueFilename now randomText originalName))
  = Ok tt
  /\ includes (generateUniqueFilename now randomText originalName) ".." = false.
Proof.
  intros Hr Hn.
  change (generateUniqueFilename now randomText originalName)
    with (sanitizedOf (baseNameOf originalName) +:+ "-"
            +:+ VercelBlobProvider.decimal now +:+ "-"
            +:+ substring 2 6 randomText +:+ extOf originalName).
  destruct (sanitized_safe (baseNameOf originalName)) as (HS & _ & _).
  pose proof (ext_shape originalName) as HE.
  pose proof (ext_no_nul originalName Hn) as HEn.
  set (S := sanitizedOf (baseNameOf originalName)) in *.
  set (E := extOf originalName) in *.
  pose proof (decimal_digits now) as HD.
  assert (HD' : allChars safeChar (VercelBlobProvider.decimal now) = true)
    by (eapply allChars_weaken; [apply digit_safe | exact HD]).
  assert (Hdots : includes (S +:+ "-" +:+ VercelBlobProvider.decimal now +:+ "-"
                              +:+ substring 2 6 randomText +:+ E) ".." = false).
  { rewrite pieces_absent; try reflexivity;
      try (eapply allChars_weaken; [apply safeChar_not_dot | eassumption]).
    destruct HE as [-> | (seg & -> & Hseg)]; [reflexivity|].
    change ("." +:+ seg) with (String "." seg).
    rewrite includes_cons.
    change (startsWith (String "." seg) "..") with (startsWith seg ".").
    unfold noDot in Hseg. pose proof (proj1 (absent_iff _ _) Hseg) as Hall.
    rewrite (includes_absent _ "." _ Hall), orb_false_r, startsWith_char.
    destruct seg as [|a seg]; [reflexivity|].
    rewrite allChars_cons in Hall. apply andb_true_iff in Hall as [Ha _].
    apply negb_true_iff in Ha. exact Ha. }
  split; [|exact Hdots].
  apply validatePathname_ok_iff. split; [|split; [|split]].
  - destruct S; discriminate.
  - apply (includes_longer _ ".." "/" Hdots).
  - apply (includes_longer _ ".." (String "092" EmptyString) Hdots).
  - unfold nul. rewrite pieces_absent; try reflexivity;
      try (eapply allChars_weaken; [apply safeChar_not_nul | eassumption]).
    exact HEn.
Qed.

Lemma generateUniqueFilename_is_valid_witness :
  validatePathname
    (JsString (generateUniqueFilename 1700000000000 "0.k3j9x2ab71" "My Report (final).PDF"))
  = Ok tt
  /\ generateUniqueFilename 1700000000000 "0.k3j9x2ab71" "My Report (final).PDF"
     = "My-Report-final--1700000000000-k3j9x2.PDF".
Proof.
  split; [|reflexivity].
  exact (proj1 (@generateUniqueFilename_is_valid 1700000000000 "0.k3j9x2ab71"
                  "My Report (final).PDF" eq_refl eq_refl)).
Defined.

End UniqueFilenameClaims.

(* ================================================================= *)
(** ** Organization paths *)

Section OrgPathFacts.
Import JsString Utils OrgPath Words.

Lemma split_head (s : string) :
  exists h t,
    split s "/" = h :: t /\ includes h "/" = false
    /\ (t = [] -> s = h) /\ (t <> [] -> s = h +:+ "/" +:+ join t).
Proof.
  pose proof (concat_split s) as Hc.
  pose proof (split_pieces s "/" "/" (or_introl eq_refl)) as Hp.
  destruct (split s "/") as [|h t] eqn:E; [exfalso; exact (split_nonempty _ _ E)|].
  exists h, t. pose proof (Forall_inv Hp) as Hh. cbv beta in Hh.
  split; [reflexivity|]. split; [exact Hh|]. split.
  - intros ->. symmetry. exact Hc.
  - intros Ht. destruct t as [|t1 t]; [congruence|]. symmetry. exact Hc.
Qed.

Lemma includes_separator (a b : string) (sep : ascii) :
  includes (a +:+ String sep b) (String sep EmptyString) = true.
Proof.
  induction a as [|c a IH].
  - simpl. rewrite Ascii.eqb_refl, startsWith_nil. reflexivity.
  - change (String c a +:+ String sep b) with (String c (a +:+ String sep b)).
    rewrite includes_char_cons, IH. apply orb_true_r.
Qed.

Lemma startsWith_own_char (h rest : string) (c : ascii) :
  h <> EmptyString -> includes h (String c EmptyString) = false ->
  startsWith (h +:+ rest) (String c EmptyString) = false.
Proof.
  intros Hn Hh. destruct h as [|a h]; [congruence|].
  rewrite includes_char_cons in Hh. apply orb_false_iff in Hh as [Ha _].
  change (String a h +:+ rest) with (String a (h +:+ rest)).
  rewrite startsWith_char. exact Ha.
Qed.

(** X14: [parseOrgPath] cuts the pathname, less one leading slash, at its
    first slash: the organization id is the text before it, not empty
    and without a slash, and the path is all the text after it.  It
    returns nothing exactly when there is no slash to cut at or the text
    begins with one. *)
Theorem parseOrgPath_cuts_at_first_slash (pathname : string) :
  (forall r, parseOrgPath pathname = Some r ->
     stripLeadingSlash pathname = orgId r +:+ "/" +:+ path r
     /\ orgId r <> EmptyString /\ noSlash (orgId r))
  /\ (parseOrgPath pathname = None <->
      noSlash (stripLeadingSlash pathname)
      \/ startsWith (stripLeadingSlash pathname) "/" = true).
Proof.
  unfold parseOrgPath. cbv zeta.
  change (if startsWith pathname "/" then substring1 pathname else pathname)
    with (stripLeadingSlash pathname).
  destruct (split_head (stripLeadingSlash pathname))
    as (h & t & E & Hh & H1 & H2).
  rewrite E. cbn [List.hd List.tl].
  destruct t as [|t1 t].
  - cbn. split; [discriminate|]. split; [|reflexivity].
    intros _. left. unfold noSlash. rewrite (H1 eq_refl). exact Hh.
  - assert (Hs : stripLeadingSlash pathname = h +:+ "/" +:+ join (t1 :: t))
      by (apply H2; discriminate).
    change (List.length (h :: t1 :: t) <? 2)%nat with false. cbn [orb].
    destruct (isEmpty h) eqn:He.
    + apply isEmpty_true in He. subst h. split; [discriminate|].
      split; [|reflexivity]. intros _. right. rewrite Hs.
      change (EmptyString +:+ "/" +:+ join (t1 :: t))
        with (String "/" (join (t1 :: t))).
      rewrite startsWith_char. reflexivity.
    + apply isEmpty_false in He. split.
      * intros r Hr. injection Hr as <-. cbn [orgId path]. auto.
      * split; [discriminate|]. intros [Hno | Hst]; exfalso.
        -- unfold noSlash in Hno. rewrite Hs in Hno.
           change (h +:+ "/" +:+ join (t1 :: t))
             with (h +:+ String "/" (join (t1 :: t))) in Hno.
           rewrite includes_separator in Hno. discriminate.
        -- rewrite Hs, (@startsWith_own_char h _ "/" He Hh) in Hst. discriminate.
Qed.

(** X15: Parsing a built path gives the organization id back, with the joined
    clean parts as the path, for an organization id that is not empty
    and has no slash. *)
Theorem parseOrgPath_buildOrgPath (org : string) (parts : list string) :
  org <> EmptyString -> noSlash org ->
  parseOrgPath (buildOrgPath org parts)
  = Some {| orgId := org; path := join (map trimSlashes parts) |}.
Proof.
  intros Hn Hs. unfold parseOrgPath, buildOrgPath. cbv zeta.
  rewrite (@startsWith_own_char org _ "/" Hn Hs).
  change (org +:+ "/" +:+ join (map trimSlashes parts))
    with (org +:+ String "/" (join (map trimSlashes parts))).
  rewrite (@split_first _ _ _ Hs).
  pose proof (split_nonempty (join (map trimSlashes parts)) "/") as Hne.
  pose proof (concat_split (join (map trimSlashes parts))) as Hc.
  destruct (split (join (map trimSlashes parts)) "/") as [|t1 t]; [congruence|].
  change (List.length (org :: t1 :: t) <? 2)%nat with false.
  cbn [orb List.hd List.tl].
  apply isEmpty_false in Hn. rewrite Hn.
  unfold join at 1. rewrite Hc. reflexivity.
Qed.

Lemma parseOrgPath_buildOrgPath_witness :
  parseOrgPath (buildOrgPath "org_123" ["/policies/"; "2024//"; "a.pdf"])
  = Some {| orgId := "org_123"; path := "policies/2024/a.pdf" |}.
Proof.
  exact (@parseOrgPath_buildOrgPath "org_123" ["/policies/"; "2024//"; "a.pdf"]
           ltac:(discriminate) eq_refl).
Defined.

Lemma endsWith_char (c a : ascii) (r : string) :
  endsWith (String a r) (String c EmptyString)
  = if isEmpty r then Ascii.eqb a c else endsWith r (String c EmptyString).
Proof.
  unfold endsWith, strlen. cbn [String.length].
  replace (S (String.length r) - 1) with (String.length r) by lia.
  destruct r as [|b r].
  - cbn. destruct (Ascii.eqb a c); reflexivity.
  - cbn [isEmpty String.length].
    replace (S (String.length r) - 1) with (String.length r) by lia.
    reflexivity.
Qed.

Lemma dropLeadingSlashes_starts (s : string) :
  startsWith (dropLeadingSlashes s) "/" = false.
Proof.
  induction s as [|c s IH]; [reflexivity|].
  simpl. destruct (Ascii.eqb c "/") eqn:Hc; [exact IH|].
  rewrite startsWith_char. exact Hc.
Qed.

Lemma dropLeadingSlashes_fixed (s : string) :
  startsWith s "/" = false -> dropLeadingSlashes s = s.
Proof.
  destruct s as [|c s]; [reflexivity|].
  rewrite startsWith_char. simpl. intros ->. reflexivity.
Qed.

Lemma dropTrailingSlashes_starts (s : string) :
  startsWith s "/" = false -> startsWith (dropTrailingSlashes s) "/" = false.
Proof.
  destruct s as [|c s]; [reflexivity|].
  rewrite startsWith_char. simpl. intros H. rewrite H. cbn [andb].
  rewrite startsWith_char. exact H.
Qed.

Lemma dropTrailingSlashes_ends (s : string) :
  endsWith (dropTrailingSlashes s) "/" = false.
Proof.
  induction s as [|c s IH]; [reflexivity|].
  simpl. destruct (Ascii.eqb c "/" && isEmpty (dropTrailingSlashes s)) eqn:E;
    [reflexivity|].
  rewrite endsWith_char.
  destruct (isEmpty (dropTrailingSlashes s)); [|exact IH].
  rewrite andb_true_r in E. exact E.
Qed.

Lemma dropTrailingSlashes_fixed (s : string) :
  endsWith s "/" = false -> dropTrailingSlashes s = s.
Proof.
  induction s as [|c s IH]; [reflexivity|].
  rewrite endsWith_char. simpl. destruct s as [|b s].
  - cbn. intros ->. reflexivity.
  - cbn [isEmpty]. intros H. rewrite (IH H). cbn [isEmpty].
    rewrite andb_false_r. reflexivity.
Qed.

Lemma trimSlashes_clean (p : string) : cleanPart (trimSlashes p).
Proof.
  split.
  - apply dropTrailingSlashes_starts, dropLeadingSlashes_starts.
  - apply dropTrailingSlashes_ends.
Qed.

Lemma trimSlashes_fixed (p : string) : cleanPart p -> trimSlashes p = p.
Proof.
  intros [H1 H2]. unfold trimSlashes.
  rewrite (@dropLeadingSlashes_fixed p H1). apply dropTrailingSlashes_fixed, H2.
Qed.

(** X16: [buildOrgPath] changes a part only at its ends: a part with no slash
    at either end is kept as it is, dots and inner slashes included;
    every cleaned part has no slash at either end, so cleaning twice
    changes nothing. *)
Theorem buildOrgPath_trims_ends_only (org : string) (parts : list string) :
  (Forall cleanPart parts -> buildOrgPath org parts = org +:+ "/" +:+ join parts)
  /\ Forall cleanPart (map trimSlashes parts)
  /\ buildOrgPath org (map trimSlashes parts) = buildOrgPath org parts.
Proof.
  assert (Hfix : forall l, Forall cleanPart l -> map trimSlashes l = l).
  { induction 1 as [|x l Hx _ IH]; [reflexivity|].
    simpl. rewrite (@trimSlashes_fixed x Hx), IH. reflexivity. }
  assert (Hclean : Forall cleanPart (map trimSlashes parts)).
  { induction parts as [|x l IH]; constructor; [apply trimSlashes_clean | exact IH]. }
  split; [|split; [exact Hclean|]].
  - intros H. unfold buildOrgPath. cbv zeta. rewrite (Hfix _ H). reflexivity.
  - unfold buildOrgPath. cbv zeta. rewrite (Hfix _ Hclean). reflexivity.
Qed.

End OrgPathFacts.

(* ================================================================= *)
(** ** Cache-control texts *)

Section CacheControlFacts.
Import JsString VercelBlobProvider Words.

Lemma parse_acc (d : Decimal.uint) (p : positive) :
  fold_left (fun acc c => acc * 10 + (N_of_ascii c - 48))%N
    (list_ascii_of_string (NilEmpty.string_of_uint d)) (N.pos p)
  = N.pos (Pos.of_uint_acc d p).
Proof.
  revert p. induction d; intros p; [reflexivity|..];
    cbn [NilEmpty.string_of_uint list_ascii_of_string fold_left Pos.of_uint_acc];
    rewrite <- IHd; f_equal; vm_compute (N_of_ascii _ - 48)%N; lia.
Qed.

Lemma parse_uint (d : Decimal.uint) :
  parseInt (NilEmpty.string_of_uint d) = N.of_uint d.
Proof.
  unfold parseInt, N.of_uint.
  induction d; [reflexivity | exact IHd |..];
    cbn [NilEmpty.string_of_uint list_ascii_of_string fold_left Pos.of_uint];
    rewrite <- parse_acc; f_equal.
Qed.

Lemma parseInt_decimal (n : N) : parseInt (decimal n) = n.
Proof.
  unfold decimal. rewrite <- (DecimalN.Unsigned.of_to n) at 2.
  destruct (N.to_uint n); [reflexivity|..]; apply parse_uint.
Qed.

Lemma decimal_nonempty (n : N) : isEmpty (decimal n) = false.
Proof. unfold decimal. destruct (N.to_uint n); reflexivity. Qed.

Lemma digitsPrefix_append (d rest : string) :
  allChars is_digit d = true -> digitsPrefix rest = EmptyString ->
  digitsPrefix (d +:+ rest) = d.
Proof.
  intros Hd Hr. induction d as [|c d IH]; [exact Hr|].
  rewrite allChars_cons in Hd. apply andb_true_iff in Hd as [Hc Hd].
  change (String c d +:+ rest) with (String c (d +:+ rest)).
  simpl. rewrite Hc, (IH Hd). reflexivity.
Qed.

Lemma matchMaxAge_eq (s : string) :
  matchMaxAge s
  = let digits :=
      if startsWith s "max-age="
      then digitsPrefix (substring 8 (strlen s - 8) s)
      else EmptyString in
    if negb (isEmpty digits) then Some digits
    else match s with
         | EmptyString => None
         | String _ r => matchMaxAge r
         end.
Proof. destruct s; reflexivity. Qed.

Lemma matchMaxAge_here (x : string) :
  isEmpty (digitsPrefix x) = false ->
  matchMaxAge ("max-age=" +:+ x) = Some (digitsPrefix x).
Proof.
  intros H. rewrite matchMaxAge_eq. cbv zeta.
  rewrite startsWith_append.
  assert (E : substring 8 (strlen ("max-age=" +:+ x) - 8) ("max-age=" +:+ x) = x)
    by exact (substring_append "max-age=" x).
  rewrite !E, H. reflexivity.
Qed.

Lemma no_match_before (c : ascii) (b x : string) :
  allChars (isNot "=") (String c b) = true ->
  startsWith (String c b +:+ "max-age=" +:+ x) "max-age=" = false.
Proof.
  intros H.
  do 7 (destruct b as [|? b];
        [cbv [String.append startsWith]; cbn; rewrite ?andb_false_r; reflexivity|]).
  rewrite !allChars_cons in H.
  repeat (apply andb_true_iff in H as [? H]).
  cbv [String.append]. cbn [startsWith].
  match goal with H : isNot "=" ?a = true |- context [Ascii.eqb ?a "="] =>
    unfold isNot in H; apply negb_true_iff in H; rewrite H end.
  rewrite ?andb_false_r. reflexivity.
Qed.

Lemma matchMaxAge_skip (before x : string) :
  allChars (isNot "=") before = true ->
  matchMaxAge (before +:+ "max-age=" +:+ x) = matchMaxAge ("max-age=" +:+ x).
Proof.
  induction before as [|c b IH]; [reflexivity|]. intros H.
  rewrite matchMaxAge_eq. cbv zeta. rewrite (no_match_before _ _ _ H).
  change (String c b +:+ "max-age=" +:+ x) with (String c (b +:+ "max-age=" +:+ x)).
  cbn [isEmpty negb]. apply IH.
  rewrite allChars_cons in H. apply andb_true_iff in H. tauto.
Qed.

Lemma matchMaxAge_none (s : string) :
  includes s "max-age=" = false -> matchMaxAge s = None.
Proof.
  induction s as [|c s IH]; [reflexivity|].
  rewrite includes_cons. intros H. apply orb_false_iff in H as [H1 H2].
  rewrite matchMaxAge_eq. cbv zeta. rewrite H1. cbn [isEmpty negb]. exact (IH H2).
Qed.

(** X19: A cache-control text whose first [max-age=] is followed by the
    decimal digits of [n] gives [n], whatever other directives stand
    around it.  (Numbers from 2^53 on are rounded by the platform.) *)
Theorem parseCacheControl_reads_max_age (before rest : string) (n : N) :
  (n < 2 ^ 53)%N ->
  allChars (isNot "=") before = true ->
  digitsPrefix rest = EmptyString ->
  parseCacheControl (before +:+ "max-age=" +:+ decimal n +:+ rest) = n.
Proof.
  intros _ Hb Hr. unfold parseCacheControl.
  rewrite (matchMaxAge_skip _ _ Hb), matchMaxAge_here;
    rewrite (digitsPrefix_append _ _ (decimal_digits n) Hr).
  - apply parseInt_decimal.
  - apply decimal_nonempty.
Qed.

Lemma parseCacheControl_reads_max_age_witness :
  parseCacheControl "public, max-age=3600, immutable" = 3600%N.
Proof.
  exact (@parseCacheControl_reads_max_age "public, " ", immutable" 3600
           eq_refl eq_refl eq_refl).
Defined.

(** X20: Without [max-age=] in the text the result is one year, in seconds,
    when the text mentions [immutable], and zero otherwise; [s-maxage]
    is not read. *)
Theorem parseCacheControl_default (cacheControl : string) :
  includes cacheControl "max-age=" = false ->
  parseCacheControl cacheControl
  = if includes cacheControl "immutable" then 31536000%N else 0%N.
Proof.
  intros H. unfold parseCacheControl. rewrite (matchMaxAge_none _ H). reflexivity.
Qed.

Lemma parseCacheControl_default_witness :
  parseCacheControl "public, s-maxage=60, immutable" = 31536000%N
  /\ parseCacheControl "no-store" = 0%N.
Proof.
  split.
  - exact (@parseCacheControl_default "public, s-maxage=60, immutable" eq_refl).
  - exact (@parseCacheControl_default "no-store" eq_refl).
Defined.

End CacheControlFacts.

(* ================================================================= *)
(** ** Bucket pathnames *)

Section BucketFacts.
Import JsString Utils Types Words.

Lemma bucket_prefix_absent (bucket : StorageBucket) (c : ascii) (p key : string) :
  Ascii.eqb "/" c = false ->
  allChars (isNot c) (bucketName bucket) = true ->
  includes (buildPathname bucket key) (String c p) = includes key (String c p).
Proof.
  intros Hc Hb. unfold buildPathname, getBucketPrefix. cbv zeta.
  change (if startsWith key "/" then substring1 key else key)
    with (stripLeadingSlash key).
  assert (E : (bucketName bucket +:+ "/") +:+ stripLeadingSlash key
              = bucketName bucket +:+ String "/" (stripLeadingSlash key))
    by (destruct bucket; reflexivity).
  rewrite E, (includes_after_absent _ _ _ _ Hb), includes_skip by exact Hc.
  apply stripLeadingSlash_includes, Hc.
Qed.

(** X17: [buildPathname] checks nothing and adds no harm of its own: its
    result is never empty, and [validatePathname] accepts it exactly
    when the key has no parent-directory step and no null byte. *)
Theorem buildPathname_valid_iff (bucket : StorageBucket) (key : string) :
  validatePathname (JsString (buildPathname bucket key)) = Ok tt <->
  includes key dotDotSlash = false
  /\ includes key dotDotBackslash = false
  /\ includes key nul = false.
Proof.
  rewrite validatePathname_ok_iff.
  unfold dotDotSlash, dotDotBackslash, nul.
  rewrite !bucket_prefix_absent by (destruct bucket; reflexivity).
  split; [tauto|]. intros H. split; [|exact H].
  destruct bucket; discriminate.
Qed.

(** X18: Two calls of [buildPathname] give the same pathname only for the
    same bucket and for keys that are equal up to one leading slash:
    pathnames of different buckets never collide. *)
Theorem buildPathname_injective (b1 b2 : StorageBucket) (k1 k2 : string) :
  buildPathname b1 k1 = buildPathname b2 k2 ->
  b1 = b2 /\ stripLeadingSlash k1 = stripLeadingSlash k2.
Proof.
  unfold buildPathname, getBucketPrefix. cbv zeta.
  change (if startsWith k1 "/" then substring1 k1 else k1)
    with (stripLeadingSlash k1).
  change (if startsWith k2 "/" then substring1 k2 else k2)
    with (stripLeadingSlash k2).
  destruct b1, b2; cbn [bucketName]; cbv [String.append]; intros H;
    first [discriminate H | injection H as H; auto].
Qed.

Lemma buildPathname_injective_witness :
  attachments = attachments
  /\ stripLeadingSlash "/org1/a.pdf" = stripLeadingSlash "org1/a.pdf".
Proof.
  exact (@buildPathname_injective attachments attachments "/org1/a.pdf" "org1/a.pdf"
           eq_refl).
Defined.

End BucketFacts.

(* ================================================================= *)
(** ** More on the provider *)

Section GetUrlFacts.
Import JsString VercelBlobProvider Recorder Spec.
Context {St : Type} (backend : Backend St).
Variable this : VercelBlobProvider.t.

Lemma setDownload_pure (url value : string) (st : St) :
  snd (setDownload url value st) = st
  /\ forall msg, fst (setDownload url value st) <> Throw (Error msg).
Proof.
  unfold setDownload. destruct (urlWithSearchParam url "download" value);
    split; try reflexivity; intros msg; discriminate.
Qed.

Lemma getUrl_run (p : string) (o : option UrlOptions.t) (st : St) :
  getUrl this p o st =
    match sdk_head p (token this) st with
    | (Ok (Some r), st') =>
        match downloadValue o with
        | Some value => setDownload (HeadBlobResult.url r) value st'
        | None => (Ok (HeadBlobResult.url r), st')
        end
    | (_, st') => (Throw (Error ("File not found: " +:+ p)), st')
    end.
Proof.
  unfold getUrl. rewrite bind_run, head_run.
  destruct (sdk_head p (token this) st) as [[[r|]|e] st']; try reflexivity.
  unfold downloadValue. cbv zeta. cbn [HeadResult.url].
  destruct o as [o|]; [|reflexivity]. cbn [mbind option_bind].
  destruct (UrlOptions.download o) as [[]|]; try reflexivity.
  destruct (UrlOptions.filename o) as [f|]; [|reflexivity].
  destruct (isEmpty f); reflexivity.
Qed.

End GetUrlFacts.

Section ProviderMore.
Import JsString VercelBlobProvider Recorder Spec.
Context {St : Type} (backend : Backend St).
Variable this : VercelBlobProvider.t.

(** X23: [getUrl] throws [File not found] exactly when [exists] answers no;
    in particular every failure of the head request, whatever its cause,
    is reported as a missing file. *)
Theorem getUrl_not_found (p : string) (o : option UrlOptions.t) (st : St) :
  (fst (getUrl this p o st) = Throw (Error ("File not found: " +:+ p))
   <-> fst (exists_ this p st) = Ok false)
  /\ (forall e, fst (sdk_head p (token this) st) = Throw e ->
      fst (getUrl this p o st) = Throw (Error ("File not found: " +:+ p))).
Proof.
  rewrite getUrl_run, exists_run, head_run.
  destruct (sdk_head p (token this) st) as [[[r|]|e] st'];
    cbn [fst]; try (split; [tauto | reflexivity]).
  split; [|discriminate]. split; [|discriminate].
  intros H. exfalso. revert H.
  destruct (downloadValue o); [apply setDownload_pure | discriminate].
Qed.

Lemma requests_getUrl (p : string) (o : option UrlOptions.t) (st : St) :
  requests (getUrl (backend := recording backend) this p o) st
  = [ReqHead p (token this)].
Proof.
  unfold requests. rewrite getUrl_run.
  change (@sdk_head _ (recording backend) p (token this))
    with (logged (ReqHead p (token this)) (sdk_head p (token this))).
  rewrite logged_run.
  destruct (sdk_head p (token this) st) as [[[r|]|e] st']; try reflexivity.
  cbn [fst snd]. destruct (downloadValue o); [|reflexivity].
  rewrite (proj1 (setDownload_pure (recording backend) _ _ _)). reflexivity.
Qed.

(** X24: When the file is there and no download is asked for, [getUrl]
    returns the URL the store reports, unchanged: [expiresIn],
    [contentType] and [filename] have no effect, so the URL is neither
    signed nor limited in time.  Whatever the options, [getUrl] makes one
    head request and nothing else. *)
Theorem getUrl_returns_stored_url
        (p : string) (o : option UrlOptions.t) (st st' : St) (r : HeadBlobResult.t) :
  sdk_head p (token this) st = (Ok (Some r), st') ->
  o ≫= UrlOptions.download <> Some true ->
  getUrl this p o st = (Ok (HeadBlobResult.url r), st')
  /\ requests (getUrl (backend := recording backend) this p o) st
     = [ReqHead p (token this)].
Proof.
  intros Hh Hd. split; [|apply requests_getUrl].
  rewrite getUrl_run, Hh. unfold downloadValue. cbv zeta.
  destruct (o ≫= UrlOptions.download) as [[]|]; [congruence|reflexivity..].
Qed.


(** X21: Every upload is sent with public access and the provider's token,
    and its result reports size zero; the options [access], [metadata]
    and [contentDisposition] have no effect. *)
Theorem upload_is_always_public
        (p : string) (data : Buffer) (o : option UploadOptions.t) (st : St) :
  (exists po,
      requests (upload (backend := recording backend) this p data o) st
      = [ReqPut p data po]
      /\ PutCommandOptions.access po = "public"
      /\ PutCommandOptions.token po = token this
      /\ PutCommandOptions.contentType po = o ≫= UploadOptions.contentType)
  /\ (forall r, fst (upload this p data o st) = Ok r -> UploadResult.size r = 0%N)
  /\ (forall o',
        o ≫= UploadOptions.contentType = o' ≫= UploadOptions.contentType ->
        o ≫= UploadOptions.cacheControl = o' ≫= UploadOptions.cacheControl ->
        o ≫= UploadOptions.addRandomSuffix = o' ≫= UploadOptions.addRandomSuffix ->
        upload this p data o = upload this p data o').
Proof.
  split; [|split].
  - unfold requests, upload.
    match goal with
    | |- context [@sdk_put _ (recording backend) p data ?po] =>
        exists po;
        change (@sdk_put _ (recording backend) p data po)
          with (logged (ReqPut p data po) (sdk_put p data po))
    end.
    rewrite bind_run, logged_run.
    split; [|repeat split].
    destruct (sdk_put p data _ st) as [[r|e] st']; reflexivity.
  - intros r. unfold upload. rewrite bind_run.
    destruct (sdk_put p data _ st) as [[r'|e] st']; [|discriminate].
    cbn. intros H. injection H as <-. reflexivity.
  - intros o' H1 H2 H3. unfold upload. rewrite H1, H2, H3. reflexivity.
Qed.

End ProviderMore.

Section ProviderMoreExamples.
Import JsString VercelBlobProvider Recorder Spec MemoryBlob.

Lemma getUrl_returns_stored_url_witness :
  fst (getUrl client p1
         (Some {| UrlOptions.expiresIn := Some 3600%N;
                  UrlOptions.download := Some false;
                  UrlOptions.filename := Some "report.pdf";
                  UrlOptions.contentType := Some "application/pdf" |})
         example)
  = Ok (origin +:+ p1).
Proof.
  destruct (@getUrl_returns_stored_url _ MemoryBlob.backend client p1
              (Some {| UrlOptions.expiresIn := Some 3600%N;
                       UrlOptions.download := Some false;
                       UrlOptions.filename := Some "report.pdf";
                       UrlOptions.contentType := Some "application/pdf" |})
              example example
              {| HeadBlobResult.url := origin +:+ p1;
                 HeadBlobResult.pathname := p1;
                 HeadBlobResult.contentType := "application/pdf";
                 HeadBlobResult.size := 4;
                 HeadBlobResult.uploadedAt := 0;
                 HeadBlobResult.cacheControl := None;
                 HeadBlobResult.contentDisposition := None |}
              eq_refl ltac:(discriminate)) as [H _].
  rewrite H. reflexivity.
Defined.

End ProviderMoreExamples.

(* ================================================================= *)
(** ** The handle's console, and the callers *)

Section HandleMore.
Import JsString Index Spec AppStorage.
Context {St : Type} (backend : Backend St).

Lemma run_console_warm (calls : list {A : Type & Method A}) (p : Process St)
      (instance : VercelBlobProvider.t) :
  storageInstance p = Some instance -> console (run calls p) = console p.
Proof.
  revert p. induction calls as [|[A m] calls IH]; intros p H; [reflexivity|].
  simpl. rewrite (@storage_warm _ backend _ m p instance H).
  destruct (inWorld_run (apply instance m) p) as (_ & _ & Hi & _ & Hc & _).
  rewrite IH by (rewrite Hi; exact H). exact Hc.
Qed.

(** X25: Over any sequence of calls on the handle from a process that has
    not used it, the console gets the missing-token warning at most
    once: once when there is a call and the environment has no token,
    and nothing otherwise.  No call is refused for the missing token. *)
Theorem storage_warns_at_most_once
        (calls : list {A : Type & Method A}) (p : Process St) :
  fresh p ->
  console (run calls p)
  = console p ++
    match calls with
    | [] => []
    | _ :: _ =>
        if isEmpty (tokenFromEnv (env_BLOB_READ_WRITE_TOKEN p)) then [warning]
        else []
    end.
Proof.
  intros [Hi _]. destruct calls as [|[A m] calls]; [symmetry; apply app_nil_r|].
  simpl run. rewrite (@storage_cold _ backend _ m p Hi).
  set (instance := {| VercelBlobProvider.token :=
                        tokenFromEnv (env_BLOB_READ_WRITE_TOKEN p) |}).
  destruct (inWorld_run (apply instance m) (afterConstruction p))
    as (_ & _ & Hi' & _ & Hc & _).
  rewrite (@run_console_warm calls _ instance) by (rewrite Hi'; reflexivity).
  rewrite Hc. unfold afterConstruction. cbn [console].
  destruct (isEmpty _); [reflexivity | symmetry; apply app_nil_r].
Qed.

(** X26: [uploadFile] stores the same bytes whether it is given a buffer, its
    base64 text, or a data URL with that text: the three calls are the
    same call on the handle, to the pathname [bucket/key]. *)
Theorem uploadFile_decodes_base64
        (bucket key : string) (b : Buffer) (o : option FileOptions.t) :
  uploadFile bucket key (DataString (Utils.bufferToBase64 b)) o
  = uploadFile bucket key (DataBuffer b) o
  /\ (forall mime, noComma mime ->
      uploadFile bucket key (DataString (dataUrl mime (Utils.bufferToBase64 b))) o
      = uploadFile bucket key (DataBuffer b) o)
  /\ exists options,
       uploadFile bucket key (DataBuffer b) o
       = storage (Upload (bucket +:+ "/" +:+ key) b options).
Proof.
  assert (H1 : Utils.base64ToBuffer (Utils.bufferToBase64 b) = b).
  { unfold Utils.base64ToBuffer, Utils.bufferToBase64. cbv zeta.
    rewrite toString_base64_no_comma. apply from_base64_toString. }
  split; [|split].
  - unfold uploadFile. cbv zeta. rewrite H1. reflexivity.
  - intros mime Hm. unfold uploadFile. cbv zeta.
    assert (H2 : Utils.base64ToBuffer (dataUrl mime (Utils.bufferToBase64 b)) = b).
    { destruct (@dataUrl_payload mime (Utils.bufferToBase64 b) Hm
                  (toString_base64_no_comma b)) as [Hi Hn].
      unfold Utils.base64ToBuffer. cbv zeta. rewrite Hi, Hn.
      apply from_base64_toString. }
    rewrite H2. reflexivity.
  - eexists. reflexivity.
Qed.

(** X28: [deleteFromS3] never throws: it returns [true] when the delete on
    the handle succeeded and [false] when it threw, and changes the
    process as that delete does. *)
Theorem deleteFromS3_never_throws (s3Key : string) (p : Process St) :
  fst (deleteFromS3 s3Key p) = Ok (is_ok (fst (storage (Delete s3Key) p)))
  /\ snd (deleteFromS3 s3Key p) = snd (storage (Delete s3Key) p).
Proof.
  unfold deleteFromS3, tryCatch.
  change ((storage (Delete s3Key) ;; mret true) p)
    with (match storage (Delete s3Key) p with
          | (Ok _, p') => (Ok true, p')
          | (Throw e, p') => (Throw e, p')
          end).
  destruct (storage (Delete s3Key) p) as [[[]|e] p']; split; reflexivity.
Qed.

End HandleMore.

Section HandleExamples.
Import JsString Index Spec MemoryBlob.

Lemma storage_warns_at_most_once_witness :
  console
    (run [existT _ (Exists p1); existT _ (Delete p1); existT _ (Exists p1)]
         {| env_BLOB_READ_WRITE_TOKEN := None;
            console := [];
            storageInstance := None;
            constructed := 0;
            world := example |})
  = [warning].
Proof.
  exact (@storage_warns_at_most_once _ MemoryBlob.backend
           [existT _ (Exists p1); existT _ (Delete p1); existT _ (Exists p1)]
           {| env_BLOB_READ_WRITE_TOKEN := None;
              console := [];
              storageInstance := None;
              constructed := 0;
              world := example |}
           (conj eq_refl eq_refl)).
Defined.

End HandleExamples.

(* ================================================================= *)
(** ** The pattern matcher against what a pattern matches *)

Section RegexFacts.
Import JsString Regex RegexSemantics.

Lemma append_cons (c : ascii) (a b : string) :
  String c a +:+ b = String c (a +:+ b).
Proof. reflexivity. Qed.

Lemma append_nil_l (b : string) : EmptyString +:+ b = b.
Proof. reflexivity. Qed.

Lemma append_empty (a b : string) :
  a +:+ b = EmptyString -> a = EmptyString /\ b = EmptyString.
Proof. destruct a; [auto | discriminate]. Qed.

Lemma append_assoc (a b c : string) : (a +:+ b) +:+ c = a +:+ (b +:+ c).
Proof.
  induction a as [|x a IH]; [reflexivity|].
  rewrite !append_cons. f_equal. exact IH.
Qed.

Lemma no_match_Never (w rest : string) : ~ matches Never w rest.
Proof. intros H. inversion H. Qed.

(** [nullable] decides whether the pattern matches the empty text. *)
Lemma nullable_matches (r : regex) (rest : string) :
  nullable (isEmpty rest) r = true <-> matches r EmptyString rest.
Proof.
  split.
  - revert rest. induction r; intros rest H; simpl in H; try discriminate.
    + constructor.
    + destruct rest; [constructor | discriminate].
    + apply andb_true_iff in H as [H1 H2].
      change EmptyString with (EmptyString +:+ EmptyString).
      constructor; [apply IHr1 | apply IHr2]; assumption.
    + apply orb_true_iff in H as [H|H]; [apply MAltL | apply MAltR]; auto.
    + constructor.
  - intros H. remember EmptyString as w eqn:Hw.
    induction H; subst; simpl; try reflexivity; try discriminate.
    + apply append_empty in Hw as [-> ->].
      specialize (IHmatches1 eq_refl). rewrite append_nil_l in IHmatches1.
      rewrite IHmatches1, IHmatches2 by reflexivity. reflexivity.
    + rewrite IHmatches; reflexivity.
    + rewrite IHmatches by reflexivity. apply orb_true_r.
Qed.

Lemma seq_matches (r1 r2 : regex) (w rest : string) :
  matches (seq r1 r2) w rest <-> matches (Seq r1 r2) w rest.
Proof.
  assert (HN1 : forall r, matches (Seq Never r) w rest -> False).
  { intros r H. inversion H; subst. eapply no_match_Never; eauto. }
  assert (HN2 : forall r, matches (Seq r Never) w rest -> False).
  { intros r H. inversion H; subst. eapply no_match_Never; eauto. }
  assert (HE : forall r, matches r w rest <-> matches (Seq Eps r) w rest).
  { intros r. split.
    - intros H. change w with (EmptyString +:+ w). constructor; [constructor | exact H].
    - intros H. inversion H; subst.
      match goal with H1 : matches Eps _ _ |- _ => inversion H1; subst end.
      assumption. }
  destruct r1; destruct r2; simpl; try tauto;
    try (split; intros H; exfalso;
         first [eapply no_match_Never; exact H | exact (HN1 _ H) | exact (HN2 _ H)]);
    apply HE.
Qed.

Lemma alt_matches (r1 r2 : regex) (w rest : string) :
  matches (alt r1 r2) w rest <-> matches (Alt r1 r2) w rest.
Proof.
  assert (HL : forall r, matches r w rest <-> matches (Alt Never r) w rest).
  { intros r. split; [apply MAltR|].
    intros H. inversion H; subst; [exfalso; eapply no_match_Never; eauto | assumption]. }
  assert (HR : forall r, matches r w rest <-> matches (Alt r Never) w rest).
  { intros r. split; [apply MAltL|].
    intros H. inversion H; subst; [assumption | exfalso; eapply no_match_Never; eauto]. }
  destruct r1; destruct r2; simpl; try tauto; try apply HL; try apply HR.
Qed.

(** The derivative by [c] matches what the pattern matches after [c]. *)
Lemma deriv_sound (c : ascii) (r : regex) (w rest : string) :
  matches (deriv c r) w rest -> matches r (String c w) rest.
Proof.
  revert w rest. induction r; intros w rest H; simpl in H.
  - inversion H.
  - inversion H.
  - inversion H.
  - destruct (p c) eqn:Hp; inversion H; subst. constructor. exact Hp.
  - apply alt_matches in H. inversion H; subst.
    + match goal with H1 : matches (seq _ _) _ _ |- _ =>
        apply seq_matches in H1; inversion H1; subst end.
      change (String c (?a +:+ ?b)) with (String c a +:+ b).
      constructor; [apply IHr1|]; assumption.
    + destruct (nullable false r1) eqn:Hn;
        [|exfalso; eapply no_match_Never; eauto].
      change (String c w) with (EmptyString +:+ String c w).
      constructor; [|apply IHr2; assumption].
      apply nullable_matches. exact Hn.
  - apply alt_matches in H. inversion H; subst;
      [apply MAltL, IHr1 | apply MAltR, IHr2]; assumption.
  - apply seq_matches in H. inversion H; subst.
    change (String c (?a +:+ ?b)) with (String c a +:+ b).
    constructor; [apply IHr|]; assumption.
Qed.

Lemma deriv_complete (c : ascii) (r : regex) (w rest : string) :
  matches r (String c w) rest -> matches (deriv c r) w rest.
Proof.
  intros H. remember (String c w) as w0 eqn:Hw. revert w Hw.
  induction H as [rest | | p a rest Hp
                 | r1 r2 w1 w2 rest H1 IH1 H2 IH2
                 | r1 r2 w0 rest H IH | r1 r2 w0 rest H IH
                 | r rest | r w1 w2 rest H1 IH1 H2 IH2];
    intros v Hw; try discriminate.
  - injection Hw as -> <-. simpl. rewrite Hp. constructor.
  - simpl. apply alt_matches. destruct w1 as [|a w1].
    + apply MAltR. rewrite append_nil_l in Hw. subst w2.
      apply nullable_matches in H1. simpl in H1. rewrite H1.
      apply IH2. reflexivity.
    + apply MAltL. rewrite append_cons in Hw. injection Hw as -> <-.
      apply seq_matches. constructor; [apply IH1; reflexivity | assumption].
  - simpl. apply alt_matches. apply MAltL. apply IH. exact Hw.
  - simpl. apply alt_matches. apply MAltR. apply IH. exact Hw.
  - destruct w1 as [|a w1].
    + rewrite append_nil_l in Hw. apply IH2. exact Hw.
    + rewrite append_cons in Hw. injection Hw as -> <-. simpl.
      apply seq_matches. constructor; [apply IH1; reflexivity | assumption].
Qed.

(** [test] finds a match at the start of the text exactly when the
    pattern matches a prefix of it. *)
Lemma test_matches (r : regex) (s : string) :
  test r s = true <-> exists w rest, s = w +:+ rest /\ matches r w rest.
Proof.
  revert r. induction s as [|c s IH]; intros r; simpl.
  - rewrite (nullable_matches r EmptyString). split.
    + intros H. exists EmptyString, EmptyString. auto.
    + intros (w & rest & Hs & H). symmetry in Hs.
      apply append_empty in Hs as [-> ->]. exact H.
  - rewrite orb_true_iff, IH. split.
    + intros [H | (w & rest & Hs & H)].
      * exists EmptyString, (String c s). split; [reflexivity|].
        apply (nullable_matches r (String c s)). exact H.
      * exists (String c w), rest. split; [rewrite append_cons; f_equal; exact Hs|].
        apply deriv_sound, H.
    + intros (w & rest & Hs & H). destruct w as [|a w].
      * left. rewrite append_nil_l in Hs. subst rest.
        apply (nullable_matches r (String c s)) in H. exact H.
      * right. rewrite append_cons in Hs. injection Hs as <- ->.
        exists w, rest. split; [reflexivity|].
        apply deriv_complete, H.
Qed.

End RegexFacts.

(* ================================================================= *)
(** ** The domain pattern and the S3 host pattern *)

Section DomainPatternFacts.
Import JsString Regex RegexSemantics Utils Words PlainUrl.

Lemma append_nil_r (s : string) : s +:+ EmptyString = s.
Proof.
  induction s as [|c s IH]; [reflexivity|]. rewrite append_cons. f_equal. exact IH.
Qed.

Lemma star_cls (p : ascii -> bool) (s rest : string) :
  allChars p s = true -> matches (Star (Cls p)) s rest.
Proof.
  revert rest. induction s as [|c s IH]; intros rest H; [constructor|].
  rewrite allChars_cons in H. apply andb_true_iff in H as [Hc Hs].
  change (String c s) with (String c EmptyString +:+ s).
  constructor; [constructor; exact Hc | apply IH, Hs].
Qed.

Lemma snoc_split (p : ascii -> bool) (t : string) :
  t <> EmptyString -> allChars p t = true ->
  exists init last,
    t = init +:+ String last EmptyString /\ allChars p init = true /\ p last = true.
Proof.
  induction t as [|c t IH]; [congruence|]. intros _ H.
  rewrite allChars_cons in H. apply andb_true_iff in H as [Hc Ht].
  destruct t as [|d t].
  - exists EmptyString, c. auto.
  - destruct IH as (init & last & E & Hi & Hl); [discriminate | exact Ht|].
    exists (String c init), last. rewrite E, allChars_cons, Hc, Hi. auto.
Qed.

Lemma alnum_alnumDash (c : ascii) : alnum c = true -> alnumDash c = true.
Proof. destruct c as [[] [] [] [] [] [] [] []]; vm_compute; congruence. Qed.

Lemma alnum_not_colon (c : ascii) : alnum c = true -> isNot ":" c = true.
Proof. destruct c as [[] [] [] [] [] [] [] []]; vm_compute; congruence. Qed.

Lemma alpha_not_colon (c : ascii) : alpha c = true -> isNot ":" c = true.
Proof. destruct c as [[] [] [] [] [] [] [] []]; vm_compute; congruence. Qed.

Lemma label_matches (name rest : string) :
  name <> EmptyString -> allChars alnum name = true -> matches label name rest.
Proof.
  intros Hn H. destruct name as [|a t]; [congruence|].
  rewrite allChars_cons in H. apply andb_true_iff in H as [Ha Ht].
  change (String a t) with (String a EmptyString +:+ t).
  constructor; [constructor; exact Ha|].
  destruct t as [|b t]; [apply MAltR; constructor|].
  apply MAltL.
  destruct (@snoc_split alnum (String b t)) as (init & last & -> & Hi & Hl);
    [discriminate | exact Ht|].
  constructor; [|constructor; exact Hl].
  apply star_cls. eapply allChars_weaken; [apply alnum_alnumDash | exact Hi].
Qed.

Lemma atLeast2_matches (ext rest : string) :
  2 <= strlen ext -> allChars alpha ext = true ->
  matches (AtLeast2 (Cls alpha)) ext rest.
Proof.
  intros Hl H. destruct ext as [|e1 [|e2 ext]]; [simpl in Hl; lia..|].
  rewrite !allChars_cons in H.
  apply andb_true_iff in H as [H1 H]. apply andb_true_iff in H as [H2 H3].
  change (String e1 (String e2 ext))
    with (String e1 EmptyString +:+ (String e2 EmptyString +:+ ext)).
  constructor; [constructor; exact H1|].
  constructor; [constructor; exact H2|].
  apply star_cls, H3.
Qed.

(** A name of letters and digits followed by a dot and two or more
    letters has the shape of a domain when the text ends there or goes
    on with a slash. *)
Lemma domainPattern_file_name (name ext rest : string) :
  name <> EmptyString -> allChars alnum name = true ->
  2 <= strlen ext -> allChars alpha ext = true ->
  rest = EmptyString \/ startsWith rest "/" = true ->
  test domainPattern (name +:+ "." +:+ ext +:+ rest) = true.
Proof.
  intros Hn Ha Hl He Hr. apply test_matches.
  assert (Hdom : forall tl out,
             matches (Alt (Chr "/") Eos) tl out ->
             matches domainPattern
                     (name +:+ (EmptyString +:+ (String "." EmptyString +:+ (ext +:+ tl))))
                     out).
  { intros tl out Ht. unfold domainPattern.
    apply MSeq; [apply (@label_matches name _ Hn Ha)|].
    apply MSeq; [apply MStarNil|].
    apply MSeq; [apply MCls; reflexivity|].
    apply MSeq; [apply (@atLeast2_matches ext _ Hl He) | exact Ht]. }
  destruct Hr as [-> | Hs].
  - eexists _, EmptyString. split; [|apply (Hdom EmptyString), MAltR; constructor].
    rewrite !append_nil_r. reflexivity.
  - destruct rest as [|c rest']; [discriminate|].
    rewrite startsWith_char in Hs. apply Ascii.eqb_eq in Hs. subst c.
    eexists _, rest'. split;
      [|apply (Hdom (String "/" EmptyString)), MAltL; constructor; reflexivity].
    rewrite !append_nil_l, !append_assoc. reflexivity.
Qed.

Lemma test_Never (s : string) : test Never s = false.
Proof. induction s as [|c s IH]; [reflexivity | exact IH]. Qed.

Lemma domainPattern_first (c : ascii) (s : string) :
  alnum c = false -> test domainPattern (String c s) = false.
Proof.
  intros H. change (test domainPattern (String c s))
    with (nullable false domainPattern || test (deriv c domainPattern) s).
  assert (E : deriv c domainPattern = Never).
  { unfold domainPattern, label. cbn [deriv nullable andb orb]. rewrite H. reflexivity. }
  rewrite E, test_Never. reflexivity.
Qed.

(** X2: A plain file name is refused: an input made of letters and digits, a
    dot and an extension of two or more letters, alone or followed by a
    slash and more, has the shape of a domain, and the call fails with
    [SuspiciousPattern] when the input is no URL. *)
Theorem extractPathnameFromUrl_rejects_bare_file_names
        (new_URL : string -> option URL) (name ext rest : string) :
  new_URL (name +:+ "." +:+ ext +:+ rest) = None ->
  name <> EmptyString -> allChars alnum name = true ->
  2 <= strlen ext -> allChars alpha ext = true ->
  rest = EmptyString \/ startsWith rest "/" = true ->
  includes rest "://" = false ->
  extractPathnameFromUrl new_URL (name +:+ "." +:+ ext +:+ rest)
  = Throw SuspiciousPattern.
Proof.
  intros Hu Hn Ha Hl He Hr Hc.
  assert (Hne : name +:+ "." +:+ ext +:+ rest <> EmptyString)
    by (destruct name; [congruence | discriminate]).
  rewrite (@extract_unparsed new_URL _ Hne Hu).
  assert (E : includes (name +:+ "." +:+ ext +:+ rest) "://" = false).
  { rewrite includes_after_absent
      by (eapply allChars_weaken; [apply alnum_not_colon | exact Ha]).
    change ("." +:+ ext +:+ rest) with (String "." (ext +:+ rest)).
    rewrite includes_skip by reflexivity.
    rewrite includes_after_absent
      by (eapply allChars_weaken; [apply alpha_not_colon | exact He]).
    exact Hc. }
  rewrite E, (@domainPattern_file_name name ext rest Hn Ha Hl He Hr). reflexivity.
Qed.

Lemma extractPathnameFromUrl_rejects_bare_file_names_witness :
  extractPathnameFromUrl plain_URL "report.pdf" = Throw SuspiciousPattern
  /\ extractPathnameFromUrl plain_URL "logo.png/v2" = Throw SuspiciousPattern.
Proof.
  split.
  - exact (@extractPathnameFromUrl_rejects_bare_file_names plain_URL
             "report" "pdf" EmptyString eq_refl ltac:(discriminate) eq_refl
             ltac:(cbv; lia) eq_refl (or_introl eq_refl) eq_refl).
  - exact (@extractPathnameFromUrl_rejects_bare_file_names plain_URL
             "logo" "png" "/v2" eq_refl ltac:(discriminate) eq_refl
             ltac:(cbv; lia) eq_refl (or_intror eq_refl) eq_refl).
Defined.

(** X3: With a slash in front the same text is accepted: an input that
    starts with a slash, is no URL and has no scheme separator gives the
    text after the slash whenever [validatePathname] accepts that
    text. *)
Theorem extractPathnameFromUrl_accepts_after_slash
        (new_URL : string -> option URL) (p : string) :
  new_URL (String "/" p) = None ->
  includes p "://" = false ->
  validatePathname (JsString p) = Ok tt ->
  extractPathnameFromUrl new_URL (String "/" p) = Ok p.
Proof.
  intros Hu Hc Hv.
  rewrite (@extract_unparsed new_URL (String "/" p) ltac:(discriminate) Hu).
  rewrite includes_skip by reflexivity. rewrite Hc.
  rewrite domainPattern_first by reflexivity.
  apply validatePathname_ok_iff in Hv. destruct Hv as (Hne & H1 & H2 & H3).
  assert (Hv' : validatePathname (JsString (String "/" p)) = Ok tt).
  { apply validatePathname_ok_iff. unfold dotDotSlash, dotDotBackslash, nul in *.
    rewrite !includes_skip by reflexivity. repeat split; auto. }
  rewrite Hv'. unfold stripLeadingSlash. rewrite startsWith_char.
  cbn [Ascii.eqb Bool.eqb substring1].
  apply isEmpty_false in Hne.
  change (Ok tt ;; ?k) with k. rewrite Hne. reflexivity.
Qed.

Lemma extractPathnameFromUrl_accepts_after_slash_witness :
  extractPathnameFromUrl plain_URL "/report.pdf" = Ok "report.pdf".
Proof.
  exact (@extractPathnameFromUrl_accepts_after_slash plain_URL "report.pdf"
           eq_refl eq_refl eq_refl).
Defined.

End DomainPatternFacts.

Section S3HostFacts.
Import JsString Regex RegexSemantics Utils Words.

Lemma lit_matches (s rest : string) : matches (Lit s) s rest.
Proof.
  revert rest. induction s as [|c s IH]; intros rest; [constructor|].
  change (String c s) with (String c EmptyString +:+ s). simpl Lit.
  apply MSeq; [apply MCls, Ascii.eqb_refl | apply IH].
Qed.

Lemma plus_cls (p : ascii -> bool) (s rest : string) :
  s <> EmptyString -> allChars p s = true -> matches (Plus (Cls p)) s rest.
Proof.
  intros Hn H. destruct s as [|c s]; [congruence|].
  rewrite allChars_cons in H. apply andb_true_iff in H as [Hc Hs].
  change (String c s) with (String c EmptyString +:+ s).
  apply MSeq; [apply MCls, Hc | apply star_cls, Hs].
Qed.

Lemma wordDotDash_lower (c : ascii) :
  wordDotDash c = true -> wordDotDash (lower_char c) = true.
Proof. destruct c as [[] [] [] [] [] [] [] []]; vm_compute; congruence. Qed.

Lemma wordDash_lower (c : ascii) :
  wordDash c = true -> wordDash (lower_char c) = true.
Proof. destruct c as [[] [] [] [] [] [] [] []]; vm_compute; congruence. Qed.

Lemma allChars_lower (p : ascii -> bool) (s : string) :
  (forall c, p c = true -> p (lower_char c) = true) ->
  allChars p s = true -> allChars p (toLowerCase s) = true.
Proof.
  intros Hp. induction s as [|c s IH]; [reflexivity|].
  change (toLowerCase (String c s)) with (String (lower_char c) (toLowerCase s)).
  rewrite !allChars_cons. intros H. apply andb_true_iff in H as [Hc Hs].
  rewrite (Hp c Hc), (IH Hs). reflexivity.
Qed.

Lemma toLowerCase_nonempty (s : string) :
  s <> EmptyString -> toLowerCase s <> EmptyString.
Proof. destruct s; [congruence | discriminate]. Qed.

Lemma s3HostPattern_endpoint (bucket region : string) :
  bucket <> EmptyString -> allChars wordDotDash bucket = true ->
  region <> EmptyString -> allChars wordDash region = true ->
  test s3HostPattern (bucket +:+ ".s3." +:+ region +:+ ".amazonaws.com") = true
  /\ test s3HostPattern ("s3." +:+ region +:+ ".amazonaws.com") = true.
Proof.
  intros Hb Hbc Hr Hrc.
  assert (Htail : matches
            (Seq (Alt (Lit "s3")
                    (Alt (Seq (Lit "s3-") (Plus (Cls wordDash)))
                       (Alt (Seq (Lit "s3-website") (Plus (Cls wordDotDash)))
                          (Alt (Lit "s3-accesspoint") (Lit "s3-control")))))
               (Seq (Opt (Seq (Chr ".") (Plus (Cls wordDash))))
                  (Seq (Lit ".amazonaws.com") Eos)))
            ("s3" +:+ ((String "." EmptyString +:+ region)
                       +:+ (".amazonaws.com" +:+ EmptyString)))
            EmptyString).
  { apply MSeq; [apply MAltL, lit_matches|].
    apply MSeq.
    - apply MAltL, MSeq; [apply MCls; reflexivity | apply (@plus_cls _ _ _ Hr Hrc)].
    - apply MSeq; [apply lit_matches | apply MEos]. }
  split; apply test_matches.
  - exists ((bucket +:+ String "." EmptyString)
            +:+ ("s3" +:+ ((String "." EmptyString +:+ region)
                           +:+ (".amazonaws.com" +:+ EmptyString)))),
           EmptyString.
    split.
    + rewrite !append_nil_r, !append_assoc. reflexivity.
    + unfold s3HostPattern. apply MSeq; [|exact Htail].
      apply MAltL, MSeq; [apply (@plus_cls _ _ _ Hb Hbc) | apply MCls; reflexivity].
  - exists (EmptyString
            +:+ ("s3" +:+ ((String "." EmptyString +:+ region)
                           +:+ (".amazonaws.com" +:+ EmptyString)))),
           EmptyString.
    split.
    + rewrite !append_nil_r, !append_nil_l, !append_assoc. reflexivity.
    + unfold s3HostPattern. apply MSeq; [|exact Htail].
      apply MAltR, MEps.
Qed.

(** X7: Hosts of the forms [<bucket>.s3.<region>.amazonaws.com] and
    [s3.<region>.amazonaws.com] are on the allow-list, for every bucket
    text of word characters, dots and dashes and every region text of
    word characters and dashes. *)
Theorem isValidStorageHost_s3_endpoints (bucket region : string) :
  bucket <> EmptyString -> allChars wordDotDash bucket = true ->
  region <> EmptyString -> allChars wordDash region = true ->
  isValidStorageHost (bucket +:+ ".s3." +:+ region +:+ ".amazonaws.com") = true
  /\ isValidStorageHost ("s3." +:+ region +:+ ".amazonaws.com") = true.
Proof.
  intros Hb Hbc Hr Hrc.
  destruct (@s3HostPattern_endpoint (toLowerCase bucket) (toLowerCase region)
              (@toLowerCase_nonempty _ Hb)
              (@allChars_lower _ _ wordDotDash_lower Hbc)
              (@toLowerCase_nonempty _ Hr)
              (@allChars_lower _ _ wordDash_lower Hrc)) as [T1 T2].
  assert (L1 : forall a b,
             toLowerCase (bucket +:+ a +:+ region +:+ b)
             = toLowerCase bucket +:+ toLowerCase a +:+ toLowerCase region
               +:+ toLowerCase b)
    by (intros; rewrite !toLowerCase_append; reflexivity).
  assert (L2 : toLowerCase ("s3." +:+ region +:+ ".amazonaws.com")
               = "s3." +:+ toLowerCase region +:+ ".amazonaws.com")
    by (rewrite !toLowerCase_append; reflexivity).
  assert (E1 : forall a, endsWith (toLowerCase bucket +:+ a +:+ toLowerCase region
                           +:+ ".amazonaws.com") ".amazonaws.com" = true).
  { intros a. rewrite <- !append_assoc. apply endsWith_append. }
  assert (E2 : endsWith ("s3." +:+ toLowerCase region +:+ ".amazonaws.com")
                        ".amazonaws.com" = true).
  { rewrite <- !append_assoc. apply endsWith_append. }
  rewrite !isValidStorageHost_allow_list, !L1, L2.
  change (toLowerCase ".s3.") with ".s3.".
  change (toLowerCase ".amazonaws.com") with ".amazonaws.com".
  rewrite !E1, E2, T1, T2, !orb_true_r. auto.
Qed.

Lemma isValidStorageHost_s3_endpoints_witness :
  isValidStorageHost "my-bucket.s3.eu-central-1.amazonaws.com" = true
  /\ isValidStorageHost "s3.eu-central-1.amazonaws.com" = true.
Proof.
  destruct (@isValidStorageHost_s3_endpoints "my-bucket" "eu-central-1"
              ltac:(discriminate) eq_refl ltac:(discriminate) eq_refl)
    as (H1 & H2).
  split; [exact H1 | exact H2].
Defined.

End S3HostFacts.

(* ================================================================= *)
(** ** Download URLs of the portal *)

Section PresignedFacts.
Import JsString Index Spec AppStorage.
Context {St : Type} (backend : Backend St).

(** X27: The download URL the portal calls presigned does not depend on
    [expiresIn]: it is what [getFileUrl] returns without options, and
    for a file that is there on a process with a provider it is the URL
    the store reports. *)
Theorem getPresignedDownloadUrl_ignores_expiry
        (bucketName key : string) (expiresIn : option N) (p : Process St) :
  getPresignedDownloadUrl bucketName key expiresIn p
  = getFileUrl bucketName key None p
  /\ (forall instance r w,
        storageInstance p = Some instance ->
        sdk_head (bucketName +:+ "/" +:+ key) (VercelBlobProvider.token instance)
                 (world p) = (Ok (Some r), w) ->
        fst (getPresignedDownloadUrl bucketName key expiresIn p)
        = Ok (HeadBlobResult.url r)).
Proof.
  split; [reflexivity|].
  intros instance r w Hi Hh.
  unfold getPresignedDownloadUrl, getFileUrl. cbv zeta.
  rewrite (@storage_warm _ backend _ _ p instance Hi).
  destruct (inWorld_run (apply instance
              (GetUrl (bucketName +:+ "/" +:+ key)
                 (Some {| UrlOptions.expiresIn := expiresIn;
                          UrlOptions.download := None;
                          UrlOptions.filename := None;
                          UrlOptions.contentType := None |}))) p) as [H _].
  rewrite H. cbn [apply]. rewrite getUrl_run, Hh. reflexivity.
Qed.

End PresignedFacts.

(* ================================================================= *)
(** ** The utilities together *)

Section RoundTrips.
Import JsString Regex Utils Types Filenames Words PlainUrl.

(** X13: A generated name has the content type of the original name
    whenever the original name has a dot: the extension is carried over
    as it is. *)
Theorem generateUniqueFilename_keeps_content_type
        (now : N) (randomText originalName : string) :
  includes originalName "." = true ->
  getContentTypeFromFilename (generateUniqueFilename now randomText originalName)
  = getContentTypeFromFilename originalName.
Proof.
  intros H. apply getContentType_of_segment. f_equal.
  unfold generateUniqueFilename. cbv zeta. rewrite H.
  set (S := substring 0 100 _).
  assert (Hseg : noDot (lastSegment originalName))
    by (apply lastSegment_absent; left; reflexivity).
  rewrite <- (@lastSegment_after
                (S +:+ "-" +:+ VercelBlobProvider.decimal now +:+ "-"
                   +:+ substring 2 6 randomText)
                (lastSegment originalName) Hseg) at 2.
  f_equal. rewrite !append_assoc. reflexivity.
Qed.

Lemma generateUniqueFilename_keeps_content_type_witness :
  getContentTypeFromFilename
    (generateUniqueFilename 1700000000000 "0.k3j9x2ab71" "Q3 report.final.XLSX")
  = JsString "application/vnd.openxmlformats-officedocument.spreadsheetml.sheet".
Proof.
  rewrite (@generateUniqueFilename_keeps_content_type 1700000000000 "0.k3j9x2ab71"
             "Q3 report.final.XLSX" eq_refl).
  reflexivity.
Defined.

Lemma domainPattern_bucket (bucket : StorageBucket) (key : string) :
  test domainPattern (buildPathname bucket key) = false.
Proof.
  unfold buildPathname, getBucketPrefix. cbv zeta.
  set (k := if startsWith key "/" then substring1 key else key).
  destruct bucket; cbn [bucketName]; cbv [String.append];
    cbn -[test]; 
    repeat (cbn [test deriv nullable orb andb]; cbn -[test]);
    apply test_Never.
Qed.

Lemma bucket_first_char (bucket : StorageBucket) (key : string) :
  stripLeadingSlash (buildPathname bucket key) = buildPathname bucket key
  /\ buildPathname bucket key <> EmptyString.
Proof.
  unfold buildPathname, getBucketPrefix, stripLeadingSlash. cbv zeta.
  destruct bucket; split; first [reflexivity | discriminate].
Qed.

(** X4: The pathnames [buildPathname] makes go through
    [extractPathnameFromUrl] unchanged: for a key without scheme
    separator, parent-directory step and null byte the built pathname,
    which is no URL, is returned as it is. *)
Theorem extractPathnameFromUrl_accepts_built_pathnames
        (new_URL : string -> option URL) (bucket : StorageBucket) (key : string) :
  new_URL (buildPathname bucket key) = None ->
  includes key "://" = false ->
  includes key dotDotSlash = false ->
  includes key dotDotBackslash = false ->
  includes key nul = false ->
  extractPathnameFromUrl new_URL (buildPathname bucket key)
  = Ok (buildPathname bucket key).
Proof.
  intros Hu Hc H1 H2 H3.
  destruct (bucket_first_char bucket key) as [Hs Hne].
  rewrite (@extract_unparsed new_URL _ Hne Hu), Hs.
  rewrite bucket_prefix_absent by (destruct bucket; reflexivity).
  rewrite Hc, domainPattern_bucket.
  assert (Hv : validatePathname (JsString (buildPathname bucket key)) = Ok tt).
  { apply validatePathname_ok_iff. unfold dotDotSlash, dotDotBackslash, nul in *.
    rewrite !bucket_prefix_absent by (destruct bucket; reflexivity). auto. }
  rewrite Hv. apply isEmpty_false in Hne. 
  change (Ok tt ;; ?k) with k. rewrite Hne. reflexivity.
Qed.

Lemma extractPathnameFromUrl_accepts_built_pathnames_witness :
  extractPathnameFromUrl plain_URL (buildPathname org_assets "/acme/logo.png")
  = Ok "org-assets/acme/logo.png".
Proof.
  exact (@extractPathnameFromUrl_accepts_built_pathnames plain_URL org_assets
           "/acme/logo.png" eq_refl eq_refl eq_refl eq_refl eq_refl).
Defined.

Lemma trailing_dots (t z : ascii) (d : string) :
  Ascii.eqb z "." = false -> Ascii.eqb t "." = false ->
  includes (d +:+ String z "/..") (String "." (String "." (String t EmptyString)))
  = includes (d +:+ String z EmptyString)
             (String "." (String "." (String t EmptyString))).
Proof.
  intros Hz Ht. induction d as [|c d IH].
  - cbv [String.append]. rewrite !includes_cons.
    cbn [startsWith]. rewrite includes_nil. cbn [startsWith].
    rewrite Hz, ?andb_false_r, ?andb_false_l. cbn.
    rewrite ?andb_false_r. reflexivity.
  - rewrite !append_cons, !includes_cons, IH. f_equal.
    destruct d as [|a [|b d]]; cbv [String.append]; cbn [startsWith];
      rewrite ?Hz, ?andb_false_r, ?andb_false_l; try reflexivity.
    rewrite !startsWith_nil. reflexivity.
Qed.

Lemma trailing_nul (z : ascii) (d : string) :
  includes (d +:+ String z "/..") nul = includes (d +:+ String z EmptyString) nul.
Proof.
  unfold nul. induction d as [|c d IH].
  - cbv [String.append]. rewrite !includes_char_cons, includes_nil.
    cbn. rewrite orb_false_r. reflexivity.
  - rewrite !append_cons, !includes_char_cons, IH. reflexivity.
Qed.

(** X5: The traversal check looks for a parent-directory step followed by a
    separator only: a pathname that [validatePathname] accepts and that
    does not end with a dot is still accepted with [/..] added at its
    end. *)
Theorem validatePathname_allows_trailing_dot_dot (d : string) (z : ascii) :
  Ascii.eqb z "." = false ->
  validatePathname (JsString (d +:+ String z EmptyString)) = Ok tt ->
  validatePathname (JsString (d +:+ String z "/..")) = Ok tt.
Proof.
  intros Hz Hv. apply validatePathname_ok_iff in Hv.
  destruct Hv as (_ & H1 & H2 & H3).
  apply validatePathname_ok_iff. unfold dotDotSlash, dotDotBackslash in *.
  rewrite !trailing_dots, trailing_nul by (exact Hz || reflexivity).
  repeat split; auto. destruct d; discriminate.
Qed.

Lemma validatePathname_allows_trailing_dot_dot_witness :
  validatePathname (JsString "attachments/org1/..") = Ok tt.
Proof.
  exact (@validatePathname_allows_trailing_dot_dot "attachments/org" "1"
           eq_refl eq_refl).
Defined.

End RoundTrips.

(* ================================================================= *)
(** ** Inputs that are URLs *)

Section DecodeFacts.
Import JsString Utils Words UriDecode Spec.

Lemma hexval_hexDigit (n : N) : (n < 16)%N -> hexval (hexDigit n) = Some n.
Proof.
  intros H. assert (Hn : exists k, (k < 16)%nat /\ n = N.of_nat k).
  { exists (N.to_nat n). split; [lia | symmetry; apply N2Nat.id]. }
  destruct Hn as (k & Hk & ->).
  do 16 (destruct k as [|k]; [reflexivity|]). lia.
Qed.

Lemma tokens_escape (c : ascii) (rest : string) :
  tokens (escape c rest)
  = match tokens rest with
    | Some ts => Some (Oct (N_of_ascii c) :: ts)
    | None => None
    end.
Proof.
  unfold escape. cbn [tokens]. rewrite Ascii.eqb_refl.
  pose proof (N_ascii_bounded c) as Hc.
  rewrite !hexval_hexDigit by divmod.
  replace (16 * (N_of_ascii c / 16) + N_of_ascii c mod 16)%N with (N_of_ascii c)
    by divmod.
  reflexivity.
Qed.

Lemma decode_escapeWhere (p : ascii -> bool) (t : string) :
  allChars isAscii t = true ->
  decodeURIComponent (escapeWhere p t) = Some t.
Proof.
  unfold decodeURIComponent.
  assert (H : allChars isAscii t = true ->
              exists ts, tokens (escapeWhere p t) = Some ts /\ assemble ts = Some t).
  { induction t as [|c t IH]; intros Ha; [exists []; split; reflexivity|].
    rewrite allChars_cons in Ha. apply andb_true_iff in Ha as [Hc Ht].
    destruct (IH Ht) as (ts & Hts & Has).
    cbn [escapeWhere]. destruct (p c || Ascii.eqb c "%") eqn:E.
    - exists (Oct (N_of_ascii c) :: ts). rewrite tokens_escape, Hts.
      split; [reflexivity|]. cbn [assemble]. unfold isAscii in Hc. rewrite Hc, Has.
      cbn. rewrite ascii_N_embedding. reflexivity.
    - apply orb_false_iff in E as [_ E]. exists (Lit c :: ts).
      cbn [tokens]. rewrite E, Hts. split; [reflexivity|].
      cbn [assemble]. rewrite Has. reflexivity. }
  intros Ha. destruct (H Ha) as (ts & -> & Hts). exact Hts.
Qed.

Lemma decode_plain (t : string) :
  includes t "%" = false -> decodeURIComponent t = Some t.
Proof.
  unfold decodeURIComponent.
  assert (H : includes t "%" = false ->
              exists ts, tokens t = Some ts /\ assemble ts = Some t).
  { induction t as [|c t IH]; intros Hn; [exists []; split; reflexivity|].
    rewrite includes_char_cons in Hn. apply orb_false_iff in Hn as [Hc Ht].
    destruct (IH Ht) as (ts & Hts & Has).
    exists (Lit c :: ts). cbn [tokens]. rewrite Hc, Hts. split; [reflexivity|].
    cbn [assemble]. rewrite Has. reflexivity. }
  intros Hn. destruct (H Hn) as (ts & -> & Hts). exact Hts.
Qed.

Lemma tokens_dangling (n : nat) (t : string) :
  strlen t <= n -> tokens (t +:+ "%") = None.
Proof.
  revert t. induction n as [|n IH]; intros t Hl.
  - destruct t; [reflexivity | simpl in Hl; lia].
  - destruct t as [|c t]; [reflexivity|].
    rewrite append_cons. cbn [tokens].
    assert (Ht : tokens (t +:+ "%") = None) by (apply IH; simpl in Hl; lia).
    destruct (Ascii.eqb c "%"); [|rewrite Ht; reflexivity].
    destruct t as [|h [|l t]]; [reflexivity| |].
    + cbv [String.append]. destruct (hexval h); reflexivity.
    + rewrite !append_cons.
      rewrite (IH t) by (simpl in Hl; simpl; lia).
      destruct (hexval h), (hexval l); reflexivity.
Qed.

Lemma decode_dangling (t : string) : decodeURIComponent (t +:+ "%") = None.
Proof.
  unfold decodeURIComponent. rewrite (@tokens_dangling (strlen t) t); auto.
Qed.

End DecodeFacts.

Section UrlClaims.
Import JsString Utils Words PlainUrl Spec.

(** C1 as stated fails on a URL whose path is no percent-encoding: on a
    trusted host the call neither returns nor fails with [UntrustedHost]
    or a validation error; the decoder's [URIError] comes out. *)
Lemma extractPathnameFromUrl_undecodable_path :
  plain_URL "https://store.public.blob.vercel-storage.com/attachments/100%.pdf"
  = Some {| host := "store.public.blob.vercel-storage.com";
            pathname := "/attachments/100%.pdf" |}
  /\ isValidStorageHost "store.public.blob.vercel-storage.com" = true
  /\ extractPathnameFromUrl plain_URL
       "https://store.public.blob.vercel-storage.com/attachments/100%.pdf"
     = Throw URIError
  /\ URIError <> UntrustedHost
  /\ (forall r, URIError <> InvalidPathname r).
Proof.
  split; [vm_compute; reflexivity|].
  split; [vm_compute; reflexivity|].
  split; [vm_compute; reflexivity|].
  split; [discriminate | intros []; discriminate].
Qed.

(** C1, amended: for an input that the URL constructor accepts, an
    untrusted host makes the call fail with [UntrustedHost].  On a
    trusted host the path without its first character is
    percent-decoded: when it is no percent-encoding the call fails with
    the decoder's [URIError]; otherwise the call returns the decoded
    path once [validatePathname] accepts it, and fails with the
    validation error when it does not.  Text without a percent sign
    decodes to itself, a percent-encoding of ASCII text decodes to that
    text, and a path that ends with a percent sign is no
    percent-encoding.  A URL with path [/attachments/x.pdf] gives
    ["attachments/x.pdf"] on a trusted host. *)
Theorem extractPathnameFromUrl_on_url
  (new_URL : string -> option URL) (url : string) (u : URL) :
  url <> EmptyString ->
  new_URL url = Some u ->
  (isValidStorageHost (host u) = false ->
     extractPathnameFromUrl new_URL url = Throw UntrustedHost)
  /\ (isValidStorageHost (host u) = true ->
      (UriDecode.decodeURIComponent (substring1 (pathname u)) = None ->
         extractPathnameFromUrl new_URL url = Throw URIError)
      /\ (forall p,
            UriDecode.decodeURIComponent (substring1 (pathname u)) = Some p ->
            (validatePathname (JsString p) = Ok tt ->
               extractPathnameFromUrl new_URL url = Ok p)
            /\ (forall e, validatePathname (JsString p) = Throw e ->
                  extractPathnameFromUrl new_URL url = Throw e))
      /\ (forall t,
            includes t "%" = false ->
            pathname u = "/" +:+ t ->
            extractPathnameFromUrl new_URL url
            = (validatePathname (JsString t) ;; Ok t))
      /\ (forall selected t,
            allChars isAscii t = true ->
            pathname u = "/" +:+ escapeWhere selected t ->
            extractPathnameFromUrl new_URL url
            = (validatePathname (JsString t) ;; Ok t))
      /\ (forall t,
            pathname u = "/" +:+ t +:+ "%" ->
            extractPathnameFromUrl new_URL url = Throw URIError)
      /\ (pathname u = "/attachments/x.pdf" ->
          extractPathnameFromUrl new_URL url = Ok "attachments/x.pdf")).
Proof.
  intros Hne Hp. rewrite (@extract_parsed new_URL url u Hne Hp).
  split; [intros ->; reflexivity|].
  intros ->. split; [intros ->; reflexivity|].
  split.
  { intros p ->. split; [intros ->; reflexivity | intros e ->; reflexivity]. }
  split.
  { intros t Ht ->. change (substring1 ("/" +:+ t)) with t.
    rewrite (decode_plain _ Ht). reflexivity. }
  split.
  { intros selected t Ht ->.
    change (substring1 ("/" +:+ escapeWhere selected t))
      with (escapeWhere selected t).
    rewrite (decode_escapeWhere selected _ Ht). reflexivity. }
  split.
  { intros t ->. change (substring1 ("/" +:+ t +:+ "%")) with (t +:+ "%").
    rewrite decode_dangling. reflexivity. }
  intros ->. reflexivity.
Qed.

Lemma extractPathnameFromUrl_on_url_witness :
  extractPathnameFromUrl plain_URL
    "https://example-tenant.public.blob.vercel-storage.com/attachments/x.pdf"
  = Ok "attachments/x.pdf"
  /\ extractPathnameFromUrl plain_URL
       "https://evil.example.com/attachments/x.pdf"
     = Throw UntrustedHost
  /\ extractPathnameFromUrl plain_URL
       "https://example-tenant.public.blob.vercel-storage.com/attachments/my%20file.pdf"
     = Ok "attachments/my file.pdf"
  /\ extractPathnameFromUrl plain_URL
       "https://example-tenant.public.blob.vercel-storage.com/attachments/100%"
     = Throw URIError.
Proof.
  split; [|split; [|split]].
  - refine (proj2 (proj2 (proj2 (proj2 (proj2 (proj2
      (@extractPathnameFromUrl_on_url plain_URL
         "https://example-tenant.public.blob.vercel-storage.com/attachments/x.pdf"
         {| host := "example-tenant.public.blob.vercel-storage.com";
            pathname := "/attachments/x.pdf" |} _ _) _))))) _);
      [discriminate | reflexivity | reflexivity | reflexivity].
  - refine (proj1 (@extractPathnameFromUrl_on_url plain_URL
      "https://evil.example.com/attachments/x.pdf"
      {| host := "evil.example.com"; pathname := "/attachments/x.pdf" |} _ _) _);
      [discriminate | reflexivity | reflexivity].
  - refine (eq_trans
      (proj1 (proj2 (proj2 (proj2 (proj2
         (@extractPathnameFromUrl_on_url plain_URL
            "https://example-tenant.public.blob.vercel-storage.com/attachments/my%20file.pdf"
            {| host := "example-tenant.public.blob.vercel-storage.com";
               pathname := "/attachments/my%20file.pdf" |} _ _) _))))
         (fun c => Ascii.eqb c " ") "attachments/my file.pdf" _ _) _);
      [discriminate | reflexivity | reflexivity | reflexivity | reflexivity
      | reflexivity].
  - refine (proj1 (proj2 (proj2 (proj2 (proj2 (proj2
      (@extractPathnameFromUrl_on_url plain_URL
         "https://example-tenant.public.blob.vercel-storage.com/attachments/100%"
         {| host := "example-tenant.public.blob.vercel-storage.com";
            pathname := "/attachments/100%" |} _ _) _))))) "attachments/100" _);
      [discriminate | reflexivity | reflexivity | reflexivity].
Defined.

End UrlClaims.
